(** * Spart: element builder, toast notifier and request wrapper

    A shallow embedding of [spart.js] ([createElement], [createSVGElement],
    [removeToast], [toast]) and of [fetch.js] ([_fetch], [getProblemDetail],
    [asFetchResponse], [showProblemDetail]).

    JavaScript values are an inductive type; the browser is a store of DOM
    nodes, a console, a timer queue and the toast registry, threaded
    through a state-and-exception monad.  What the browser decides (which
    names are valid, what a callback does, what the SVG parser returns,
    what the network answers) is a variable of the section. *)

From stdpp Require Import base option list strings gmap pretty.
From Stdlib Require Import ZArith Ascii String.

Local Open Scope string_scope.
Local Open Scope Z_scope.

(** ** JavaScript values *)

Module JS.

(** A reference to a DOM node and the name of a host function. *)
Abbreviation ref := nat (only parsing).
Abbreviation fid := nat (only parsing).

#[local] Set Warnings "-register-all".

(** Plain data as the two scripts handle it.  Objects list their own
    enumerable string-keyed properties in property order; arrays carry
    their elements and, as every JavaScript array may, named properties. *)
Inductive value : Type :=
  | VUndefined
  | VNull
  | VBool (b : bool)
  | VNum (n : Z)
  | VStr (s : string)
  | VNode (r : ref)
  | VFun (f : fid)
  | VArr (items : list value) (named : list (string * value))
  | VObj (fields : list (string * value)).

(** What a [throw] carries. *)
Inductive exn : Type :=
  | TypeError (msg : string)
  | InvalidCharacterError (name : string)
  | HierarchyRequestError
  | Error (msg : string)
  | Thrown (v : value).

(** ToBoolean. *)
Definition truthy (v : value) : bool :=
  match v with
  | VUndefined | VNull => false
  | VBool b => b
  | VNum n => negb (n =? 0)
  | VStr s => negb (String.eqb s EmptyString)
  | VNode _ | VFun _ | VArr _ _ | VObj _ => true
  end.

(** [v === undefined || v === null]. *)
Definition nullish (v : value) : bool :=
  match v with
  | VUndefined | VNull => true
  | _ => false
  end.

Fixpoint lookup_field (k : string) (fields : list (string * value)) : value :=
  match fields with
  | [] => VUndefined
  | (k', v) :: rest => if String.eqb k' k then v else lookup_field k rest
  end.

Fixpoint has_field (k : string) (fields : list (string * value)) : bool :=
  match fields with
  | [] => false
  | (k', _) :: rest => String.eqb k' k || has_field k rest
  end.

(** [fields[k] = v] on an ordinary object: an existing property keeps its
    place, a new one goes last. *)
Fixpoint assign_field (k : string) (v : value) (fields : list (string * value))
  : list (string * value) :=
  match fields with
  | [] => [(k, v)]
  | (k', v') :: rest =>
      if String.eqb k' k then (k', v) :: rest
      else (k', v') :: assign_field k v rest
  end.

(** The decimal spelling of a number, as string concatenation produces it. *)
Definition number_to_string (n : Z) : string := pretty n.

(** An array index is the canonical decimal spelling of a natural number. *)
Fixpoint index_among (k : string) (i : nat) (len : nat) : option nat :=
  match len with
  | O => None
  | S len' =>
      if String.eqb (pretty i) k then Some i else index_among k (S i) len'
  end.

(** [v.k], for a [v] that is neither [undefined] nor [null].  Properties
    inherited from the built-in prototypes are not modelled, so a key that
    is not an own property reads as [undefined]; a node's own state lives
    in the store and is read there. *)
Definition get (v : value) (k : string) : value :=
  match v with
  | VObj fields => lookup_field k fields
  | VArr items named =>
      if String.eqb k "length" then VNum (Z.of_nat (List.length items))
      else match index_among k 0 (List.length items) with
           | Some i => nth i items VUndefined
           | None => lookup_field k named
           end
  | VStr s => if String.eqb k "length" then VNum (Z.of_nat (String.length s))
              else VUndefined
  | _ => VUndefined
  end.

(** [v.k = x] in a sloppy-mode script: it throws on [undefined] and [null],
    is silently dropped on every other primitive, and stores on objects. *)
Definition set (v : value) (k : string) (x : value) : exn + value :=
  match v with
  | VUndefined | VNull =>
      inl (TypeError ("Cannot set properties of undefined or null: " ++ k))
  | VObj fields => inr (VObj (assign_field k x fields))
  | VArr items named => inr (VArr items (assign_field k x named))
  | _ => inr v
  end.

Fixpoint index_entries (i : nat) (items : list value) : list (string * value) :=
  match items with
  | [] => []
  | x :: rest => (pretty i, x) :: index_entries (S i) rest
  end.

(** The characters of a string, each a string of its own. *)
Fixpoint characters (s : string) : list value :=
  match s with
  | EmptyString => []
  | String c rest => VStr (String c EmptyString) :: characters rest
  end.

(** [Object.entries(v)]: a string lists its characters by index. *)
Definition entries (v : value) : list (string * value) :=
  match v with
  | VObj fields => fields
  | VArr items named => index_entries 0 items ++ named
  | VStr s => index_entries 0 (characters s)
  | _ => []
  end.

Definition upper_ascii (c : ascii) : ascii :=
  let n := nat_of_ascii c in
  if (97 <=? n)%nat && (n <=? 122)%nat then ascii_of_nat (n - 32) else c.

Fixpoint to_upper (s : string) : string :=
  match s with
  | EmptyString => EmptyString
  | String c rest => String (upper_ascii c) (to_upper rest)
  end.

Definition lower_ascii (c : ascii) : ascii :=
  let n := nat_of_ascii c in
  if (65 <=? n)%nat && (n <=? 90)%nat then ascii_of_nat (n + 32) else c.

Fixpoint to_lower (s : string) : string :=
  match s with
  | EmptyString => EmptyString
  | String c rest => String (lower_ascii c) (to_lower rest)
  end.

Definition join_with (sep : string) (parts : list string) : string :=
  match parts with
  | [] => EmptyString
  | p :: rest => fold_left (fun acc q => acc ++ sep ++ q) rest p
  end.

(** ToString on the modelled values; user-defined [toString] methods, the
    source text of a function and the class name of an element are not
    modelled. *)
Fixpoint to_string (v : value) : string :=
  match v with
  | VUndefined => "undefined"
  | VNull => "null"
  | VBool b => if b then "true" else "false"
  | VNum n => number_to_string n
  | VStr s => s
  | VNode _ => "[object HTMLElement]"
  | VFun _ => "function () { [native code] }"
  | VArr items _ =>
      join_with "," (map (fun x => if nullish x then EmptyString
                               else to_string x) items)
  | VObj _ => "[object Object]"
  end.

(** [a == b] for a string literal [b] that does not spell a number:
    an object is compared through its string form, a number, a boolean,
    [undefined] and [null] never equal such a string. *)
Definition loose_eq_str (a : value) (b : string) : bool :=
  match a with
  | VStr s => String.eqb s b
  | VNode _ | VFun _ | VArr _ _ | VObj _ => String.eqb (to_string a) b
  | _ => false
  end.

(** [a === b] for a string literal [b]. *)
Definition strict_eq_str (a : value) (b : string) : bool :=
  match a with
  | VStr s => String.eqb s b
  | _ => false
  end.

End JS.

Import JS.

(** ** The browser: DOM store, console, timers, registry, network log *)

(** A node as the two scripts get at it.  [attributes] is the attribute
    table, [listeners] the listeners added, [childNodes] and [parentNode]
    the tree; [properties] and [style] keep what a script assigned to
    [elem[name]] and to [elem.style[name]].  What the browser itself makes
    of an assignment (the children that [innerText] and [innerHTML]
    create, the attributes and the style that properties such as
    [className] reflect into) is not part of the model. *)
Record node : Type := mkNode {
  tagName : string;
  attributes : list (string * value);   (* setAttribute(name, value) *)
  properties : list (string * value);   (* elem[name] = value *)
  style : list (string * value);        (* elem.style[name] = value *)
  listeners : list (string * value);    (* addEventListener(name, handler) *)
  childNodes : list ref;
  parentNode : option ref
}.

Definition new_node (tag : string) : node :=
  mkNode tag [] [] [] [] [] None.

Inductive log_entry : Type :=
  | LogWarn (msg : string) (arg : value)
  | LogError (e : exn).

(** What a timer runs when it fires. *)
Inductive task : Type :=
  | TaskFadeIn (item : value)           (* () => item.style.opacity = '1' *)
  | TaskRemoveToast (id : Z)            (* () => removeToast(id) *)
  | TaskDetach (item : value).          (* () => item.remove() *)

Record timer : Type := mkTimer {
  timer_id : Z;
  timer_task : task;
  timer_delay : Z
}.

Record world : Type := mkWorld {
  nodes : list node;                    (* a node's reference is its index *)
  document_body : ref;
  console : list log_entry;             (* oldest entry first *)
  toastItems : gmap Z value;
  timers : list timer;
  next_timer : Z;
  requests : list (value * value)       (* fetch(endpoint, init) calls *)
}.

Definition with_nodes (ns : list node) (w : world) : world :=
  mkWorld ns (document_body w) (console w) (toastItems w) (timers w)
          (next_timer w) (requests w).

Definition with_console (c : list log_entry) (w : world) : world :=
  mkWorld (nodes w) (document_body w) c (toastItems w) (timers w)
          (next_timer w) (requests w).

Definition with_toastItems (t : gmap Z value) (w : world) : world :=
  mkWorld (nodes w) (document_body w) (console w) t (timers w)
          (next_timer w) (requests w).

Definition with_timers (ts : list timer) (n : Z) (w : world) : world :=
  mkWorld (nodes w) (document_body w) (console w) (toastItems w) ts n
          (requests w).

Definition with_requests (rs : list (value * value)) (w : world) : world :=
  mkWorld (nodes w) (document_body w) (console w) (toastItems w) (timers w)
          (next_timer w) rs.

(** ** Computations that change the browser and may throw *)

Inductive result (A : Type) : Type :=
  | Return (a : A)
  | Throw (e : exn).
Arguments Return {A} a.
Arguments Throw {A} e.

Definition M (A : Type) : Type := world -> result A * world.

Definition ret {A} (a : A) : M A := fun w => (Return a, w).

Definition throw {A} (e : exn) : M A := fun w => (Throw e, w).

Definition bind {A B} (m : M A) (k : A -> M B) : M B :=
  fun w =>
    match m w with
    | (Return a, w') => k a w'
    | (Throw e, w') => (Throw e, w')
    end.

(** [try { m } catch (error) { handler error }]: what [m] did before it
    threw stays done. *)
Definition try_catch {A} (m : M A) (handler : exn -> M A) : M A :=
  fun w =>
    match m w with
    | (Return a, w') => (Return a, w')
    | (Throw e, w') => handler e w'
    end.

Definition update (f : world -> world) : M unit := fun w => (Return tt, f w).

Definition inspect {A} (f : world -> A) : M A := fun w => (Return (f w), w).

Declare Scope js_scope.
Delimit Scope js_scope with js.
Notation "'let!' x ':=' m 'in' k" := (bind m (fun x => k))
  (at level 10, x name, m at level 100, k at level 200) : js_scope.
Notation "m ;; k" := (bind m (fun _ => k))
  (at level 100, k at level 200, right associativity) : js_scope.
Local Open Scope js_scope.

Definition when (b : bool) (m : M unit) : M unit :=
  if b then m else ret tt.

(** [items.forEach(f)]: in order, stopping at the first throw. *)
Fixpoint forEach {A} (f : A -> M unit) (items : list A) : M unit :=
  match items with
  | [] => ret tt
  | x :: rest => f x ;; forEach f rest
  end.

Definition console_warn (msg : string) (arg : value) : M unit :=
  update (fun w => with_console (console w ++ [LogWarn msg arg]) w).

Definition console_error (e : exn) : M unit :=
  update (fun w => with_console (console w ++ [LogError e]) w).

(** ** DOM operations *)

Definition node_at (r : ref) (w : world) : option node := nodes w !! r.

Definition alter_node (f : node -> node) (r : ref) : M unit :=
  update (fun w => with_nodes (alter f r (nodes w)) w).

Definition set_attributes (a : list (string * value)) (n : node) : node :=
  mkNode (tagName n) a (properties n) (style n) (listeners n)
         (childNodes n) (parentNode n).
Definition set_properties (p : list (string * value)) (n : node) : node :=
  mkNode (tagName n) (attributes n) p (style n) (listeners n)
         (childNodes n) (parentNode n).
Definition set_style (s : list (string * value)) (n : node) : node :=
  mkNode (tagName n) (attributes n) (properties n) s (listeners n)
         (childNodes n) (parentNode n).
Definition set_listeners (l : list (string * value)) (n : node) : node :=
  mkNode (tagName n) (attributes n) (properties n) (style n) l
         (childNodes n) (parentNode n).
Definition set_childNodes (c : list ref) (n : node) : node :=
  mkNode (tagName n) (attributes n) (properties n) (style n) (listeners n)
         c (parentNode n).
Definition set_parentNode (p : option ref) (n : node) : node :=
  mkNode (tagName n) (attributes n) (properties n) (style n) (listeners n)
         (childNodes n) p.

(** A new node gets the next free reference. *)
Definition allocate (n : node) : M ref :=
  fun w => (Return (List.length (nodes w)), with_nodes (nodes w ++ [n]) w).

(** Whether [a] is [r] or one of its ancestors; the parent chain of a
    store with [fuel] nodes is followed for at most [fuel] steps. *)
Fixpoint inclusive_ancestor (fuel : nat) (ns : list node) (a r : ref) : bool :=
  Nat.eqb a r ||
  match fuel with
  | O => false
  | S fuel' =>
      match ns !! r with
      | Some n =>
          match parentNode n with
          | Some p => inclusive_ancestor fuel' ns a p
          | None => false
          end
      | None => false
      end
  end.

Definition remove_ref (c : ref) (l : list ref) : list ref :=
  filter (fun x => x <> c) l.

(** Taking [c] out of the child list of its parent, if it has one. *)
Definition detach (c : ref) (ns : list node) : list node :=
  match ns !! c with
  | Some n =>
      match parentNode n with
      | Some p =>
          alter (set_parentNode None) c
            (alter (fun pn => set_childNodes (remove_ref c (childNodes pn)) pn)
               p ns)
      | None => ns
      end
  | None => ns
  end.

(** [parent.appendChild(child)]: a child that sits elsewhere is moved, a
    child that contains [parent] is refused. *)
Definition appendChild (parent : ref) (child : value) : M unit :=
  match child with
  | VNode c =>
      fun w =>
        let ns := nodes w in
        match ns !! c, ns !! parent with
        | Some _, Some _ =>
            if inclusive_ancestor (List.length ns) ns c parent
            then (Throw HierarchyRequestError, w)
            else
              let ns1 := detach c ns in
              let ns2 :=
                alter (fun pn => set_childNodes (childNodes pn ++ [c]) pn)
                  parent ns1 in
              (Return tt, with_nodes (alter (set_parentNode (Some parent)) c ns2) w)
        | _, _ =>
            (Throw (TypeError "appendChild: parameter 1 is not of type 'Node'"), w)
        end
  | _ => throw (TypeError "appendChild: parameter 1 is not of type 'Node'")
  end.

(** [elem.addEventListener(name, handler)]: [null] and [undefined] add
    nothing, another primitive is not a listener. *)
Definition addEventListener (elem : ref) (name : string) (handler : value)
  : M unit :=
  match handler with
  | VUndefined | VNull => ret tt
  | VBool _ | VNum _ | VStr _ =>
      throw (TypeError "addEventListener: parameter 2 is not of type 'Object'")
  | _ => alter_node (fun n => set_listeners (listeners n ++ [(name, handler)]) n)
           elem
  end.

(** [item.style.opacity = v], and any other style property. *)
Definition set_style_property (item : value) (k : string) (v : value) : M unit :=
  match item with
  | VNode r => alter_node (fun n => set_style (assign_field k v (style n)) n) r
  | VUndefined | VNull =>
      throw (TypeError "Cannot read properties of undefined (reading 'style')")
  | _ => throw (TypeError "Cannot set properties of undefined (setting 'opacity')")
  end.

(** [v.k] as an expression: reading from [undefined] or [null] throws, a
    node answers from the store.  Of a node the scripts read [tagName]
    and [nodeName] only; another key is answered with what was assigned
    to it. *)
Definition read (v : value) (k : string) : M value :=
  match v with
  | VUndefined =>
      throw (TypeError ("Cannot read properties of undefined (reading '"
                        ++ k ++ "')"))
  | VNull =>
      throw (TypeError ("Cannot read properties of null (reading '"
                        ++ k ++ "')"))
  | VNode r =>
      inspect (fun w =>
        match node_at r w with
        | Some n =>
            if String.eqb k "tagName" || String.eqb k "nodeName"
            then VStr (tagName n)
            else lookup_field k (properties n)
        | None => VUndefined
        end)
  | _ => ret (get v k)
  end.

(** [const excluded_keys = ['tag', 'text', 'html', 'props', 'content',
    'events', 'callback']] *)
Definition excluded_keys : list string :=
  ["tag"; "text"; "html"; "props"; "content"; "events"; "callback"].

(** [excluded_keys.includes(key)] *)
Definition includes (keys : list string) (key : string) : bool :=
  existsb (String.eqb key) keys.

Definition not_a_function (what : string) : exn :=
  TypeError (what ++ " is not a function").

(** [a.forEach(f)] for a value [a]: only arrays have the method. *)
Definition array_forEach (what : string) (a : value) (f : value -> M unit)
  : M unit :=
  match a with
  | VArr items _ => forEach f items
  | _ => throw (not_a_function what)
  end.

(** [o.k.forEach(f)], written by recursion on [o] so that [f] may call
    the function being defined on the elements; [forEach_member_get]
    below shows it is [array_forEach (get o k) f]. *)
Definition forEach_member (o : value) (k : string) (f : value -> M unit)
  : M unit :=
  let what := "info." ++ k ++ ".forEach" in
  let none : M unit := throw (not_a_function what) in
  let in_fields :=
    fix in_fields (l : list (string * value)) : M unit :=
      match l with
      | [] => none
      | (k', v) :: rest =>
          if String.eqb k' k then array_forEach what v f else in_fields rest
      end in
  let in_items :=
    fix in_items (i : nat) (l : list value) {struct l} : M unit :=
      match l with
      | [] => none
      | x :: rest =>
          match i with
          | O => array_forEach what x f
          | S i' => in_items i' rest
          end
      end in
  match o with
  | VObj fields => in_fields fields
  | VArr items named =>
      if String.eqb k "length" then none
      else match index_among k 0 (List.length items) with
           | Some i => in_items i items
           | None => in_fields named
           end
  | _ => none
  end.

(** ** spart.js *)

Section Spart.

(** The browser's part: which names [document.createElement] and
    [setAttribute] accept, which property assignments a setter refuses
    (by the node's tag, the property and the value), what a function
    passed in by the caller does when called, and the name of the root
    element the XML parser returns for a string. *)
Variable valid_element_name : string -> bool.
Variable valid_attribute_name : string -> bool.
Variable setter_refuses : string -> string -> value -> option exn.
Variable call : fid -> list value -> M value.
Variable svg_root_name : string -> string.
Variable getElementById : string -> world -> value.

(** [document.createElement(tag)] in an HTML document. *)
Definition document_createElement (tag : value) : M ref :=
  let name := to_string tag in
  if valid_element_name name then allocate (new_node (to_upper name))
  else throw (InvalidCharacterError name).

(** [elem.setAttribute(key, value)] on an HTML element: the name is
    lower-cased and the value is kept as a string. *)
Definition setAttribute (elem : ref) (key : string) (v : value) : M unit :=
  if valid_attribute_name key then
    alter_node
      (fun n => set_attributes
                  (assign_field (to_lower key) (VStr (to_string v))
                     (attributes n)) n)
      elem
  else throw (InvalidCharacterError key).

(** [elem[key] = value]: the assignment is refused by the setter or
    recorded. *)
Definition set_property (elem : ref) (key : string) (v : value) : M unit :=
  let! tag := inspect (fun w => from_option tagName EmptyString (node_at elem w)) in
  match setter_refuses tag key v with
  | Some e => throw e
  | None =>
      alter_node (fun n => set_properties (assign_field key v (properties n)) n)
        elem
  end.

(** [callee(args)] *)
Definition invoke (what : string) (callee : value) (args : list value)
  : M value :=
  match callee with
  | VFun f => call f args
  | _ => throw (not_a_function what)
  end.

(** [new DOMParser().parseFromString(svgString, "image/svg+xml")
    .documentElement]: a new node with the name of the parsed root.  The
    attributes and the children the markup gives the root, and the
    document that owns it, are not part of the model. *)
Definition parse_svg_document (svgString : value) : M value :=
  let! r := allocate (new_node (svg_root_name (to_string svgString))) in
  ret (VNode r).

(** [createSVGElement], lines 108-121. *)
Definition createSVGElement (svgString : value) : M value :=
  try_catch
    (let! svgElem := parse_svg_document svgString in
     let! nodeName := read svgElem "nodeName" in
     if strict_eq_str nodeName "parsererror"
     then throw (Error "Error parsing SVG string")
     else ret svgElem)
    (fun error => console_error error ;; ret VNull).

(** Lines 59-66 of [createElement], [// set attributes]. *)
Definition setAttributes (info : value) (elem : ref) : M unit :=
  forEach (fun entry : string * value =>
             let (key, value) := entry in
             when (negb (nullish value))
               (when (negb (includes excluded_keys key))
                  (setAttribute elem key value)))
    (entries info).

(** Lines 77-83 of [createElement], [// add inner content], over the
    function called on the children. *)
Definition addInnerContent (createElement : value -> value -> M value)
    (info : value) (elem : ref) : M unit :=
  when (truthy (get info "content"))
    (forEach_member info "content" (fun item =>
       (let! childElement := createElement item (VNode elem) in
        when (truthy childElement) (appendChild elem childElement)))).

(** The [try] block of [createElement], lines 42-94, over the function it
    calls on the children. *)
Definition createElement_try (createElement : value -> value -> M value)
    (info parent : value) : M value :=
  let tag := get info "tag" in
  let! tag :=
    if negb (truthy tag) then
      let! p := read parent "tagName" in
      if loose_eq_str p "SELECT" then ret (VStr "OPTION")
      else if loose_eq_str p "UL" || loose_eq_str p "OL" then ret (VStr "LI")
      else (console_warn "No element tag specified in:" info ;;
            ret (VStr "SPAN"))
    else ret tag in
  let! elem := document_createElement tag in

  when (truthy (get info "text"))
    (set_property elem "innerText" (get info "text")) ;;
  when (truthy (get info "html"))
    (set_property elem "innerHTML" (get info "html")) ;;

  (* set attributes *)
  setAttributes info elem ;;

  (* set properties *)
  when (truthy (get info "props"))
    (forEach (fun entry : string * value =>
                let (key, value) := entry in
                when (negb (nullish value)) (set_property elem key value))
       (entries (get info "props"))) ;;

  (* add inner content *)
  addInnerContent createElement info elem ;;

  (* add event listeners *)
  when (truthy (get info "events"))
    (forEach (fun entry : string * value =>
                let (name, handler) := entry in
                addEventListener elem name handler)
       (entries (get info "events"))) ;;

  when (truthy (get info "callback"))
    (invoke "info.callback" (get info "callback") [VNode elem; info; parent] ;;
     ret tt) ;;

  ret (VNode elem).



(** [createElement], lines 37-100. *)
Fixpoint createElement (info parent : value) {struct info} : M value :=
  if negb (truthy info) then ret VNull
  else if truthy (get info "element") then ret (get info "element")
  else if truthy (get info "svg") then createSVGElement (get info "svg")
  else
    try_catch (createElement_try createElement info parent)
      (fun error => console_error error ;; ret VNull).

(** [setTimeout(handler, delay)]: the handler may mention the identifier
    the call returns. *)
Definition setTimeout (handler : Z -> task) (delay : Z) : M Z :=
  fun w =>
    let id := next_timer w in
    (Return id,
     with_timers (timers w ++ [mkTimer id (handler id) delay]) (id + 1) w).

(** [removeToast], lines 129-136. *)
Definition removeToast (id : Z) : M unit :=
  let! item := inspect (fun w => default VUndefined (toastItems w !! id)) in
  if negb (truthy item) then ret tt
  else
    set_style_property item "opacity" (VStr "0") ;;
    (* allow time for fade-out animation *)
    setTimeout (fun _ => TaskDetach item) 300 ;;
    update (fun w => with_toastItems (delete id (toastItems w)) w).

(** [parent.appendChild(child)] on a value. *)
Definition appendChild_to (parent child : value) : M unit :=
  match parent with
  | VNode r => appendChild r child
  | VUndefined | VNull =>
      throw (TypeError
               "Cannot read properties of undefined (reading 'appendChild')")
  | _ => throw (not_a_function "toastContainer.appendChild")
  end.

(** [toast], lines 145-170. *)
Definition toast (message forLong : value) : M Z :=
  (* Create toast container if it doesn't exist *)
  let! toastContainer := inspect (getElementById "toast-container") in
  let! toastContainer :=
    if negb (truthy toastContainer) then
      let! c := document_createElement (VStr "div") in
      set_property c "id" (VStr "toast-container") ;;
      let! body := inspect document_body in
      appendChild body (VNode c) ;;
      ret (VNode c)
    else ret toastContainer in

  (* Create toast element *)
  let! item :=
    createElement
      (VObj [("tag", VStr "div"); ("class", VStr "toast-message");
             ("content",
              VArr [VObj [("tag", VStr "span"); ("text", message)]] [])])
      VUndefined in

  (* Add to container with animation *)
  appendChild_to toastContainer item ;;
  setTimeout (fun _ => TaskFadeIn item) 10 ;;

  (* Auto-dismiss after timeout *)
  let timeout := if truthy forLong then 6000 else 3000 in

  let! id := setTimeout (fun id => TaskRemoveToast id) timeout in
  update (fun w => with_toastItems (<[id := item]> (toastItems w)) w) ;;
  ret id.

End Spart.

(** ** What the builder is expected to leave behind *)

(** The seven structural names of a description, as the specification
    lists them. *)
Definition reserved (key : string) : bool :=
  String.eqb key "tag" || String.eqb key "text" || String.eqb key "html"
  || String.eqb key "props" || String.eqb key "content"
  || String.eqb key "events" || String.eqb key "callback".

(** The fields the specification has applied as attributes: value
    neither [undefined] nor [null], key none of the seven. *)
Definition applied_fields (info : value) : list (string * value) :=
  List.filter (fun entry => negb (nullish entry.2) && negb (reserved entry.1))
    (entries info).

(** The attribute that [setAttribute] keeps for a field. *)
Definition attribute_of (entry : string * value) : string * value :=
  (to_lower entry.1, VStr (to_string entry.2)).

(** The same fields as the code selects them. *)
Definition is_attribute (entry : string * value) : bool :=
  negb (nullish entry.2) && negb (includes excluded_keys entry.1).

Definition attribute_fields (info : value) : list (string * value) :=
  List.filter is_attribute (entries info).

(** The attribute table after [setAttribute] for each entry in turn. *)
Definition apply_attributes (fs attrs : list (string * value))
  : list (string * value) :=
  fold_left (fun acc entry => assign_field entry.1 entry.2 acc) fs attrs.

(** The children sequence of a description. *)
Definition content_items (info : value) : list value :=
  match get info "content" with
  | VArr items _ => items
  | _ => []
  end.

(** The content loop of lines 79-82 with the value each child call
    returned kept, in order. *)
Fixpoint build_children (build : value -> value -> M value) (elem : ref)
    (items : list value) : M (list value) :=
  match items with
  | [] => ret []
  | item :: rest =>
      let! childElement := build item (VNode elem) in
      when (truthy childElement) (appendChild elem childElement) ;;
      let! others := build_children build elem rest in
      ret (childElement :: others)
  end.

Definition node_of (v : value) : option ref :=
  match v with
  | VNode r => Some r
  | _ => None
  end.

(** The nodes among the values returned, in order. *)
Definition nodes_of (results : list value) : list ref := omap node_of results.

(** Every node reference that occurs in a value. *)
Fixpoint node_refs (v : value) : list ref :=
  match v with
  | VNode r => [r]
  | VArr items named =>
      flat_map node_refs items
      ++ flat_map (fun entry : string * value =>
                     let (_, x) := entry in node_refs x) named
  | VObj fields =>
      flat_map (fun entry : string * value =>
                  let (_, x) := entry in node_refs x) fields
  | _ => []
  end.

(** [related P ns ns']: every node of the store [ns] is still there in
    [ns'], and its old and new state are related by [P]. *)
Definition related (P : ref -> node -> node -> Prop) (ns ns' : list node)
  : Prop :=
  forall x n, ns !! x = Some n -> exists n', ns' !! x = Some n' /\ P x n n'.

(** A node keeps its place in the tree, except that the nodes in [S] may
    have been moved: a node outside [S] keeps its parent, and a node with
    no child in [S] keeps its children. *)
Definition same_place (S : ref -> Prop) (x : ref) (n n' : node) : Prop :=
  (~ S x -> parentNode n' = parentNode n) /\
  ((forall c, c ∈ childNodes n -> ~ S c) -> childNodes n' = childNodes n).

(** [post m Q w]: running [m] from [w] ends in a result and a world that
    satisfy [Q]. *)
Definition post {A} (m : M A) (Q : result A -> world -> Prop) (w : world)
  : Prop :=
  Q (m w).1 (m w).2.

(** No node is moved. *)
Definition nowhere (c : ref) : Prop := False.

(** What a call that builds a child from [item] does to the tree: it moves
    no node but those [item] refers to, it does not throw, and the node
    it returns, if any, is either one [item] refers to or a new one
    without a parent. *)
Definition builds_child (build : value -> value -> M value) (item : value)
  : Prop :=
  forall parent w,
    Forall (fun c => (c < List.length (nodes w))%nat) (node_refs item) ->
    NoDup (node_refs item) ->
    post (build item parent)
      (fun res w' =>
         related (same_place (fun c => c ∈ node_refs item))
           (nodes w) (nodes w') /\
         exists v, res = Return v /\
           forall c, v = VNode c ->
             c ∈ node_refs item \/
             ((List.length (nodes w) <= c)%nat /\
              exists n, nodes w' !! c = Some n /\ parentNode n = None)) w.

(** [respects P m]: running [m] relates the world before to the world
    after. *)
Definition respects {A} (P : ref -> node -> node -> Prop) (m : M A) : Prop :=
  forall w, related P (nodes w) (nodes (m w).2).

(** ** fetch.js *)

(** How a promise settles. *)
Inductive Promise (A : Type) : Type :=
  | Resolved (a : A)
  | Rejected (e : exn).
Arguments Resolved {A} a.
Arguments Rejected {A} e.

(** [p.then(f)]: a handler that throws rejects the promise it returns. *)
Definition then_ {A B} (p : Promise A) (f : A -> M (Promise B))
  : M (Promise B) :=
  match p with
  | Resolved a => try_catch (f a) (fun e => ret (Rejected e))
  | Rejected e => ret (Rejected e)
  end.

(** [p.catch(f)] *)
Definition catch_ {A} (p : Promise A) (f : exn -> M (Promise A))
  : M (Promise A) :=
  match p with
  | Resolved a => ret (Resolved a)
  | Rejected e => try_catch (f e) (fun e' => ret (Rejected e'))
  end.

(** What stands behind the [json()] accessor of a response: the body of a
    response from the network, read at most once, or the problem that
    [asFetchResponse] closed over. *)
Inductive body : Type :=
  | NetworkBody (parsed : Promise value) (bodyUsed : bool)
  | ProblemBody (problem : value).

Record Response : Type := mkResponse {
  ok : bool;
  status : value;
  response_body : body
}.

(** [response.json()]: the promise it returns and the response afterwards. *)
Definition json (response : Response) : Promise value * Response :=
  match response_body response with
  | NetworkBody parsed false =>
      (parsed,
       mkResponse (ok response) (status response) (NetworkBody parsed true))
  | NetworkBody _ true =>
      (Rejected (TypeError "body stream already read"), response)
  | ProblemBody problem => (Resolved problem, response)
  end.

(** [o.k = v] as a statement: a node keeps the property in the store, any
    other value is rebuilt by [JS.set]. *)
Definition assign (o : value) (k : string) (v : value) : M value :=
  match o with
  | VNode r =>
      alter_node (fun n => set_properties (assign_field k v (properties n)) n)
        r ;;
      ret o
  | _ =>
      match JS.set o k v with
      | inl e => throw e
      | inr o' => ret o'
      end
  end.

Section Fetch.

(** The browser's part: [JSON.stringify] and what the network answers to
    [fetch(endpoint, init)]. *)
Variable JSON_stringify : value -> value.
Variable network : value -> value -> Promise Response.

Definition fetch (endpoint init : value) : M (Promise Response) :=
  update (fun w => with_requests (requests w ++ [(endpoint, init)]) w) ;;
  ret (network endpoint init).

(** [asFetchResponse], lines 69-75. *)
Definition asFetchResponse (problem : value) : M Response :=
  let! status := read problem "status" in
  ret (mkResponse false status (ProblemBody problem)).

(** [getProblemDetail], lines 45-63. *)
Definition getProblemDetail (response : Response) : M (Promise Response) :=
  let status := status response in
  let! p :=
    then_ (fst (json response)) (fun problem =>
      let! s := read problem "status" in
      let! problem :=
        if negb (truthy s) then assign problem "status" status
        else ret problem in
      let! d := read problem "detail" in
      let! problem :=
        if negb (truthy d) then
          let! m := read problem "message" in assign problem "detail" m
        else ret problem in
      let! d := read problem "detail" in
      let! problem :=
        if negb (truthy d) then
          assign problem "detail"
            (VStr ("An error occurred: " ++ to_string status))
        else ret problem in
      let! r := asFetchResponse problem in
      ret (Resolved r)) in
  catch_ p (fun error =>
    console_error error ;;
    let problem := VObj [("status", status)] in
    let! problem :=
      assign problem "detail"
        (VStr ("An error occurred: " ++ to_string status)) in
    let! r := asFetchResponse problem in
    ret (Resolved r)).

(** The request options [_fetch] builds, lines 11-23. *)
Definition request_init (method payload formData : value) : M value :=
  let init := VObj [("headers", VObj [])] in
  let! init :=
    if truthy method then assign init "method" method else ret init in
  let! init :=
    if truthy payload then
      let! init := assign init "body" (JSON_stringify payload) in
      let! headers := read init "headers" in
      let! headers :=
        assign headers "Content-Type" (VStr "application/json") in
      assign init "headers" headers
    else ret init in
  let! init :=
    if truthy formData then
      assign init "body" formData
      (* Content-Type header is set automatically *)
    else ret init in
  ret init.

(** The same options in closed form, for [request_init_closed]. *)
Definition init_headers (payload : value) : list (string * value) :=
  if truthy payload then [("Content-Type", VStr "application/json")] else [].

Definition init_method (method : value) : list (string * value) :=
  if truthy method then [("method", method)] else [].

Definition init_body (payload formData : value) : list (string * value) :=
  if truthy formData then [("body", formData)]
  else if truthy payload then [("body", JSON_stringify payload)]
  else [].

(** [_fetch], lines 10-38. *)
Definition _fetch (endpoint method payload formData : value)
  : M (Promise Response) :=
  let! init := request_init method payload formData in
  let! p := fetch endpoint init in
  let! p :=
    then_ p (fun response =>
      if ok response then
        ret (Resolved response) (* return as is, no need to parse *)
      else getProblemDetail response) in
  catch_ p (fun error =>
    console_error error ;;
    let problem := VObj [("status", VNum 0)] in
    let! problem :=
      assign problem "detail" (VStr "Please check your internet connection") in
    let! r := asFetchResponse problem in
    ret (Resolved r)).

End Fetch.

(** Calling [json()] [n] times in a row: the promises returned, in order,
    and the response afterwards. *)
Fixpoint json_times (n : nat) (response : Response)
  : list (Promise value) * Response :=
  match n with
  | O => ([], response)
  | S n' =>
      let (p, response') := json response in
      let (ps, response'') := json_times n' response' in
      (p :: ps, response'')
  end.

(** A response made by [asFetchResponse], seen in world [w]: not [ok],
    backed by a problem, and with the status the problem shows. *)
Definition synthesized (r : Response) (w : world) : Prop :=
  ok r = false /\
  exists problem,
    response_body r = ProblemBody problem /\
    read problem "status" w = (Return (status r), w).

(** The status the specification gives the problem of an error response
    whose body parsed to an object: the body's [status] field, or the
    HTTP status when the body has none. *)
Definition status_when_absent (fields : list (string * value)) (http : value)
  : value :=
  if has_field "status" fields then lookup_field "status" fields else http.

(** The message of the fallback problem. *)
Definition an_error_occurred (status : value) : value :=
  VStr ("An error occurred: " ++ to_string status).


(** ** A browser to run the scripts in *)

Module Sample.

(** Names that start with a letter. *)
Definition valid_name (s : string) : bool :=
  match s with
  | EmptyString => false
  | String c _ =>
      let n := nat_of_ascii c in
      ((65 <=? n)%nat && (n <=? 90)%nat) || ((97 <=? n)%nat && (n <=? 122)%nat)
  end.

Definition setter_refuses (tag key : string) (v : value) : option exn := None.

(** Function 0 returns, every other function throws its first argument. *)
Definition call (f : fid) (args : list value) : M value :=
  match f with
  | O => ret VUndefined
  | _ => throw (Thrown (nth 0 args VUndefined))
  end.

Definition svg_root_name (s : string) : string :=
  if String.prefix "<svg" s then "svg" else "parsererror".

Definition getElementById (id : string) (w : world) : value := VNull.

Definition quote : string := String (ascii_of_nat 34) EmptyString.

(** A serializer for numbers, booleans, strings without escapes, arrays
    and objects. *)
Fixpoint JSON_stringify_text (v : value) : string :=
  match v with
  | VBool b => if b then "true" else "false"
  | VNum n => number_to_string n
  | VStr s => quote ++ s ++ quote
  | VArr items _ => "[" ++ join_with "," (map JSON_stringify_text items) ++ "]"
  | VObj fields =>
      "{" ++ join_with ","
               (map (fun entry : string * value =>
                       let (k, x) := entry in
                       quote ++ k ++ quote ++ ":" ++ JSON_stringify_text x)
                    fields) ++ "}"
  | _ => "null"
  end.

Definition JSON_stringify (v : value) : value := VStr (JSON_stringify_text v).

(** A page with an empty body. *)
Definition page : world := mkWorld [new_node "BODY"] 0%nat [] ∅ [] 1 [].

(** A page that already shows a badge, node 1. *)
Definition page_with_badge : world :=
  mkWorld [set_childNodes [1%nat] (new_node "BODY");
           set_parentNode (Some 0%nat) (new_node "B")]
          0%nat [] ∅ [] 1 [].

(** A box with two fields that qualify as attributes. *)
Definition box : value :=
  VObj [("tag", VStr "div"); ("id", VStr "main"); ("text", VStr "hi");
        ("title", VNull); ("class", VStr "box"); ("callback", VFun 0%nat)].

(** A list of two entries with a [null] between them. *)
Definition menu_items : list value :=
  [VObj [("text", VStr "a")]; VNull; VObj [("tag", VStr "li"); ("text", VStr "b")]].

Definition menu : value :=
  VObj [("tag", VStr "ul"); ("content", VArr menu_items [])].

(** A selection list with one choice. *)
Definition choices : value :=
  VObj [("tag", VStr "select"); ("content", VArr [VObj [("text", VStr "one")]] [])].

(** A box that is given the badge twice. *)
Definition twice_items : list value :=
  [VObj [("element", VNode 1%nat)]; VObj [("element", VNode 1%nat)]].

Definition twice : value :=
  VObj [("tag", VStr "div"); ("content", VArr twice_items [])].

Definition endpoint : value := VStr "/api/items".

(** A server that answers 404 with the body [{"message":"not found"}]. *)
Definition not_found (endpoint init : value) : Promise Response :=
  Resolved
    (mkResponse false (VNum 404)
       (NetworkBody (Resolved (VObj [("message", VStr "not found")])) false)).

(** A gateway that answers 502 with [{"status":0,"detail":"upstream
    unreachable"}]. *)
Definition bad_gateway_body : list (string * value) :=
  [("status", VNum 0); ("detail", VStr "upstream unreachable")].

Definition bad_gateway (endpoint init : value) : Promise Response :=
  Resolved
    (mkResponse false (VNum 502)
       (NetworkBody (Resolved (VObj bad_gateway_body)) false)).

(** A server that answers 404 with the JSON text ["Not Found"]. *)
Definition not_found_text (endpoint init : value) : Promise Response :=
  Resolved
    (mkResponse false (VNum 404)
       (NetworkBody (Resolved (VStr "Not Found")) false)).

(** A server that answers 500 with a body that is no JSON. *)
Definition server_error (endpoint init : value) : Promise Response :=
  Resolved
    (mkResponse false (VNum 500)
       (NetworkBody
          (Rejected (Error "Unexpected token '<' is not valid JSON")) false)).

(** No connection. *)
Definition unreachable (endpoint init : value) : Promise Response :=
  Rejected (TypeError "Failed to fetch").

End Sample.

(** ** Timers and problem reports *)

(** [item.remove()] *)
Definition node_remove (item : value) : M unit :=
  match item with
  | VNode r => update (fun w => with_nodes (detach r (nodes w)) w)
  | VUndefined | VNull =>
      throw (TypeError "Cannot read properties of undefined (reading 'remove')")
  | _ => throw (not_a_function "item.remove")
  end.

(** What happens when a timer fires: the arrow function given to
    [setTimeout] at lines 162, 167 and 134 of [spart.js] is called. *)
Definition run_task (t : task) : M unit :=
  match t with
  | TaskFadeIn item => set_style_property item "opacity" (VStr "1")
  | TaskRemoveToast id => removeToast id
  | TaskDetach item => node_remove item
  end.

Section Report.

Variable valid_element_name : string -> bool.
Variable valid_attribute_name : string -> bool.
Variable setter_refuses : string -> string -> value -> option exn.
Variable call : fid -> list value -> M value.
Variable svg_root_name : string -> string.
Variable getElementById : string -> world -> value.

(** [showProblemDetail], lines 80-84 of [fetch.js]: the handler returns
    nothing, so the promise resolves to [undefined]. *)
Definition showProblemDetail (response : Response) : M (Promise value) :=
  then_ (fst (json response)) (fun problem =>
    let! detail := read problem "detail" in
    toast valid_element_name valid_attribute_name setter_refuses call
      svg_root_name getElementById detail VUndefined ;;
    ret (Resolved VUndefined)).

End Report.

(** ** What a new element is given *)

(** A boolean, a number or a string. *)
Definition primitive (v : value) : bool :=
  match v with
  | VBool _ | VNum _ | VStr _ => true
  | _ => false
  end.


(** The tag chosen for a description without one, by the tag name [p] of
    the parent. *)
Definition default_tag (p : value) : string :=
  if loose_eq_str p "SELECT" then "OPTION"
  else if loose_eq_str p "UL" || loose_eq_str p "OL" then "LI"
  else "SPAN".

(** The entries whose value is neither [undefined] nor [null]. *)
Definition is_given (entry : string * value) : bool := negb (nullish entry.2).

(** The property assignments of lines 56, 57 and 69-75, in order. *)
Definition property_fields (info : value) : list (string * value) :=
  (if truthy (get info "text") then [("innerText", get info "text")] else [])
  ++ (if truthy (get info "html") then [("innerHTML", get info "html")] else [])
  ++ (if truthy (get info "props")
      then List.filter is_given (entries (get info "props")) else []).

(** The listeners of lines 86-90, in order. *)
Definition listener_fields (info : value) : list (string * value) :=
  if truthy (get info "events")
  then List.filter is_given (entries (get info "events")) else [].

(** The tag [createElement] settles on, lines 42-53, in world [w]. *)
Definition chosen_tag (info parent : value) (w : world) : value :=
  if truthy (get info "tag") then get info "tag"
  else match (read parent "tagName" w).1 with
       | Return p => VStr (default_tag p)
       | Throw _ => VUndefined
       end.

(** A node after the assignments [fs] to its properties, after
    [setAttribute] for each of [fs], and with the listeners [l] added. *)
Definition with_properties (fs : list (string * value)) (n : node) : node :=
  set_properties (apply_attributes fs (properties n)) n.

Definition with_attributes (fs : list (string * value)) (n : node) : node :=
  set_attributes (apply_attributes fs (attributes n)) n.

Definition with_listeners (l : list (string * value)) (n : node) : node :=
  set_listeners (listeners n ++ l) n.

(** The element of lines 54-90 for a description and a tag name, before
    it is given children. *)
Definition built (info : value) (tag : string) : node :=
  with_listeners (listener_fields info)
    (with_properties
       (if truthy (get info "props")
        then List.filter is_given (entries (get info "props")) else [])
       (with_attributes (map attribute_of (attribute_fields info))
          (with_properties
             (if truthy (get info "html")
              then [("innerHTML", get info "html")] else [])
             (with_properties
                (if truthy (get info "text")
                 then [("innerText", get info "text")] else [])
                (new_node tag))))).

(** A node's own state: everything but its place in the tree. *)
Definition element_state (n : node)
  : string * list (string * value) * list (string * value)
    * list (string * value) * list (string * value) :=
  (tagName n, attributes n, properties n, style n, listeners n).

Definition same_element (x : ref) (n n' : node) : Prop :=
  element_state n' = element_state n.

(** [acts_on elem f m]: [m] makes no node and touches none but [elem],
    and when it returns it has turned that node into [f] of what it
    was. *)
Definition acts_on {A} (elem : ref) (f : node -> node) (m : M A) : Prop :=
  forall w n,
    nodes w !! elem = Some n ->
    post m
      (fun res w' =>
         List.length (nodes w') = List.length (nodes w) /\
         (forall x, x <> elem -> nodes w' !! x = nodes w !! x) /\
         exists n', nodes w' !! elem = Some n' /\
           match res with
           | Return _ => n' = f n
           | Throw _ => True
           end) w.

(** [callbacks call Q info]: the function under [callback], in the
    description and in every description of its content, satisfies [Q]
    whatever it is called with. *)
Inductive callbacks (call : fid -> list value -> M value)
    (Q : M value -> Prop) : value -> Prop :=
  | callbacks_here info :
      (forall f args, get info "callback" = VFun f -> Q (call f args)) ->
      (forall item, item ∈ content_items info -> callbacks call Q item) ->
      callbacks call Q info.

(** ** What lies beside the nodes *)

(** [preserves R m]: running [m] relates the world before to the world
    after. *)
Definition preserves {A} (R : world -> world -> Prop) (m : M A) : Prop :=
  forall w, R w (m w).2.

(** Between two worlds the body, the registry, the timers and the request
    log are the same, and the console has only grown. *)
Definition only_nodes_and_log (w w' : world) : Prop :=
  document_body w' = document_body w /\
  toastItems w' = toastItems w /\
  timers w' = timers w /\
  next_timer w' = next_timer w /\
  requests w' = requests w /\
  exists more, console w' = (console w ++ more)%list.

(** ** More of the browser *)

Module Demo.

(** A page whose body holds a list, node 1. *)
Definition page_with_list : world :=
  mkWorld [set_childNodes [1%nat] (new_node "BODY");
           set_parentNode (Some 0%nat) (new_node "UL")]
          0%nat [] ∅ [] 1 [].

(** A text field with properties and listeners. *)
Definition field : value :=
  VObj [("tag", VStr "input"); ("text", VStr "name");
        ("props", VObj [("value", VStr "x"); ("disabled", VNull);
                        ("tabIndex", VNum 2)]);
        ("events", VObj [("change", VFun 0%nat); ("blur", VNull)])].


Definition bad_callback : value :=
  VObj [("tag", VStr "div"); ("callback", VStr "done")].

(** A server that answers 200 with the body [{"items":[]}]. *)
Definition fine (endpoint init : value) : Promise Response :=
  Resolved
    (mkResponse true (VNum 200)
       (NetworkBody (Resolved (VObj [("items", VArr [] [])])) false)).

(** A server that answers 422 with a problem that carries more than the
    status and the detail. *)
Definition unprocessable_body : list (string * value) :=
  [("status", VNum 422); ("detail", VStr "name is required");
   ("field", VStr "name")].

Definition unprocessable (endpoint init : value) : Promise Response :=
  Resolved
    (mkResponse false (VNum 422)
       (NetworkBody (Resolved (VObj unprocessable_body)) false)).

(** The scripts in the sample browser. *)
Abbreviation build :=
  (createElement Sample.valid_name Sample.valid_name Sample.setter_refuses
     Sample.call Sample.svg_root_name).

Abbreviation show :=
  (toast Sample.valid_name Sample.valid_name Sample.setter_refuses Sample.call
     Sample.svg_root_name Sample.getElementById).

Abbreviation report :=
  (showProblemDetail Sample.valid_name Sample.valid_name Sample.setter_refuses
     Sample.call Sample.svg_root_name Sample.getElementById).

Abbreviation request := (_fetch Sample.JSON_stringify).

(** A first item for a list, without a tag of its own. *)
Definition first_item : value := VObj [("text", VStr "first")].

(** A drawing. *)
Definition drawing : value :=
  VObj [("svg", VStr "<svg xmlns='http://www.w3.org/2000/svg'/>");
        ("tag", VStr "div")].

End Demo.
(** * Properties *)

(** ** Objects *)

Lemma lookup_assign_same k v fields :
  lookup_field k (assign_field k v fields) = v.
Proof.
  induction fields as [|[k' v'] rest IH]; simpl.
  - by rewrite String.eqb_refl.
  - destruct (String.eqb k' k) eqn:E; simpl; by rewrite E.
Qed.

Lemma lookup_assign_other k k' v fields :
  k <> k' -> lookup_field k' (assign_field k v fields) = lookup_field k' fields.
Proof.
  intros Hne. induction fields as [|[k0 v0] rest IH]; simpl.
  - destruct (String.eqb k k') eqn:E; [|done].
    apply String.eqb_eq in E. done.
  - destruct (String.eqb k0 k) eqn:E; simpl.
    + apply String.eqb_eq in E. subst k0.
      destruct (String.eqb k k') eqn:E'; [|done].
      apply String.eqb_eq in E'. done.
    + by rewrite IH.
Qed.

(** ** Reasoning about computations *)

Lemma post_ret {A} (a : A) Q w : Q (Return a) w -> post (ret a) Q w.
Proof. done. Qed.

Lemma post_throw {A} e (Q : result A -> world -> Prop) w :
  Q (Throw e) w -> post (throw e) Q w.
Proof. done. Qed.

Lemma post_bind {A B} (m : M A) (k : A -> M B) Q w :
  post m (fun r w' =>
            match r with
            | Return a => post (k a) Q w'
            | Throw e => Q (Throw e) w'
            end) w ->
  post (bind m k) Q w.
Proof.
  unfold post, bind. destruct (m w) as [[a|e] w']; done.
Qed.

Lemma post_try_catch {A} (m : M A) handler Q w :
  post m (fun r w' =>
            match r with
            | Return a => Q (Return a) w'
            | Throw e => post (handler e) Q w'
            end) w ->
  post (try_catch m handler) Q w.
Proof.
  unfold post, try_catch. destruct (m w) as [[a|e] w']; done.
Qed.

Lemma post_mono {A} (m : M A) (Q Q' : result A -> world -> Prop) w :
  post m Q w -> (forall r w', Q r w' -> Q' r w') -> post m Q' w.
Proof. unfold post. auto. Qed.

Lemma post_update f Q w : Q (Return tt) (f w) -> post (update f) Q w.
Proof. done. Qed.

Lemma bind_return {A B} (m : M A) (k : A -> M B) w a w' :
  m w = (Return a, w') -> bind m k w = k a w'.
Proof. unfold bind. by intros ->. Qed.



Lemma bind_throw {A B} (m : M A) (k : A -> M B) w e w' :
  m w = (Throw e, w') -> bind m k w = (Throw e, w').
Proof. unfold bind. by intros ->. Qed.

(** Reading a property changes nothing. *)
Lemma read_world v k w : (read v k w).2 = w.
Proof. destruct v; reflexivity. Qed.

Lemma post_read v k Q w :
  (forall x, Q (Return x) w) -> (forall e, Q (Throw e) w) ->
  post (read v k) Q w.
Proof.
  intros HR HT. unfold post. rewrite read_world.
  destruct (read v k w).1; auto.
Qed.

Lemma post_bind_any {A B} (m : M A) (k : A -> M B) Q w :
  (forall a w', post (k a) Q w') -> (forall e w', Q (Throw e) w') ->
  post (bind m k) Q w.
Proof.
  intros Hk He. apply post_bind. unfold post at 1.
  destruct (m w) as [[a|e] w']; simpl; auto.
Qed.

(** ** Induction on descriptions *)

Lemma value_nested_ind (P : value -> Prop) :
  P VUndefined -> P VNull -> (forall b, P (VBool b)) -> (forall n, P (VNum n)) ->
  (forall s, P (VStr s)) -> (forall r, P (VNode r)) -> (forall f, P (VFun f)) ->
  (forall items named,
     Forall P items -> Forall (fun e => P e.2) named -> P (VArr items named)) ->
  (forall fields, Forall (fun e => P e.2) fields -> P (VObj fields)) ->
  forall v, P v.
Proof.
  intros HU HN HB HZ HS HR HF HA HO. fix IH 1.
  intros [| |b|n|s|r|f|items named|fields].
  - exact HU.
  - exact HN.
  - apply HB.
  - apply HZ.
  - apply HS.
  - apply HR.
  - apply HF.
  - apply HA.
    + induction items as [|x rest IHl]; constructor; [apply IH|exact IHl].
    + induction named as [|[k x] rest IHl]; constructor; [apply IH|exact IHl].
  - apply HO.
    induction fields as [|[k x] rest IHl]; constructor; [apply IH|exact IHl].
Qed.

Lemma lookup_field_Forall (Q : value -> Prop) k fields :
  Q VUndefined -> Forall (fun e => Q e.2) fields -> Q (lookup_field k fields).
Proof.
  intros HU. induction 1 as [|[k' v] rest Hv _ IH]; simpl; [done|].
  by destruct (String.eqb k' k).
Qed.

Lemma get_Forall (Q : value -> Prop) v k :
  Q VUndefined -> (forall n, Q (VNum n)) ->
  match v with
  | VArr items named => Forall Q items /\ Forall (fun e => Q e.2) named
  | VObj fields => Forall (fun e => Q e.2) fields
  | _ => True
  end ->
  Q (get v k).
Proof.
  intros HU HZ Hv. destruct v as [| |b|n|s|r|f|items named|fields]; simpl; auto.
  - by destruct (String.eqb k "length").
  - destruct Hv as [Hi Hn]. destruct (String.eqb k "length"); [done|].
    destruct (index_among _ _ _) as [i|]; [|by apply lookup_field_Forall].
    destruct (nth_in_or_default i items VUndefined) as [Hin| ->]; [|done].
    rewrite Forall_forall in Hi. apply Hi. by apply list_elem_of_In.
  - by apply lookup_field_Forall.
Qed.

(** To prove something of every description, assume it of the items of its
    children sequence. *)
Lemma description_ind (P : value -> Prop) :
  (forall info, (forall item, item ∈ content_items info -> P item) -> P info) ->
  forall info, P info.
Proof.
  intros Hstep.
  set (Q := fun v => P v /\
                     forall items named, v = VArr items named -> Forall P items).
  assert (HQ : forall v,
    match v with
    | VArr items named => Forall Q items /\ Forall (fun e => Q e.2) named
    | VObj fields => Forall (fun e => Q e.2) fields
    | _ => True
    end -> Q v).
  { assert (HQU : Q VUndefined).
    { split; [|done]. apply Hstep. by intros item Hitem%elem_of_nil. }
    assert (HQZ : forall n, Q (VNum n)).
    { intros n. split; [|done]. apply Hstep. by intros item Hitem%elem_of_nil. }
    intros v Hv. split.
    - apply Hstep. intros item. unfold content_items.
      pose proof (get_Forall Q v "content" HQU HQZ Hv) as [_ Hc].
      destruct (get v "content") as [| | | | | | |its nm|] eqn:E;
        try by intros ?%elem_of_nil.
      specialize (Hc its nm eq_refl). rewrite Forall_forall in Hc. apply Hc.
    - intros items named ->. destruct Hv as [Hi _].
      eapply Forall_impl; [exact Hi|]. by intros x [Hx _]. }
  intros info. enough (Q info) as [H _] by exact H.
  induction info using value_nested_ind; apply HQ; auto.
Qed.

(** ** What a computation leaves alone *)

Section Related.

Variable P : ref -> node -> node -> Prop.
Hypothesis P_refl : forall x n, P x n n.
Hypothesis P_trans : forall x n1 n2 n3, P x n1 n2 -> P x n2 n3 -> P x n1 n3.

Lemma related_refl ns : related P ns ns.
Proof. intros x n Hx. eauto. Qed.

Lemma related_trans ns1 ns2 ns3 :
  related P ns1 ns2 -> related P ns2 ns3 -> related P ns1 ns3.
Proof.
  intros H12 H23 x n1 Hx.
  destruct (H12 x n1 Hx) as (n2 & Hx2 & HP12).
  destruct (H23 x n2 Hx2) as (n3 & Hx3 & HP23). eauto.
Qed.

Lemma related_length ns ns' :
  related P ns ns' -> (List.length ns <= List.length ns')%nat.
Proof.
  intros H. destruct (List.length ns) as [|k] eqn:E; [lia|].
  destruct (lookup_lt_is_Some_2 ns k) as [n Hn]; [lia|].
  destruct (H k n Hn) as (n' & Hn' & _).
  apply lookup_lt_Some in Hn'. lia.
Qed.

(** A change to nodes that did not exist in [ns0] does not matter to what
    is related to [ns0]. *)
Lemma related_agree ns0 ns ns' :
  related P ns0 ns ->
  (forall x, (x < List.length ns0)%nat -> ns' !! x = ns !! x) ->
  related P ns0 ns'.
Proof.
  intros H Hagree x n Hx. rewrite Hagree by by eapply lookup_lt_Some. eauto.
Qed.

Lemma related_allocate ns n : related P ns (ns ++ [n]).
Proof.
  intros x m Hx. exists m. split; [|done]. by apply lookup_app_l_Some.
Qed.

Lemma related_alter f r ns :
  (forall n, P r n (f n)) -> related P ns (alter f r ns).
Proof.
  intros Hf x n Hx. destruct (decide (r = x)) as [->|Hne].
  - rewrite list_lookup_alter_eq, Hx. simpl. eauto.
  - rewrite list_lookup_alter_ne by done. eauto.
Qed.

Abbreviation respects := (respects P).

Lemma respects_ret {A} (a : A) : respects (ret a).
Proof. intros w. apply related_refl. Qed.

Lemma respects_throw {A} e : respects (@throw A e).
Proof. intros w. apply related_refl. Qed.

Lemma respects_bind {A B} (m : M A) (k : A -> M B) :
  respects m -> (forall a, respects (k a)) -> respects (bind m k).
Proof.
  intros Hm Hk w. unfold bind. specialize (Hm w).
  destruct (m w) as [[a|e] w1]; [|done].
  eapply related_trans; [exact Hm|apply Hk].
Qed.

Lemma respects_try_catch {A} (m : M A) handler :
  respects m -> (forall e, respects (handler e)) -> respects (try_catch m handler).
Proof.
  intros Hm Hh w. unfold try_catch. specialize (Hm w).
  destruct (m w) as [[a|e] w1]; [done|].
  eapply related_trans; [exact Hm|apply Hh].
Qed.

Lemma respects_when b m : respects m -> respects (when b m).
Proof. destruct b; [done|]. intros _. apply respects_ret. Qed.

Lemma respects_forEach {A} (f : A -> M unit) items :
  (forall x, x ∈ items -> respects (f x)) -> respects (forEach f items).
Proof.
  induction items as [|x rest IH]; intros Hf; simpl.
  - apply respects_ret.
  - apply respects_bind; [apply Hf; left|].
    intros _. apply IH. intros y Hy. apply Hf. by right.
Qed.

Lemma respects_same_nodes {A} (m : M A) :
  (forall w, nodes (m w).2 = nodes w) -> respects m.
Proof. intros H w. rewrite H. apply related_refl. Qed.

Lemma respects_read v k : respects (read v k).
Proof. apply respects_same_nodes. intros w. by rewrite read_world. Qed.

Lemma respects_console_error e : respects (console_error e).
Proof. by apply respects_same_nodes. Qed.

Lemma respects_allocate n : respects (allocate n).
Proof. intros w. apply related_allocate. Qed.

Lemma respects_alter_node f r :
  (forall n, P r n (f n)) -> respects (alter_node f r).
Proof. intros Hf w. by apply related_alter. Qed.

Lemma respects_content what info f :
  (forall item, item ∈ content_items info -> respects (f item)) ->
  respects (array_forEach what (get info "content") f).
Proof.
  unfold content_items. intros Hf.
  destruct (get info "content"); try apply respects_throw.
  simpl. by apply respects_forEach.
Qed.

Lemma post_respects {A} (m : M A) w :
  respects m -> post m (fun _ w' => related P (nodes w) (nodes w')) w.
Proof. intros H. apply H. Qed.

End Related.

(** ** The element builder *)

(** [forEach_member o k f] is [o.k.forEach(f)]. *)
Lemma forEach_member_get o k f :
  forEach_member o k f = array_forEach ("info." ++ k ++ ".forEach") (get o k) f.
Proof.
  assert (Hfields : forall l : list (string * value),
    (fix in_fields (l : list (string * value)) : M unit :=
       match l with
       | [] => throw (not_a_function ("info." ++ k ++ ".forEach"))
       | (k', v) :: rest =>
           if String.eqb k' k
           then array_forEach ("info." ++ k ++ ".forEach") v f
           else in_fields rest
       end) l
    = array_forEach ("info." ++ k ++ ".forEach") (lookup_field k l) f).
  { induction l as [|[k' v] rest IH]; [done|].
    simpl. destruct (String.eqb k' k); done. }
  destruct o as [| |b|n|s|r|g|items named|fields]; try reflexivity; simpl.
  - destruct (String.eqb k "length"); reflexivity.
  - destruct (String.eqb k "length"); [reflexivity|].
    destruct (index_among k 0 (List.length items)) as [i|]; [|apply Hfields].
    clear. revert i. induction items as [|x rest IH]; intros i.
    + by destruct i.
    + destruct i; [done|]. apply IH.
  - apply Hfields.
Qed.

Section SpartProperties.

Variable valid_element_name : string -> bool.
Variable valid_attribute_name : string -> bool.
Variable setter_refuses : string -> string -> value -> option exn.
Variable call : fid -> list value -> M value.
Variable svg_root_name : string -> string.

Abbreviation createElement :=
  (createElement valid_element_name valid_attribute_name setter_refuses call
     svg_root_name).
Abbreviation createElement_try :=
  (createElement_try valid_element_name valid_attribute_name setter_refuses
     call).
Abbreviation createSVGElement := (createSVGElement svg_root_name).

(** [createElement] in terms of its [try] block. *)
Lemma createElement_unfold info parent :
  createElement info parent =
    if negb (truthy info) then ret VNull
    else if truthy (get info "element") then ret (get info "element")
    else if truthy (get info "svg") then createSVGElement (get info "svg")
    else
      try_catch (createElement_try createElement info parent)
        (fun error => console_error error ;; ret VNull).
Proof. destruct info; reflexivity. Qed.

(** [createSVGElement] returns the parsed root or [null]; it never throws. *)
Lemma createSVGElement_returns svgString w :
  exists v w',
    createSVGElement svgString w = (Return v, w') /\
    (v = VNull \/ exists r, v = VNode r).
Proof.
  unfold createSVGElement, try_catch, parse_svg_document, bind, allocate,
    read, inspect, node_at, ret.
  simpl. rewrite lookup_app_r, Nat.sub_diag by done. simpl.
  destruct (String.eqb _ _); eexists _, _; (split; [reflexivity|]); eauto.
Qed.

(** What the [try] block returns, when it returns, is the new node. *)
Lemma createElement_try_returns_node rec info parent w :
  post (createElement_try rec info parent)
    (fun res _ => match res with
                  | Return v => exists r, v = VNode r
                  | Throw _ => True
                  end) w.
Proof.
  unfold createElement_try.
  apply post_bind_any; [intros tag w1|done].
  apply post_bind_any; [intros elem w2|done].
  repeat (apply post_bind_any; [intros ? ?|done]).
  apply post_ret. eauto.
Qed.

(** A description that carries a pre-built node is answered with that
    node, and nothing else happens. *)
Lemma createElement_bypass info parent w :
  truthy (get info "element") = true ->
  createElement info parent w = (Return (get info "element"), w).
Proof.
  intros Helem. rewrite createElement_unfold, Helem. by destruct info.
Qed.

(** C1. [createElement] never throws: for every description and every
    parent it returns [null], the pre-built node of the description, or a
    node; and when anything in its [try] block throws (tag determination,
    attributes, properties, children, events, the callback), the error is
    logged and the whole call returns [null]. *)
Theorem createElement_never_throws info parent w :
  (exists v w',
     createElement info parent w = (Return v, w') /\
     (v = VNull \/ v = get info "element" \/ exists r, v = VNode r)) /\
  (forall e w1,
     truthy info = true ->
     truthy (get info "element") = false ->
     truthy (get info "svg") = false ->
     createElement_try createElement info parent w = (Throw e, w1) ->
     createElement info parent w
       = (Return VNull, with_console (console w1 ++ [LogError e])%list w1)).
Proof.
  rewrite createElement_unfold. split.
  - destruct (truthy info); simpl; [|by eexists _, _; eauto].
    destruct (truthy (get info "element")); [by eexists _, _; eauto|].
    destruct (truthy (get info "svg")).
    { destruct (createSVGElement_returns (get info "svg") w)
        as (v & w' & -> & Hv). eexists _, _. split; [done|]. tauto. }
    pose proof (createElement_try_returns_node createElement info parent w)
      as H.
    unfold try_catch, post in *.
    destruct (createElement_try createElement info parent w) as [[v|e] w1].
    + eexists _, _. split; [done|]. auto.
    + eexists _, _. split; [reflexivity|]. auto.
  - intros e w1 -> -> -> Hrun. simpl. unfold try_catch. by rewrite Hrun.
Qed.

(** *** Attributes *)




Lemma post_bind_frame {A B} (J : world -> Prop) (m : M A) (k : A -> M B) Q w :
  post m (fun _ w' => J w') w ->
  (forall e w', J w' -> Q (Throw e) w') ->
  (forall a w', J w' -> post (k a) Q w') ->
  post (bind m k) Q w.
Proof.
  intros Hm He Hk. apply post_bind. eapply post_mono; [exact Hm|].
  intros [a|e] w' HJ; auto.
Qed.

(** The tag is found without touching the store. *)
Lemma tag_step_nodes info parent w :
  post (if negb (truthy (get info "tag")) then
          let! p := read parent "tagName" in
          if loose_eq_str p "SELECT" then ret (VStr "OPTION")
          else if loose_eq_str p "UL" || loose_eq_str p "OL"
               then ret (VStr "LI")
               else (console_warn "No element tag specified in:" info ;;
                     ret (VStr "SPAN"))
        else ret (get info "tag"))
    (fun _ w' => nodes w' = nodes w) w.
Proof.
  destruct (negb (truthy (get info "tag"))); [|done].
  apply post_bind, post_read; [intros p|done].
  destruct (loose_eq_str p "SELECT"); [done|].
  by destruct (loose_eq_str p "UL" || loose_eq_str p "OL").
Qed.



(** *** Children *)

Lemma same_place_refl S x n : same_place S x n n.
Proof. by split. Qed.

Lemma same_place_trans S x n1 n2 n3 :
  same_place S x n1 n2 -> same_place S x n2 n3 -> same_place S x n1 n3.
Proof.
  intros [Hp12 Hc12] [Hp23 Hc23]. split.
  - intros Hx. by rewrite Hp23, Hp12.
  - intros Hc. rewrite Hc23; [by apply Hc12|]. by rewrite Hc12.
Qed.

Lemma same_place_mono (S S' : ref -> Prop) x n n' :
  (forall c, S c -> S' c) -> same_place S x n n' -> same_place S' x n n'.
Proof.
  intros HS [Hp Hc]. split.
  - intros Hx. apply Hp. auto.
  - intros Hch. apply Hc. intros c Hin HSc. by apply (Hch c Hin), HS.
Qed.

Lemma related_mono (P P' : ref -> node -> node -> Prop) ns ns' :
  (forall x n n', P x n n' -> P' x n n') -> related P ns ns' -> related P' ns ns'.
Proof.
  intros HP H x n Hx. destruct (H x n Hx) as (n' & Hn' & HPx). eauto.
Qed.

(** Looking only at the first [b] nodes. *)
Lemma related_take P b ns ns' : related P ns ns' -> related P (take b ns) ns'.
Proof.
  intros H x n Hx. apply lookup_take_Some in Hx as [Hx _]. by apply H.
Qed.

Lemma related_take_trans P b ns ns1 ns2 :
  (forall x n1 n2 n3, P x n1 n2 -> P x n2 n3 -> P x n1 n3) ->
  related P (take b ns) ns1 -> related P (take b ns1) ns2 ->
  related P (take b ns) ns2.
Proof.
  intros Htrans H1 H2 x n Hx.
  destruct (H1 x n Hx) as (n1 & Hn1 & HP1).
  apply lookup_take_Some in Hx as [_ Hb].
  destruct (H2 x n1) as (n2 & Hn2 & HP2).
  { by rewrite lookup_take_lt. }
  eauto.
Qed.

Lemma related_from_take P ns0 ns ns' :
  (forall x n1 n2 n3, P x n1 n2 -> P x n2 n3 -> P x n1 n3) ->
  related P ns0 ns -> related P (take (List.length ns0) ns) ns' ->
  related P ns0 ns'.
Proof.
  intros Htrans H1 H2 x n Hx.
  destruct (H1 x n Hx) as (n1 & Hn1 & HP1).
  destruct (H2 x n1) as (n2 & Hn2 & HP2).
  { rewrite lookup_take_lt; [done|]. by eapply lookup_lt_Some. }
  eauto.
Qed.

Lemma remove_ref_absent c l : c ∉ l -> remove_ref c l = l.
Proof.
  intros Hc. unfold remove_ref. induction l as [|x rest IH]; [done|].
  apply not_elem_of_cons in Hc as [Hne Hc].
  rewrite filter_cons_True by done. by rewrite IH.
Qed.

Lemma inclusive_ancestor_of_root fuel ns c elem ne :
  ns !! elem = Some ne -> parentNode ne = None -> c <> elem ->
  inclusive_ancestor fuel ns c elem = false.
Proof.
  intros He Hp Hne. destruct fuel; simpl.
  - rewrite orb_false_r. by apply Nat.eqb_neq.
  - rewrite He, Hp, orb_false_r. by apply Nat.eqb_neq.
Qed.

(** What [appendChild] does with a node that is not [elem] itself, to an
    [elem] without a parent. *)
Lemma appendChild_moves elem c w nc ne :
  nodes w !! c = Some nc -> nodes w !! elem = Some ne ->
  c <> elem -> parentNode ne = None -> c ∉ childNodes ne ->
  exists w',
    appendChild elem (VNode c) w = (Return tt, w') /\
    (exists ne', nodes w' !! elem = Some ne' /\
       parentNode ne' = None /\ childNodes ne' = (childNodes ne ++ [c])%list) /\
    List.length (nodes w') = List.length (nodes w) /\
    related (fun x n n' =>
               (x <> c -> parentNode n' = parentNode n) /\
               (x <> elem -> parentNode nc <> Some x \/ c ∉ childNodes n ->
                childNodes n' = childNodes n))
      (nodes w) (nodes w').
Proof.
  intros Hc He Hne Hroot Hfresh. unfold appendChild. rewrite Hc, He.
  rewrite (inclusive_ancestor_of_root _ _ _ _ _ He Hroot Hne).
  eexists. split; [reflexivity|]. cbn [nodes with_nodes].
  unfold detach. rewrite Hc.
  split; [|split].
  - destruct (parentNode nc) as [p|].
    + rewrite list_lookup_alter_ne by done. rewrite list_lookup_alter_eq.
      rewrite list_lookup_alter_ne by done.
      rewrite list_lookup_alter. case_decide; simplify_eq; rewrite He; simpl.
      * eexists. split; [done|]. simpl. by rewrite remove_ref_absent.
      * eexists. by split.
    + rewrite list_lookup_alter_ne by done. rewrite list_lookup_alter_eq, He.
      eexists. by split.
  - destruct (parentNode nc); by rewrite !length_alter.
  - intros x n Hx.
    destruct (parentNode nc) as [p|];
      rewrite !list_lookup_alter;
      repeat case_decide; simplify_eq; rewrite ?Hc, ?He, ?Hx; simpl;
      eexists; (split; [reflexivity|]); simpl;
      (split; [done|]); intros ? [Hin|Hin]; try done;
      by rewrite ?remove_ref_absent.
Qed.

Lemma node_refs_lookup_field k fields :
  node_refs (lookup_field k fields)
    `sublist_of` flat_map (fun entry : string * value =>
                             let (_, x) := entry in node_refs x) fields.
Proof.
  induction fields as [|[k' v] rest IH]; simpl; [done|].
  destruct (String.eqb k' k).
  - by apply sublist_inserts_r.
  - by apply sublist_inserts_l.
Qed.

Lemma node_refs_nth i items :
  node_refs (nth i items VUndefined) `sublist_of` flat_map node_refs items.
Proof.
  revert i. induction items as [|x rest IH]; intros [|i]; simpl;
    try apply sublist_nil_l.
  - by apply sublist_inserts_r.
  - by apply sublist_inserts_l.
Qed.

(** A property of a value refers to no node the value does not refer to. *)
Lemma node_refs_get v k : node_refs (get v k) `sublist_of` node_refs v.
Proof.
  destruct v as [| |b|n|s|r|f|items named|fields]; simpl;
    try apply sublist_nil_l.
  - destruct (String.eqb k "length"); apply sublist_nil_l.
  - destruct (String.eqb k "length"); [apply sublist_nil_l|].
    destruct (index_among _ _ _) as [i|].
    + apply sublist_inserts_r, node_refs_nth.
    + apply sublist_inserts_l, node_refs_lookup_field.
  - apply node_refs_lookup_field.
Qed.

Lemma node_refs_content info :
  flat_map node_refs (content_items info) `sublist_of` node_refs info.
Proof.
  unfold content_items.
  pose proof (node_refs_get info "content") as H.
  destruct (get info "content"); try apply sublist_nil_l.
  etrans; [|exact H]. simpl. by apply sublist_inserts_r.
Qed.

Section Children.

Ltac place :=
  first [exact (same_place_refl _) | exact (same_place_trans _)].

Lemma alter_node_keeps_place S f r :
  (forall n, parentNode (f n) = parentNode n /\ childNodes (f n) = childNodes n) ->
  respects (same_place S) (alter_node f r).
Proof.
  intros Hf. apply (respects_alter_node (same_place S));
    [apply same_place_refl|].
  intros n. destruct (Hf n) as [Hp Hc]. by split.
Qed.

Lemma set_property_keeps_place S elem k v :
  respects (same_place S) (set_property setter_refuses elem k v).
Proof.
  apply respects_bind; [place| |].
  - apply respects_same_nodes; [place|done].
  - intros tag. destruct (setter_refuses tag k v).
    + apply respects_throw; place.
    + by apply alter_node_keeps_place.
Qed.

Lemma setAttribute_keeps_place S elem k v :
  respects (same_place S) (setAttribute valid_attribute_name elem k v).
Proof.
  unfold setAttribute. destruct (valid_attribute_name k).
  - by apply alter_node_keeps_place.
  - apply respects_throw; place.
Qed.

Lemma addEventListener_keeps_place S elem name handler :
  respects (same_place S) (addEventListener elem name handler).
Proof.
  destruct handler; try (apply respects_ret; place).
  all: try (apply respects_throw; place).
  all: by apply alter_node_keeps_place.
Qed.

(** The content loop: every child call is made in turn, every node
    returned goes to the end of the children of [elem], and [elem] stays
    without a parent. *)
Lemma content_loop rec elem : forall items w C,
  (forall item, item ∈ items -> builds_child rec item) ->
  NoDup (flat_map node_refs items) ->
  Forall (fun c => (c < elem)%nat) (flat_map node_refs items) ->
  (exists n, nodes w !! elem = Some n /\
             parentNode n = None /\ childNodes n = C) ->
  (forall c, c ∈ C ->
     (c ∉ flat_map node_refs items) /\ (c < List.length (nodes w))%nat) ->
  post (forEach (fun item =>
                   (let! childElement := rec item (VNode elem) in
                    when (truthy childElement)
                      (appendChild elem childElement)))
          items)
    (fun res w' =>
       related (same_place (fun c => c ∈ flat_map node_refs items))
         (take elem (nodes w)) (nodes w') /\
       exists n, nodes w' !! elem = Some n /\ parentNode n = None /\
         match res with
         | Return _ =>
             exists results,
               build_children rec elem items w = (Return results, w') /\
               childNodes n = (C ++ nodes_of results)%list
         | Throw _ => True
         end) w.
Proof.
  induction items as [|item rest IH]; intros w C Hrec Hnd Hold Helem HC.
  { apply post_ret. split; [apply related_take, related_refl; place|].
    destruct Helem as (n & Hn & Hp & Hc). exists n. split; [done|].
    split; [done|]. exists []. by rewrite app_nil_r. }
  destruct Helem as (n & Hn & Hp & Hc).
  simpl in Hnd, Hold. apply NoDup_app in Hnd as (Hnd_item & Hdisj & Hnd_rest).
  apply Forall_app in Hold as [Hold_item Hold_rest].
  assert (Hlen : (elem < List.length (nodes w))%nat) by by eapply lookup_lt_Some.
  (* the child call *)
  pose proof (Hrec item ltac:(left) (VNode elem) w) as Hchild.
  unfold post in Hchild.
  destruct (rec item (VNode elem) w) as [res1 w1] eqn:E1. cbn [fst snd] in *.
  destruct Hchild as (Hrel1 & v & -> & Hv).
  { eapply Forall_impl; [exact Hold_item|]. simpl. lia. }
  { done. }
  pose proof (related_length _ _ _ Hrel1) as Hlen1.
  destruct (Hrel1 elem n Hn) as (n1 & Hn1 & Hp1 & Hc1).
  assert (Hp1' : parentNode n1 = None).
  { rewrite Hp1, Hp; [done|]. intros Hin.
    rewrite Forall_forall in Hold_item. specialize (Hold_item _ Hin). lia. }
  assert (Hc1' : childNodes n1 = C).
  { rewrite Hc1, Hc; [done|]. intros c Hin Hbad. rewrite Hc in Hin.
    destruct (HC c Hin) as [Hnot _]. apply Hnot. simpl.
    apply elem_of_app. by left. }
  clear Hp1 Hc1.
  assert (Hrel1' :
    related (same_place (fun c => c ∈ flat_map node_refs (item :: rest)))
      (take elem (nodes w)) (nodes w1)).
  { apply related_take. eapply related_mono; [|exact Hrel1].
    intros x m m'. apply same_place_mono. intros c Hin. simpl.
    apply elem_of_app. by left. }
  set (f := fun item =>
              (let! childElement := rec item (VNode elem) in
               when (truthy childElement) (appendChild elem childElement))).
  fold f in IH.
  (* what the rest of the loop does, from any world [w2] reached *)
  assert (Hrest : forall w2 C2 v2,
    (exists n2, nodes w2 !! elem = Some n2 /\
                parentNode n2 = None /\ childNodes n2 = C2) ->
    (forall c, c ∈ C2 ->
       (c ∉ flat_map node_refs rest) /\ (c < List.length (nodes w2))%nat) ->
    related (same_place (fun c => c ∈ flat_map node_refs (item :: rest)))
      (take elem (nodes w1)) (nodes w2) ->
    C2 = (C ++ nodes_of [v2])%list ->
    forEach f (item :: rest) w = forEach f rest w2 ->
    build_children rec elem (item :: rest) w
      = (let! others := build_children rec elem rest in ret (v2 :: others)) w2 ->
    post (forEach f (item :: rest))
      (fun res w' =>
         related (same_place (fun c => c ∈ flat_map node_refs (item :: rest)))
           (take elem (nodes w)) (nodes w') /\
         exists n, nodes w' !! elem = Some n /\ parentNode n = None /\
           match res with
           | Return _ =>
               exists results,
                 build_children rec elem (item :: rest) w
                   = (Return results, w') /\
                 childNodes n = (C ++ nodes_of results)%list
           | Throw _ => True
           end) w).
  { intros w2 C2 v2 Helem2 HC2 Hrel2 HCeq Efor Ebuild.
    pose proof (IH w2 C2) as Hloop. unfold post in Hloop |- *.
    rewrite Efor, Ebuild.
    destruct Hloop as (Hrel3 & n' & Hn' & Hp' & Hres).
    - intros it Hit. apply Hrec. by right.
    - done.
    - done.
    - done.
    - done.
    - split.
      { eapply related_take_trans; [place|exact Hrel1'|].
        eapply related_take_trans; [place|exact Hrel2|].
        eapply related_mono; [|exact Hrel3].
        intros x m m'. apply same_place_mono. intros c Hin. simpl.
        apply elem_of_app. by right. }
      exists n'. split; [done|]. split; [done|].
      destruct (forEach f rest w2) as [[[]|e] w'] eqn:Eloop; [|done].
      cbn [fst snd] in *. destruct Hres as (results & Hbuild & Hch).
      exists (v2 :: results).
      erewrite bind_return by exact Hbuild. split; [done|].
      rewrite Hch, HCeq. unfold nodes_of. simpl.
      destruct (node_of v2); simpl; by rewrite <- app_assoc. }
  destruct (truthy v) eqn:Ev.
  2:{ (* nothing to append *)
    apply (Hrest w1 C v).
    - by exists n1.
    - intros c Hin. destruct (HC c Hin) as [Hnot Hlt]. split; [|lia].
      intros Hbad. apply Hnot. simpl. apply elem_of_app. by right.
    - apply related_take, related_refl; place.
    - destruct v; try done; by rewrite app_nil_r.
    - cbn [forEach]. erewrite bind_return; [reflexivity|].
      unfold f. erewrite bind_return by exact E1. by rewrite Ev.
    - cbn [build_children]. erewrite bind_return by exact E1.
      rewrite Ev. reflexivity. }
  (* a node to append, or something that is not a node *)
  assert (Hthrow : forall e,
    appendChild elem v w1 = (Throw e, w1) ->
    post (forEach f (item :: rest))
      (fun res w' =>
         related (same_place (fun c => c ∈ flat_map node_refs (item :: rest)))
           (take elem (nodes w)) (nodes w') /\
         exists n, nodes w' !! elem = Some n /\ parentNode n = None /\
           match res with
           | Return _ =>
               exists results,
                 build_children rec elem (item :: rest) w
                   = (Return results, w') /\
                 childNodes n = (C ++ nodes_of results)%list
           | Throw _ => True
           end) w).
  { intros e Happ. unfold post. cbn [forEach].
    erewrite bind_throw.
    2:{ unfold f. erewrite bind_return by exact E1. rewrite Ev. exact Happ. }
    cbn [fst snd]. split; [done|]. by exists n1. }
  destruct v as [| | | | |c| | |]; try by eapply Hthrow.
  assert (Happend : forall nc,
    nodes w1 !! c = Some nc ->
    c <> elem -> c ∉ C -> c ∉ flat_map node_refs rest ->
    ((c < elem)%nat -> c ∈ node_refs item) ->
    (forall x, parentNode nc = Some x -> c ∈ node_refs item) ->
    post (forEach f (item :: rest))
      (fun res w' =>
         related (same_place (fun c => c ∈ flat_map node_refs (item :: rest)))
           (take elem (nodes w)) (nodes w') /\
         exists n, nodes w' !! elem = Some n /\ parentNode n = None /\
           match res with
           | Return _ =>
               exists results,
                 build_children rec elem (item :: rest) w
                   = (Return results, w') /\
                 childNodes n = (C ++ nodes_of results)%list
           | Throw _ => True
           end) w).
  { intros nc Hnc Hne HnotC Hnotrest Hisold Hparent.
    destruct (appendChild_moves elem c w1 nc n1) as
      (w2 & Happ & (n2 & Hn2 & Hp2 & Hc2) & Hlen2 & Hrel2); try done.
    { by rewrite Hc1'. }
    apply (Hrest w2 (C ++ [c])%list (VNode c)).
    - exists n2. by rewrite Hc2, Hc1'.
    - intros c' [Hin| ->%list_elem_of_singleton]%elem_of_app.
      + destruct (HC c' Hin) as [Hnot Hlt]. split; [|lia].
        intros Hbad. apply Hnot. simpl. apply elem_of_app. by right.
      + split; [done|]. rewrite Hlen2. by eapply lookup_lt_Some.
    - intros x m Hx. apply lookup_take_Some in Hx as [Hx Hxe].
      destruct (Hrel2 x m Hx) as (m' & Hm' & Hpar & Hch).
      exists m'. split; [done|]. split.
      + intros HS. apply Hpar. intros ->. apply HS. simpl.
        apply elem_of_app. left. by apply Hisold.
      + intros Hno. apply Hch; [lia|].
        destruct (decide (parentNode nc = Some x)) as [Hpx|Hpx]; [|by left].
        right. intros Hin. apply (Hno c Hin). simpl.
        apply elem_of_app. left. by eapply Hparent.
    - done.
    - cbn [forEach]. erewrite bind_return; [reflexivity|].
      unfold f. erewrite bind_return by exact E1. by rewrite Ev.
    - cbn [build_children]. erewrite bind_return by exact E1.
      rewrite Ev. cbn [when]. by erewrite bind_return by exact Happ. }
  destruct (Hv c eq_refl) as [Hpre|(Hnew & nc & Hnc & Hpc)].
  - (* a node the item refers to *)
    assert (Hc_old : (c < elem)%nat).
    { rewrite Forall_forall in Hold_item. by apply Hold_item. }
    destruct (lookup_lt_is_Some_2 (nodes w1) c) as [nc Hnc]; [lia|].
    apply (Happend nc); try done.
    + lia.
    + intros Hin. destruct (HC c Hin) as [Hnot _].
      apply Hnot. simpl. apply elem_of_app. by left.
    + by apply Hdisj.
  - (* a new node *)
    apply (Happend nc); try done.
    + lia.
    + intros Hin. destruct (HC c Hin) as [_ Hlt]. lia.
    + intros Hbad.
      rewrite Forall_forall in Hold_rest. specialize (Hold_rest _ Hbad). lia.
    + lia.
    + intros x Hbad. by rewrite Hpc in Hbad.
Qed.

(** What the functions passed in by the caller may do: anything but move
    a node. *)
Hypothesis call_keeps_tree :
  forall f args, respects (same_place nowhere) (call f args).

Lemma same_place_nowhere_eq x n n' :
  same_place nowhere x n n' ->
  parentNode n' = parentNode n /\ childNodes n' = childNodes n.
Proof.
  intros [Hp Hc]. split; [apply Hp; by intros []|]. apply Hc. by intros c _ [].
Qed.

Lemma same_place_nowhere_any S x n n' :
  same_place nowhere x n n' -> same_place S x n n'.
Proof. apply same_place_mono. by intros c []. Qed.

(** The [try] block moves no node but those the children sequence refers
    to, and the children of the new node are the nodes the child calls
    returned, in order. *)
Lemma createElement_try_children rec info parent w :
  (forall item, item ∈ content_items info -> builds_child rec item) ->
  NoDup (flat_map node_refs (content_items info)) ->
  Forall (fun c => (c < List.length (nodes w))%nat)
    (flat_map node_refs (content_items info)) ->
  post (createElement_try rec info parent)
    (fun res w' =>
       related (same_place
                  (fun c => c ∈ flat_map node_refs (content_items info)))
         (nodes w) (nodes w') /\
       match res with
       | Return v =>
           v = VNode (List.length (nodes w)) /\
           exists n results w1 w2,
             nodes w' !! List.length (nodes w) = Some n /\
             parentNode n = None /\
             build_children rec (List.length (nodes w)) (content_items info) w1
               = (Return results, w2) /\
             childNodes n = nodes_of results
       | Throw _ => True
       end) w.
Proof.
  intros Hrec Hnd Hlive.
  unfold createElement_try, setAttributes, addInnerContent.
  set (elem := List.length (nodes w)) in *.
  set (S := fun c => c ∈ flat_map node_refs (content_items info)).
  set (Q := fun (res : result value) (w' : world) =>
              related (same_place S) (nodes w) (nodes w') /\
              match res with
              | Return v =>
                  v = VNode elem /\
                  exists n results w1 w2,
                    nodes w' !! elem = Some n /\
                    parentNode n = None /\
                    build_children rec elem (content_items info) w1
                      = (Return results, w2) /\
                    childNodes n = nodes_of results
              | Throw _ => True
              end).
  apply post_bind. eapply post_mono; [apply tag_step_nodes|].
  intros [tag|e] w1 Hw1;
    [|by unfold Q; rewrite Hw1; split; [apply related_refl; place|]].
  apply post_bind. unfold document_createElement.
  destruct (valid_element_name _);
    [|by apply post_throw; unfold Q; rewrite Hw1;
         split; [apply related_refl; place|]].
  unfold post at 1, allocate. cbn [fst snd]. rewrite Hw1. fold elem.
  set (J := fun C w' =>
              related (same_place S) (nodes w) (nodes w') /\
              exists n, nodes w' !! elem = Some n /\
                        parentNode n = None /\ childNodes n = C).
  assert (HJ : forall C wa wb,
    J C wa -> related (same_place nowhere) (nodes wa) (nodes wb) -> J C wb).
  { intros C wa wb (Hrel & n & Hn & Hp & Hc) Hab. split.
    - eapply related_trans; [place|exact Hrel|].
      eapply related_mono; [|exact Hab]. intros x m m'.
      apply same_place_nowhere_any.
    - destruct (Hab elem n Hn) as (n' & Hn' & Hsame).
      apply same_place_nowhere_eq in Hsame as [Hp' Hc'].
      exists n'. split; [done|]. by rewrite Hp', Hc'. }
  assert (Hstep : forall C (m : M unit) k w',
    J C w' -> respects (same_place nowhere) m ->
    (forall w'', J C w'' -> post k Q w'') ->
    post (m ;; k) Q w').
  { intros C m k w' HJw' Hm Hk.
    apply (post_bind_frame (J C)).
    - eapply post_mono; [apply post_respects; exact Hm|].
      intros res w'' Hrel. by eapply HJ.
    - intros e w'' [Hrel _]. by split.
    - intros _ w''. apply Hk. }
  assert (HJ0 : J [] (with_nodes (nodes w ++ [new_node (to_upper (to_string tag))])
                        w1)).
  { split; [apply related_allocate; place|]. cbn [nodes with_nodes].
    exists (new_node (to_upper (to_string tag))). split; [|done].
    unfold elem. by rewrite lookup_app_r, Nat.sub_diag. }
  apply (Hstep []); [exact HJ0| |].
  { apply respects_when; [place|]. apply set_property_keeps_place. }
  intros w2 HJ2. apply (Hstep []); [exact HJ2| |].
  { apply respects_when; [place|]. apply set_property_keeps_place. }
  intros w3 HJ3. apply (Hstep []); [exact HJ3| |].
  { apply respects_forEach; [place|place|]. intros [key value] _.
    apply respects_when; [place|]. apply respects_when; [place|].
    apply setAttribute_keeps_place. }
  intros w4 HJ4. apply (Hstep []); [exact HJ4| |].
  { apply respects_when; [place|]. apply respects_forEach; [place|place|].
    intros [key value] _. apply respects_when; [place|].
    apply set_property_keeps_place. }
  intros w5 HJ5.
  (* add inner content *)
  assert (Hafter : forall C w6,
    J C w6 ->
    (exists results wa wb,
       build_children rec elem (content_items info) wa = (Return results, wb) /\
       C = nodes_of results) ->
    post (when (truthy (get info "events"))
            (forEach (fun entry : string * value =>
                        let (name, handler) := entry in
                        addEventListener elem name handler)
               (entries (get info "events"))) ;;
          when (truthy (get info "callback"))
            (invoke call "info.callback" (get info "callback")
               [VNode elem; info; parent] ;;
             ret tt) ;;
          ret (VNode elem)) Q w6).
  { intros C w6 HJ6 (results & wa & wb & Hbuild & HC).
    apply (Hstep C); [exact HJ6| |].
    { apply respects_when; [place|]. apply respects_forEach; [place|place|].
      intros [name handler] _. apply addEventListener_keeps_place. }
    intros w7 HJ7. apply (Hstep C); [exact HJ7| |].
    { apply respects_when; [place|]. apply respects_bind; [place| |].
      - unfold invoke. destruct (get info "callback");
          first [apply call_keeps_tree | apply respects_throw; place].
      - intros _. apply respects_ret; place. }
    intros w8 (Hrel8 & n8 & Hn8 & Hp8 & Hc8).
    apply post_ret. split; [done|]. split; [done|].
    exists n8, results, wa, wb. by rewrite Hc8. }
  apply post_bind.
  destruct (truthy (get info "content")) eqn:Econtent; cbn [when].
  2:{ apply post_ret. apply (Hafter []); [done|].
      exists [], w5, w5. split; [|done].
      unfold content_items. by destruct (get info "content"). }
  rewrite forEach_member_get.
  pose proof (eq_refl (content_items info)) as Hitems.
  unfold content_items at 2 in Hitems.
  destruct (get info "content") as [| | | | | | |items named|] eqn:Eget;
    try (apply post_throw; destruct HJ5 as [Hrel5 _]; by split).
  cbn [array_forEach].
  destruct HJ5 as (Hrel5 & n5 & Hn5 & Hp5 & Hc5).
  eapply post_mono.
  { apply (content_loop rec elem items w5 []).
    - intros item Hitem. apply Hrec. by rewrite Hitems.
    - by rewrite <- Hitems.
    - by rewrite <- Hitems.
    - by exists n5.
    - by intros c Hc%elem_of_nil. }
  intros res w6 (Hrel6 & n6 & Hn6 & Hp6 & Hres).
  assert (Hrel6' : related (same_place S) (nodes w) (nodes w6)).
  { eapply related_from_take; [place|exact Hrel5|].
    fold elem. unfold S. by rewrite Hitems. }
  destruct res as [[]|e]; [|by split].
  destruct Hres as (results & Hbuild & Hch).
  apply (Hafter (nodes_of results)).
  - split; [done|]. by exists n6.
  - exists results, w5, w6. by rewrite Hitems.
Qed.

Lemma createSVGElement_builds_new S svgString w :
  post (createSVGElement svgString)
    (fun res w' =>
       related (same_place S) (nodes w) (nodes w') /\
       exists v, res = Return v /\
         forall c, v = VNode c ->
           (List.length (nodes w) <= c)%nat /\
           exists n, nodes w' !! c = Some n /\ parentNode n = None) w.
Proof.
  unfold post, createSVGElement, try_catch, parse_svg_document, bind, allocate,
    read, inspect, node_at, ret.
  simpl. rewrite lookup_app_r, Nat.sub_diag by done. simpl.
  destruct (String.eqb _ _); simpl;
    (split; [apply related_allocate; place|]);
    eexists; (split; [reflexivity|]); intros c [= <-].
  split; [done|]. exists (new_node (svg_root_name (to_string svgString))).
  split; [|done]. by rewrite lookup_app_r, Nat.sub_diag.
Qed.

(** Every call of [createElement] builds a child well. *)
Lemma createElement_builds_child info : builds_child createElement info.
Proof.
  induction info as [info IH] using description_ind.
  intros parent w Hlive Hnd. rewrite createElement_unfold.
  destruct (negb (truthy info)).
  { apply post_ret. split; [apply related_refl; place|].
    exists VNull. split; [done|]. by intros c. }
  destruct (truthy (get info "element")).
  { apply post_ret. split; [apply related_refl; place|].
    eexists. split; [done|]. intros c Hc. left.
    pose proof (node_refs_get info "element") as Hsub. rewrite Hc in Hsub.
    apply sublist_subseteq in Hsub. apply Hsub. simpl. left. }
  destruct (truthy (get info "svg")).
  { eapply post_mono; [apply createSVGElement_builds_new|].
    intros res w' (Hrel & v & -> & Hv). split; [exact Hrel|].
    exists v. split; [done|]. intros c Hc. right. by apply Hv. }
  pose proof (node_refs_content info) as Hsub.
  apply post_try_catch. eapply post_mono.
  { apply (createElement_try_children createElement info parent w IH).
    - by eapply sublist_NoDup.
    - rewrite Forall_forall in Hlive |- *. intros c Hc. apply Hlive.
      by apply (sublist_subseteq _ _ Hsub). }
  intros res w' [Hrel Hres].
  assert (Hrel' : related (same_place (fun c => c ∈ node_refs info))
                    (nodes w) (nodes w')).
  { eapply related_mono; [|exact Hrel]. intros x m m'.
    apply same_place_mono. intros c Hc. by apply (sublist_subseteq _ _ Hsub). }
  destruct res as [v|e].
  - split; [done|]. exists v. split; [done|].
    destruct Hres as (-> & n & _ & _ & _ & Hn & Hp & _).
    intros c [= <-]. right. split; [done|]. by exists n.
  - apply post_bind, post_update, post_ret. split; [done|].
    exists VNull. split; [done|]. by intros c.
Qed.






End Children.

(** C4, as the code has it.  With no tag, no pre-built node, no SVG markup
    and no parent, reading [parent.tagName] throws inside the [try] block:
    the call logs that error, warns about nothing, builds nothing and
    returns [null]. *)
Theorem missing_parent_without_tag_returns_null info w :
  truthy info = true ->
  truthy (get info "element") = false ->
  truthy (get info "svg") = false ->
  truthy (get info "tag") = false ->
  createElement info VUndefined w
    = (Return VNull,
       with_console
         (console w ++
          [LogError
             (TypeError
                "Cannot read properties of undefined (reading 'tagName')")])%list
         w).
Proof.
  intros Hinfo Helem Hsvg Htag.
  rewrite createElement_unfold, Hinfo, Helem, Hsvg. simpl.
  unfold createElement_try, try_catch, bind. rewrite Htag. reflexivity.
Qed.

End SpartProperties.

(** ** The toast notifier *)

Lemma removeToast_unknown id w :
  toastItems w !! id = None -> removeToast id w = (Return tt, w).
Proof.
  intros H. unfold removeToast, bind, inspect. rewrite H. reflexivity.
Qed.

Lemma removeToast_active id r n w :
  toastItems w !! id = Some (VNode r) ->
  nodes w !! r = Some n ->
  removeToast id w =
    (Return tt,
     mkWorld
       (<[r := set_style (assign_field "opacity" (VStr "0") (style n)) n]>
          (nodes w))
       (document_body w) (console w) (delete id (toastItems w))
       (timers w ++ [mkTimer (next_timer w) (TaskDetach (VNode r)) 300])
       (next_timer w + 1) (requests w)).
Proof.
  intros Hid Hr. unfold removeToast, bind, inspect. rewrite Hid. simpl.
  unfold alter_node, update, setTimeout, with_nodes, with_timers,
    with_toastItems. simpl. do 3 f_equal.
  apply list_eq. intros i. destruct (decide (i = r)) as [->|Hne].
  - rewrite list_lookup_alter_eq, Hr, list_lookup_insert_eq; [done|].
    by eapply lookup_lt_Some.
  - by rewrite list_lookup_alter_ne, list_lookup_insert_ne.
Qed.

Section ToastProperties.

Variable valid_element_name : string -> bool.
Variable valid_attribute_name : string -> bool.
Variable setter_refuses : string -> string -> value -> option exn.
Variable call : fid -> list value -> M value.
Variable svg_root_name : string -> string.
Variable getElementById : string -> world -> value.

Abbreviation toast :=
  (toast valid_element_name valid_attribute_name setter_refuses call
     svg_root_name getElementById).

(** After [toast] the registry holds a node of the store under the
    identifier returned. *)
Lemma toast_registers message forLong w :
  post (toast message forLong)
    (fun res w' =>
       match res with
       | Return id =>
           exists r n, toastItems w' !! id = Some (VNode r) /\
                       nodes w' !! r = Some n
       | Throw _ => True
       end) w.
Proof.
  unfold toast.
  apply post_bind_any; [intros c0 w1|done].
  apply post_bind_any; [intros c w2|done].
  apply post_bind_any; [intros item w3|done].
  apply post_bind.
  eapply post_mono with
    (Q := fun res w' =>
            match res with
            | Return _ => exists r n, item = VNode r /\ nodes w' !! r = Some n
            | Throw _ => True
            end).
  { unfold appendChild_to. destruct c; try done.
    unfold appendChild. destruct item as [| | | | |ci| | |]; try done.
    unfold post. destruct (nodes w3 !! ci) as [nc|] eqn:Ec; [|done].
    destruct (nodes w3 !! r) as [np|] eqn:Ep; [|done].
    destruct (inclusive_ancestor _ _ _ _); [done|]. simpl.
    assert (Hlen : (ci < List.length (nodes w3))%nat)
      by by eapply lookup_lt_Some.
    assert (is_Some
              (alter (set_parentNode (Some r)) ci
                 (alter (fun pn => set_childNodes (childNodes pn ++ [ci]) pn) r
                    (detach ci (nodes w3))) !! ci)) as [n Hn].
    { apply lookup_lt_is_Some. rewrite !length_alter.
      unfold detach. rewrite Ec.
      destruct (parentNode nc); by rewrite ?length_alter. }
    eauto. }
  intros [[]|e] w4; [|done]. intros (r & n & -> & Hr).
  unfold post, setTimeout, bind, update, ret. simpl.
  rewrite lookup_insert_eq. eauto.
Qed.

(** C8. [removeToast(id)] changes nothing when the registry has no entry
    for [id].  When the registry holds a node under [id], the call sets the
    node's opacity to '0', schedules its removal from the document 300 ms
    later, and deletes the entry at once, so that a second call with the
    same [id] changes nothing.  In particular, after [toast] has returned
    an identifier, [removeToast] of that identifier leaves the registry
    without it and the toast's node with opacity '0'. *)
Theorem removeToast_deletes_entry_once :
  (forall id w, toastItems w !! id = None -> removeToast id w = (Return tt, w)) /\
  (forall id r n w,
     toastItems w !! id = Some (VNode r) ->
     nodes w !! r = Some n ->
     exists n' w',
       removeToast id w = (Return tt, w') /\
       nodes w' !! r = Some n' /\
       lookup_field "opacity" (style n') = VStr "0" /\
       toastItems w' = delete id (toastItems w) /\
       toastItems w' !! id = None /\
       timers w' = (timers w
                    ++ [mkTimer (next_timer w) (TaskDetach (VNode r)) 300])%list /\
       removeToast id w' = (Return tt, w')) /\
  (forall message forLong w id w1,
     toast message forLong w = (Return id, w1) ->
     exists r n' w2,
       toastItems w1 !! id = Some (VNode r) /\
       removeToast id w1 = (Return tt, w2) /\
       toastItems w2 !! id = None /\
       nodes w2 !! r = Some n' /\
       lookup_field "opacity" (style n') = VStr "0" /\
       removeToast id w2 = (Return tt, w2)).
Proof.
  assert (Hactive : forall id r n w,
     toastItems w !! id = Some (VNode r) ->
     nodes w !! r = Some n ->
     exists n' w',
       removeToast id w = (Return tt, w') /\
       nodes w' !! r = Some n' /\
       lookup_field "opacity" (style n') = VStr "0" /\
       toastItems w' = delete id (toastItems w) /\
       toastItems w' !! id = None /\
       timers w' = (timers w
                    ++ [mkTimer (next_timer w) (TaskDetach (VNode r)) 300])%list /\
       removeToast id w' = (Return tt, w')).
  { intros id r n w Hid Hr. eexists _, _.
    split; [by apply removeToast_active|]. simpl.
    split; [apply list_lookup_insert_eq; by eapply lookup_lt_Some|].
    split; [apply lookup_assign_same|]. split; [done|].
    split; [apply lookup_delete_eq|]. split; [done|].
    apply removeToast_unknown. simpl. apply lookup_delete_eq. }
  split; [apply removeToast_unknown|]. split; [exact Hactive|].
  intros message forLong w id w1 Hrun.
  pose proof (toast_registers message forLong w) as H.
  unfold post in H. rewrite Hrun in H. simpl in H.
  destruct H as (r & n & Hid & Hr).
  destruct (Hactive id r n w1 Hid Hr) as (n' & w2 & H1 & H2 & H3 & _ & H4 & _ & H5).
  exists r, n', w2. auto 10.
Qed.

End ToastProperties.

(** *** The builder and the notifier on the sample page *)

Lemma createElement_never_throws_witness :
  exists e w1,
    createElement_try Sample.valid_name Sample.valid_name
      Sample.setter_refuses Sample.call
      (createElement Sample.valid_name Sample.valid_name Sample.setter_refuses
         Sample.call Sample.svg_root_name)
      (VObj [("tag", VStr "div"); ("callback", VFun 1%nat)]) VUndefined
      Sample.page = (Throw e, w1) /\
    createElement Sample.valid_name Sample.valid_name Sample.setter_refuses
      Sample.call Sample.svg_root_name
      (VObj [("tag", VStr "div"); ("callback", VFun 1%nat)]) VUndefined
      Sample.page
    = (Return VNull, with_console (console w1 ++ [LogError e])%list w1).
Proof.
  eexists _, _. split; [vm_compute; reflexivity|].
  apply (proj2 (createElement_never_throws Sample.valid_name Sample.valid_name
                  Sample.setter_refuses Sample.call Sample.svg_root_name
                  (VObj [("tag", VStr "div"); ("callback", VFun 1%nat)])
                  VUndefined Sample.page));
    vm_compute; reflexivity.
Defined.

Lemma missing_parent_without_tag_returns_null_witness :
  createElement Sample.valid_name Sample.valid_name Sample.setter_refuses
    Sample.call Sample.svg_root_name (VObj [("text", VStr "hi")]) VUndefined
    Sample.page
  = (Return VNull,
     with_console
       (console Sample.page ++
        [LogError
           (TypeError
              "Cannot read properties of undefined (reading 'tagName')")])%list
       Sample.page).
Proof.
  apply (missing_parent_without_tag_returns_null Sample.valid_name
           Sample.valid_name Sample.setter_refuses Sample.call
           Sample.svg_root_name (VObj [("text", VStr "hi")]) Sample.page);
    reflexivity.
Defined.

(** The sibling path: under a parent that is no list and no selection, the
    same description is built as a SPAN, with a warning. *)
Example unknown_parent_defaults_to_span :
  let run :=
    createElement Sample.valid_name Sample.valid_name Sample.setter_refuses
      Sample.call Sample.svg_root_name (VObj [("text", VStr "hi")]) (VNode 0%nat)
      Sample.page in
  run.1 = Return (VNode 1%nat) /\
  tagName <$> nodes run.2 !! 1%nat = Some "SPAN" /\
  console run.2
    = [LogWarn "No element tag specified in:" (VObj [("text", VStr "hi")])].
Proof. vm_compute. done. Qed.



(** Of the fields of the box, [id] and [class] are passed to
    [setAttribute]: [title] is [null], the other keys are reserved. *)
Example box_applied_fields :
  applied_fields Sample.box = [("id", VStr "main"); ("class", VStr "box")].
Proof. reflexivity. Qed.

(** The box gets its [id] and its [class], and nothing else. *)
Example box_attributes :
  attributes <$>
    nodes (createElement Sample.valid_name Sample.valid_name
             Sample.setter_refuses Sample.call Sample.svg_root_name
             Sample.box VUndefined Sample.page).2 !! 1%nat
  = Some [("id", VStr "main"); ("class", VStr "box")].
Proof. vm_compute. reflexivity. Qed.


(** The menu has two entries, in the order given, both list items. *)
Example menu_children :
  let w' := (createElement Sample.valid_name Sample.valid_name
               Sample.setter_refuses Sample.call Sample.svg_root_name
               Sample.menu VUndefined Sample.page).2 in
  childNodes <$> nodes w' !! 1%nat = Some [2%nat; 3%nat] /\
  tagName <$> nodes w' !! 2%nat = Some "LI" /\
  lookup_field "innerText" <$> (properties <$> nodes w' !! 2%nat)
    = Some (VStr "a") /\
  lookup_field "innerText" <$> (properties <$> nodes w' !! 3%nat)
    = Some (VStr "b").
Proof. vm_compute. done. Qed.

(** Under a selection list, a description without a tag becomes an
    option. *)
Example choice_is_an_option :
  let w' := (createElement Sample.valid_name Sample.valid_name
               Sample.setter_refuses Sample.call Sample.svg_root_name
               Sample.choices VUndefined Sample.page).2 in
  childNodes <$> nodes w' !! 1%nat = Some [2%nat] /\
  tagName <$> nodes w' !! 2%nat = Some "OPTION" /\
  console w' = [].
Proof. vm_compute. done. Qed.


Lemma removeToast_deletes_entry_once_witness :
  exists w1 r n' w2,
    toast Sample.valid_name Sample.valid_name Sample.setter_refuses
      Sample.call Sample.svg_root_name Sample.getElementById
      (VStr "Saved") VUndefined Sample.page = (Return 2, w1) /\
    toastItems w1 !! 2 = Some (VNode r) /\
    removeToast 2 w1 = (Return tt, w2) /\
    toastItems w2 !! 2 = None /\
    nodes w2 !! r = Some n' /\
    lookup_field "opacity" (style n') = VStr "0" /\
    removeToast 2 w2 = (Return tt, w2).
Proof.
  assert (Hrun :
    toast Sample.valid_name Sample.valid_name Sample.setter_refuses
      Sample.call Sample.svg_root_name Sample.getElementById
      (VStr "Saved") VUndefined Sample.page
    = (Return 2,
       (toast Sample.valid_name Sample.valid_name Sample.setter_refuses
          Sample.call Sample.svg_root_name Sample.getElementById
          (VStr "Saved") VUndefined Sample.page).2))
    by (vm_compute; reflexivity).
  destruct (proj2 (proj2 (removeToast_deletes_entry_once Sample.valid_name
                            Sample.valid_name Sample.setter_refuses Sample.call
                            Sample.svg_root_name Sample.getElementById))
              _ _ _ _ _ Hrun) as (r & n' & w2 & H).
  eexists _, r, n', w2. split; [exact Hrun|exact H].
Defined.

(** ** The request wrapper *)

Section FetchProperties.

Variable JSON_stringify : value -> value.
Variable network : value -> value -> Promise Response.

Abbreviation _fetch := (_fetch JSON_stringify network).
Abbreviation request_init := (request_init JSON_stringify).

Lemma request_init_closed method payload formData w :
  request_init method payload formData w =
    (Return (VObj (("headers", VObj (init_headers payload))
                   :: init_method method
                   ++ init_body JSON_stringify payload formData)), w).
Proof.
  unfold request_init, init_headers, init_method, init_body.
  destruct (truthy method), (truthy payload), (truthy formData); reflexivity.
Qed.

Lemma get_init_headers method payload formData :
  get (VObj (("headers", VObj (init_headers payload))
             :: init_method method
             ++ init_body JSON_stringify payload formData)) "headers"
  = VObj (init_headers payload).
Proof. reflexivity. Qed.

Lemma get_init_body method payload formData :
  get (VObj (("headers", VObj (init_headers payload))
             :: init_method method
             ++ init_body JSON_stringify payload formData)) "body"
  = lookup_field "body" (init_body JSON_stringify payload formData).
Proof.
  unfold init_method. destruct (truthy method); reflexivity.
Qed.

Lemma post_assign o k v (Q : result value -> world -> Prop) w :
  (forall o' w', requests w' = requests w -> Q (Return o') w') ->
  (forall e, Q (Throw e) w) ->
  post (assign o k v) Q w.
Proof.
  intros HR HT. destruct o; try (apply HR; reflexivity); try apply HT.
Qed.

Lemma post_asFetchResponse problem (Q : result Response -> world -> Prop) w :
  (forall r, synthesized r w -> Q (Return r) w) ->
  (forall e, Q (Throw e) w) ->
  post (asFetchResponse problem) Q w.
Proof.
  intros HR HT. unfold asFetchResponse. apply post_bind.
  unfold post at 1. pose proof (read_world problem "status" w) as Hw.
  destruct (read problem "status" w) as [[s|e] w1] eqn:E; simpl in *; subst w1.
  - apply post_ret, HR. split; [done|]. by exists problem.
  - apply HT.
Qed.

(** A response that is not [ok] is always turned into a synthesized one,
    and nothing is sent meanwhile. *)
Lemma post_getProblemDetail response w :
  post (getProblemDetail response)
    (fun res w' =>
       requests w' = requests w /\
       exists r, res = Return (Resolved r) /\ synthesized r w') w.
Proof.
  unfold getProblemDetail. apply post_bind.
  assert (Hcatch : forall p w1, requests w1 = requests w ->
    (forall r, p = Resolved r -> synthesized r w1) ->
    post (catch_ p (fun error =>
            console_error error ;;
            let! problem :=
              assign (VObj [("status", status response)]) "detail"
                (VStr ("An error occurred: " ++ to_string (status response))) in
            let! r := asFetchResponse problem in
            ret (Resolved r)))
      (fun res w' =>
         requests w' = requests w /\
         exists r, res = Return (Resolved r) /\ synthesized r w') w1).
  { intros [r|e] w1 Hreq Hsyn.
    - apply post_ret. split; [done|]. exists r. auto.
    - unfold post. simpl. split; [done|]. eexists. split; [reflexivity|].
      split; [done|]. eexists. split; reflexivity. }
  unfold then_. destruct (json response).1 as [problem|e].
  2:{ apply post_ret. apply Hcatch; [done|]. discriminate. }
  apply post_try_catch.
  (* Every step of the handler keeps the request log; the last one
     synthesizes the response. *)
  set (Q := fun (r : result (Promise Response)) (w' : world) =>
              match r with
              | Return a =>
                  post _ (fun res w'' =>
                    requests w'' = requests w /\
                    exists r, res = Return (Resolved r) /\ synthesized r w'') w'
              | Throw e0 => post _ _ w'
              end).
  assert (Hthrow : forall e w1, requests w1 = requests w -> Q (Throw e) w1).
  { intros e w1 Hreq. apply post_ret. apply Hcatch; [done|]. discriminate. }
  assert (Hassign : forall (c : bool) o k v (K : value -> M (Promise Response)) w1,
    requests w1 = requests w ->
    (forall o' w2, requests w2 = requests w -> post (K o') Q w2) ->
    post (let! problem := (if c then assign o k v else ret o) in K problem) Q w1).
  { intros c o k v K w1 Hreq HK. apply post_bind. destruct c.
    - apply post_assign; [|by intros; apply Hthrow].
      intros o' w2 Hw2. apply HK. congruence.
    - apply post_ret. by apply HK. }
  apply post_bind, post_read; [intros s|by intros; apply Hthrow].
  apply Hassign; [done|]. intros p1 w1 Hw1.
  apply post_bind, post_read; [intros d|by intros; apply Hthrow].
  apply post_bind. destruct (negb (truthy d)).
  - apply post_bind, post_read; [intros m|by intros; apply Hthrow].
    apply post_assign; [|by intros; apply Hthrow]. intros p2 w2 Hw2.
    apply post_bind, post_read; [intros d'|by intros; apply Hthrow; congruence].
    apply Hassign; [congruence|]. intros p3 w3 Hw3.
    apply post_bind, post_asFetchResponse; [|by intros; apply Hthrow].
    intros r Hr. apply post_ret. apply Hcatch; [done|]. by intros ? [= <-].
  - apply post_ret.
    apply post_bind, post_read; [intros d'|by intros; apply Hthrow].
    apply Hassign; [done|]. intros p3 w3 Hw3.
    apply post_bind, post_asFetchResponse; [|by intros; apply Hthrow].
    intros r Hr. apply post_ret. apply Hcatch; [done|]. by intros ? [= <-].
Qed.

(** [_fetch] step by step: the options go to the network, and the answer
    is passed on when [ok], turned into a problem otherwise. *)
Lemma _fetch_unfold endpoint method payload formData w :
  let init := VObj (("headers", VObj (init_headers payload))
                    :: init_method method
                    ++ init_body JSON_stringify payload formData) in
  let w1 := with_requests (requests w ++ [(endpoint, init)])%list w in
  _fetch endpoint method payload formData w =
    match network endpoint init with
    | Resolved response =>
        if ok response then (Return (Resolved response), w1)
        else getProblemDetail response w1
    | Rejected error =>
        (Return (Resolved
           (mkResponse false (VNum 0)
              (ProblemBody
                 (VObj [("status", VNum 0);
                        ("detail",
                         VStr "Please check your internet connection")])))),
         with_console (console w ++ [LogError error])%list w1)
    end.
Proof.
  intros init w1. unfold _fetch, bind at 1. rewrite request_init_closed.
  fold init. unfold fetch, bind, update, ret. fold w1.
  destruct (network endpoint init) as [response|error]; [|reflexivity].
  unfold then_, try_catch. destruct (ok response); [reflexivity|].
  pose proof (post_getProblemDetail response w1) as H. unfold post in H.
  destruct (getProblemDetail response w1) as [res w2].
  destruct H as (_ & r & H & _). simpl in H. subst res. reflexivity.
Qed.

Lemma _fetch_requests endpoint method payload formData w :
  requests (_fetch endpoint method payload formData w).2 =
    (requests w ++
     [(endpoint,
       VObj (("headers", VObj (init_headers payload))
             :: init_method method
             ++ init_body JSON_stringify payload formData))])%list.
Proof.
  rewrite _fetch_unfold.
  destruct (network _ _) as [response|error]; [|reflexivity].
  destruct (ok response); [reflexivity|].
  match goal with |- context [getProblemDetail response ?w1] =>
    pose proof (post_getProblemDetail response w1) as H end.
  unfold post in H. destruct H as [-> _]. reflexivity.
Qed.

(** C5. A request with a JSON payload and no form data goes out with the
    serialized payload as body and the header [Content-Type:
    application/json]; a request with form data and no JSON payload goes
    out with the form data as body and no header at all.  A payload or
    form data is given when the value is truthy, which every object is. *)
Theorem request_body_and_content_type endpoint method payload formData w :
  (truthy payload = true -> truthy formData = false ->
   exists init,
     requests (_fetch endpoint method payload formData w).2
       = (requests w ++ [(endpoint, init)])%list /\
     get init "body" = JSON_stringify payload /\
     get (get init "headers") "Content-Type" = VStr "application/json") /\
  (truthy payload = false -> truthy formData = true ->
   exists init,
     requests (_fetch endpoint method payload formData w).2
       = (requests w ++ [(endpoint, init)])%list /\
     get init "body" = formData /\
     get init "headers" = VObj []).
Proof.
  split; intros Hp Hf; eexists; (split; [apply _fetch_requests|]);
    rewrite get_init_headers, get_init_body;
    unfold init_body, init_headers; rewrite Hp, Hf; done.
Qed.

(** C10. With a JSON payload and form data at once, the body that goes out
    is the form data, and the header [Content-Type: application/json] of
    the payload branch stays. *)
Theorem form_data_overwrites_body_keeps_json_header
    endpoint method payload formData w :
  truthy payload = true -> truthy formData = true ->
  exists init,
    requests (_fetch endpoint method payload formData w).2
      = (requests w ++ [(endpoint, init)])%list /\
    get init "body" = formData /\
    get (get init "headers") "Content-Type" = VStr "application/json".
Proof.
  intros Hp Hf. eexists. split; [apply _fetch_requests|].
  rewrite get_init_headers, get_init_body.
  unfold init_body, init_headers. rewrite Hp, Hf. done.
Qed.

(** C3. When the network rejects the request, [_fetch] neither throws nor
    rejects: it logs the error and resolves to a response with [ok] false
    and status 0 whose [json()] resolves to the problem with status 0 and
    the detail "Please check your internet connection". *)
Theorem transport_failure_becomes_problem
    endpoint method payload formData w error :
  (forall init, network endpoint init = Rejected error) ->
  exists r w',
    _fetch endpoint method payload formData w = (Return (Resolved r), w') /\
    ok r = false /\
    status r = VNum 0 /\
    json r = (Resolved
                (VObj [("status", VNum 0);
                       ("detail", VStr "Please check your internet connection")]),
              r) /\
    console w' = (console w ++ [LogError error])%list.
Proof.
  intros Hnet. rewrite _fetch_unfold, Hnet. eexists _, _.
  split; [reflexivity|]. done.
Qed.

Lemma json_times_problem n r problem :
  response_body r = ProblemBody problem ->
  json_times n r = (replicate n (Resolved problem), r).
Proof.
  intros Hr. induction n as [|n IH]; [done|].
  simpl. unfold json at 1. rewrite Hr, IH. done.
Qed.

(** C9. On a response that [_fetch] synthesized, [json()] can be called any
    number of times: every call resolves to the same problem and leaves
    the response as it was, and the response's status is the status the
    problem shows.  The network itself only answers with responses that
    carry a network body. *)
Theorem synthesized_json_is_repeatable
    endpoint method payload formData w r w' problem :
  (forall e i a, network e i = Resolved a ->
     exists parsed used, response_body a = NetworkBody parsed used) ->
  _fetch endpoint method payload formData w = (Return (Resolved r), w') ->
  response_body r = ProblemBody problem ->
  (forall n, json_times n r = (replicate n (Resolved problem), r)) /\
  read problem "status" w' = (Return (status r), w').
Proof.
  intros Hnet Hrun Hbody. split.
  { intros n. by apply json_times_problem. }
  assert (Hsyn : synthesized r w').
  { rewrite _fetch_unfold in Hrun.
    destruct (network _ _) as [response|error] eqn:En.
    - destruct (ok response).
      + injection Hrun as <- _. apply Hnet in En as (? & ? & En). congruence.
      + match type of Hrun with getProblemDetail _ ?w1 = _ =>
          pose proof (post_getProblemDetail response w1) as H end.
        unfold post in H. rewrite Hrun in H. simpl in H.
        destruct H as (_ & r' & [= <-] & H). done.
    - injection Hrun as <- <-. split; [done|]. eexists. split; reflexivity. }
  destruct Hsyn as (_ & p & Hp & Hread). congruence.
Qed.

(** The problem made from an error body that parsed to an object. *)
Lemma getProblemDetail_object o st fields w :
  let f1 := if truthy (lookup_field "status" fields) then fields
            else assign_field "status" st fields in
  let f2 := if truthy (lookup_field "detail" f1) then f1
            else assign_field "detail" (lookup_field "message" f1) f1 in
  let f3 := if truthy (lookup_field "detail" f2) then f2
            else assign_field "detail" (an_error_occurred st) f2 in
  getProblemDetail
    (mkResponse o st (NetworkBody (Resolved (VObj fields)) false)) w
  = (Return (Resolved (mkResponse false (lookup_field "status" f3)
                         (ProblemBody (VObj f3)))), w).
Proof.
  intros f1 f2 f3. subst f1 f2 f3.
  unfold getProblemDetail, then_, try_catch, bind, an_error_occurred. simpl.
  repeat match goal with
         | |- context [truthy ?x] =>
             let E := fresh "E" in
             destruct (truthy x) eqn:E; simpl; rewrite ?E
         end;
    first [reflexivity | congruence].
Qed.

Lemma getProblemDetail_fallback o st parsed w :
  (parsed = Resolved VNull \/ exists e, parsed = Rejected e) ->
  exists e,
    getProblemDetail (mkResponse o st (NetworkBody parsed false)) w
    = (Return (Resolved
         (mkResponse false st
            (ProblemBody
               (VObj [("status", st); ("detail", an_error_occurred st)])))),
       with_console (console w ++ [LogError e])%list w).
Proof.
  intros [->|[e ->]]; eexists; reflexivity.
Qed.

(** C2, as the code has it.  For a response that is not [ok], with HTTP
    status [n]: [_fetch] resolves to a response with [ok] false whose
    [json()] resolves to a problem.  When the body parsed to an object,
    the problem's status is the body's [status] if that is truthy and [n]
    otherwise, and its detail is the body's [detail] if truthy, else the
    body's [message] if truthy, else "An error occurred: n".  When the
    body did not parse, or parsed to [null], the problem has status [n]
    and detail "An error occurred: n".  In both cases the response's
    status is the problem's. *)
Theorem error_response_becomes_problem
    endpoint method payload formData w response n parsed :
  (forall init, network endpoint init = Resolved response) ->
  ok response = false ->
  status response = VNum n ->
  response_body response = NetworkBody parsed false ->
  exists r problem w',
    _fetch endpoint method payload formData w = (Return (Resolved r), w') /\
    ok r = false /\
    json r = (Resolved problem, r) /\
    (forall fields, parsed = Resolved (VObj fields) ->
       status r = get problem "status" /\
       get problem "status" =
         (if truthy (lookup_field "status" fields)
          then lookup_field "status" fields else VNum n) /\
       get problem "detail" =
         (if truthy (lookup_field "detail" fields)
          then lookup_field "detail" fields
          else if truthy (lookup_field "message" fields)
               then lookup_field "message" fields
               else VStr ("An error occurred: " ++ number_to_string n))) /\
    (parsed = Resolved VNull \/ (exists e, parsed = Rejected e) ->
       status r = VNum n /\
       problem = VObj [("status", VNum n);
                       ("detail",
                        VStr ("An error occurred: " ++ number_to_string n))]).
Proof.
  intros Hnet Hok Hst Hbody. rewrite _fetch_unfold, Hnet, Hok.
  destruct response as [o st b]. simpl in *. subst o st b.
  match goal with |- context [getProblemDetail ?resp ?w1] =>
    pose proof (post_getProblemDetail resp w1) as H; unfold post in H;
    destruct (getProblemDetail resp w1) as [res w2] eqn:Erun end.
  destruct H as (_ & r & Hres & Hok' & problem & Hb & _). simpl in Hres.
  subst res. exists r, problem, w2. split; [done|]. split; [done|].
  split; [by unfold json; rewrite Hb|]. split.
  - intros fields ->. rewrite getProblemDetail_object in Erun.
    injection Erun as <- _. injection Hb as <-. simpl.
    assert (Hsd : "status" <> "detail") by done.
    assert (Hds : "detail" <> "status") by done.
    assert (Hsm : "status" <> "message") by done.
    unfold an_error_occurred. simpl to_string.
    repeat match goal with
           | |- context [truthy ?x] =>
               let E := fresh "E" in
               destruct (truthy x) eqn:E;
               rewrite ?lookup_assign_same, ?(lookup_assign_other _ _ _ _ Hsd),
                 ?(lookup_assign_other _ _ _ _ Hds),
                 ?(lookup_assign_other _ _ _ _ Hsm) in *
           end;
      repeat split; congruence.
  - intros Hp. destruct (getProblemDetail_fallback false (VNum n) parsed
                           (with_requests
                              (requests w ++
                               [(endpoint,
                                 VObj (("headers", VObj (init_headers payload))
                                       :: init_method method
                                       ++ init_body JSON_stringify payload
                                            formData))])%list w) Hp)
      as [e He].
    rewrite He in Erun. injection Erun as <- _. injection Hb as <-. done.
Qed.

End FetchProperties.

(** *** The request wrapper on the sample servers *)

Lemma request_body_and_content_type_witness :
  exists init,
    requests (_fetch Sample.JSON_stringify Sample.not_found Sample.endpoint
                (VStr "POST") (VObj [("a", VNum 1)]) VUndefined Sample.page).2
      = ([] ++ [(Sample.endpoint, init)])%list /\
    get init "body" = Sample.JSON_stringify (VObj [("a", VNum 1)]) /\
    get (get init "headers") "Content-Type" = VStr "application/json".
Proof.
  apply (request_body_and_content_type Sample.JSON_stringify Sample.not_found
           Sample.endpoint (VStr "POST") (VObj [("a", VNum 1)]) VUndefined
           Sample.page); reflexivity.
Defined.

(** The payload [{a:1}] goes out as the text [{"a":1}]. *)
Example post_json_payload :
  requests (_fetch Sample.JSON_stringify Sample.not_found Sample.endpoint
              (VStr "POST") (VObj [("a", VNum 1)]) VUndefined Sample.page).2
  = [(Sample.endpoint,
      VObj [("headers", VObj [("Content-Type", VStr "application/json")]);
            ("method", VStr "POST");
            ("body", VStr ("{" ++ Sample.quote ++ "a" ++ Sample.quote
                           ++ ":1}"))])].
Proof. vm_compute. reflexivity. Qed.

Lemma form_data_overwrites_body_keeps_json_header_witness :
  exists init,
    requests (_fetch Sample.JSON_stringify Sample.not_found Sample.endpoint
                (VStr "POST") (VObj [("a", VNum 1)])
                (VObj [("file", VStr "report.pdf")]) Sample.page).2
      = ([] ++ [(Sample.endpoint, init)])%list /\
    get init "body" = VObj [("file", VStr "report.pdf")] /\
    get (get init "headers") "Content-Type" = VStr "application/json".
Proof.
  apply (form_data_overwrites_body_keeps_json_header Sample.JSON_stringify
           Sample.not_found Sample.endpoint (VStr "POST")
           (VObj [("a", VNum 1)]) (VObj [("file", VStr "report.pdf")])
           Sample.page); reflexivity.
Defined.

Lemma transport_failure_becomes_problem_witness :
  exists r w',
    _fetch Sample.JSON_stringify Sample.unreachable Sample.endpoint
      (VStr "GET") VUndefined VUndefined Sample.page
      = (Return (Resolved r), w') /\
    ok r = false /\
    status r = VNum 0 /\
    json r = (Resolved
                (VObj [("status", VNum 0);
                       ("detail", VStr "Please check your internet connection")]),
              r) /\
    console w' = (console Sample.page
                  ++ [LogError (TypeError "Failed to fetch")])%list.
Proof.
  apply (transport_failure_becomes_problem Sample.JSON_stringify
           Sample.unreachable Sample.endpoint (VStr "GET") VUndefined
           VUndefined Sample.page (TypeError "Failed to fetch")).
  reflexivity.
Defined.

Lemma synthesized_json_is_repeatable_witness :
  let problem := VObj [("message", VStr "not found"); ("status", VNum 404);
                       ("detail", VStr "not found")] in
  let r := mkResponse false (VNum 404) (ProblemBody problem) in
  let w' := with_requests
              [(Sample.endpoint,
                VObj [("headers", VObj []); ("method", VStr "GET")])]
              Sample.page in
  (forall n, json_times n r = (replicate n (Resolved problem), r)) /\
  read problem "status" w' = (Return (status r), w').
Proof.
  apply (synthesized_json_is_repeatable Sample.JSON_stringify Sample.not_found
           Sample.endpoint (VStr "GET") VUndefined VUndefined Sample.page).
  - intros e i a [= <-]. eexists _, _. reflexivity.
  - vm_compute. reflexivity.
  - reflexivity.
Defined.

Lemma error_response_becomes_problem_witness :
  exists r problem w',
    _fetch Sample.JSON_stringify Sample.not_found Sample.endpoint
      (VStr "GET") VUndefined VUndefined Sample.page
      = (Return (Resolved r), w') /\
    ok r = false /\
    json r = (Resolved problem, r) /\
    (forall fields, Resolved (VObj [("message", VStr "not found")])
                    = Resolved (VObj fields) ->
       status r = get problem "status" /\
       get problem "status" =
         (if truthy (lookup_field "status" fields)
          then lookup_field "status" fields else VNum 404) /\
       get problem "detail" =
         (if truthy (lookup_field "detail" fields)
          then lookup_field "detail" fields
          else if truthy (lookup_field "message" fields)
               then lookup_field "message" fields
               else VStr ("An error occurred: " ++ number_to_string 404))) /\
    (Resolved (VObj [("message", VStr "not found")]) = Resolved VNull \/
     (exists e, Resolved (VObj [("message", VStr "not found")]) = Rejected e) ->
       status r = VNum 404 /\
       problem = VObj [("status", VNum 404);
                       ("detail",
                        VStr ("An error occurred: " ++ number_to_string 404))]).
Proof.
  apply (error_response_becomes_problem Sample.JSON_stringify Sample.not_found
           Sample.endpoint (VStr "GET") VUndefined VUndefined Sample.page
           (mkResponse false (VNum 404)
              (NetworkBody (Resolved (VObj [("message", VStr "not found")]))
                 false)));
    reflexivity.
Defined.

(** The body of a response from the network, by contrast, is read once:
    the second [json()] rejects. *)
Example network_body_is_read_once parsed :
  (json_times 2 (mkResponse true (VNum 200) (NetworkBody parsed false))).1
  = [parsed; Rejected (TypeError "body stream already read")].
Proof. reflexivity. Qed.

(** HTTP 404 with the body [{"message":"not found"}]: status 404 and
    detail "not found". *)
Example not_found_problem :
  (_fetch Sample.JSON_stringify Sample.not_found Sample.endpoint
     (VStr "GET") VUndefined VUndefined Sample.page).1
  = Return (Resolved
      (mkResponse false (VNum 404)
         (ProblemBody
            (VObj [("message", VStr "not found"); ("status", VNum 404);
                   ("detail", VStr "not found")])))).
Proof. vm_compute. reflexivity. Qed.

(** C2 as stated fails twice.  The body [{"status":0,"detail":"upstream
    unreachable"}] of a 502 answer has a [status] field, yet the problem's
    status is 502, not the field's 0.  And the body ["Not Found"] of a 404
    answer parses as JSON, yet the problem is that string: it has neither
    the status 404 nor a detail. *)
Lemma problem_is_not_always_as_claimed :
  (exists r problem w',
     _fetch Sample.JSON_stringify Sample.bad_gateway Sample.endpoint
       (VStr "GET") VUndefined VUndefined Sample.page
       = (Return (Resolved r), w') /\
     json r = (Resolved problem, r) /\
     has_field "status" Sample.bad_gateway_body = true /\
     get problem "status" = VNum 502 /\
     get problem "status"
       <> status_when_absent Sample.bad_gateway_body (VNum 502)) /\
  (exists r problem w',
     _fetch Sample.JSON_stringify Sample.not_found_text Sample.endpoint
       (VStr "GET") VUndefined VUndefined Sample.page
       = (Return (Resolved r), w') /\
     json r = (Resolved problem, r) /\
     problem = VStr "Not Found" /\
     get problem "status" <> VNum 404 /\
     get problem "detail" <> an_error_occurred (VNum 404) /\
     status r <> VNum 404).
Proof.
  split.
  - eexists _, _, _. split; [vm_compute; reflexivity|].
    split; [reflexivity|]. split; [reflexivity|]. split; [reflexivity|].
    discriminate.
  - eexists _, _, _. split; [vm_compute; reflexivity|].
    split; [reflexivity|]. split; [reflexivity|]. by repeat split.
Qed.

(** HTTP 500 with a body that is no JSON: status 500 and detail "An error
    occurred: 500". *)
Example server_error_problem :
  (_fetch Sample.JSON_stringify Sample.server_error Sample.endpoint
     (VStr "GET") VUndefined VUndefined Sample.page).1
  = Return (Resolved
      (mkResponse false (VNum 500)
         (ProblemBody
            (VObj [("status", VNum 500);
                   ("detail", VStr "An error occurred: 500")])))).
Proof. vm_compute. reflexivity. Qed.

(** A body that parses to a JSON string is passed on as it is: the
    response made from it has no status and its problem no detail. *)
Example json_text_body_is_passed_on :
  (_fetch Sample.JSON_stringify Sample.not_found_text Sample.endpoint
     (VStr "GET") VUndefined VUndefined Sample.page).1
  = Return (Resolved
      (mkResponse false VUndefined (ProblemBody (VStr "Not Found")))).
Proof. vm_compute. reflexivity. Qed.

(** * More properties *)

(** ** The request wrapper, whatever the network does *)

Section FetchAlways.

Variable JSON_stringify : value -> value.
Variable network : value -> value -> Promise Response.

Abbreviation _fetch' := (_fetch JSON_stringify network).

(** X1.  Called without a JSON payload, so that nothing is serialized before
    the promise chain starts, [_fetch] never throws and never rejects.  The
    response it resolves to is the answer [fetch] gave when that answer is
    [ok], with nothing logged; otherwise it has [ok] false and a [json()]
    that resolves. *)
Theorem _fetch_always_resolves endpoint method payload formData w :
  truthy payload = false ->
  exists r w',
    _fetch' endpoint method payload formData w = (Return (Resolved r), w') /\
    (if ok r
     then (exists init, network endpoint init = Resolved r) /\
          console w' = console w
     else exists problem, json r = (Resolved problem, r)).
Proof.
  intros _. rewrite _fetch_unfold.
  destruct (network endpoint _) as [response|error] eqn:En.
  - destruct (ok response) eqn:Eok.
    + eexists _, _. split; [reflexivity|]. rewrite Eok. split; [|done]. eauto.
    + match goal with |- context [getProblemDetail response ?w1] =>
        pose proof (post_getProblemDetail response w1) as H; unfold post in H;
        destruct (getProblemDetail response w1) as [res w2] end.
      destruct H as (_ & r & Hres & Hok & problem & Hb & _). simpl in Hres.
      subst res. exists r, w2. split; [done|]. rewrite Hok.
      exists problem. unfold json. by rewrite Hb.
  - eexists _, _. split; [reflexivity|]. simpl. eauto.
Qed.

(** X2.  An answer that is [ok] is handed over as it came: its body is not
    read, nothing is logged, and the only trace of the call is the request
    in the log. *)
Theorem ok_response_is_passed_on endpoint method payload formData w response :
  (forall init, network endpoint init = Resolved response) ->
  ok response = true ->
  exists init,
    _fetch' endpoint method payload formData w =
      (Return (Resolved response),
       with_requests (requests w ++ [(endpoint, init)])%list w).
Proof.
  intros Hnet Hok. rewrite _fetch_unfold, Hnet, Hok. eauto.
Qed.

(** X3.  Called without a JSON payload, [_fetch] calls [fetch] exactly once,
    with the endpoint given.  The options of that call name the method
    when one is given and have no [method] field otherwise; with no form
    data either they have no body and their headers are empty. *)
Theorem one_request_per_call endpoint method payload formData w :
  truthy payload = false ->
  exists init,
    requests (_fetch' endpoint method payload formData w).2
      = (requests w ++ [(endpoint, init)])%list /\
    (truthy method = true -> get init "method" = method) /\
    (truthy method = false -> get init "method" = VUndefined) /\
    (truthy formData = false ->
     init = VObj (("headers", VObj [])
                  :: if truthy method then [("method", method)] else [])).
Proof.
  intros Hp. rewrite _fetch_requests. eexists. split; [reflexivity|].
  unfold init_headers, init_method, init_body. rewrite Hp.
  split; [|split].
  - intros Hm. rewrite Hm. simpl. reflexivity.
  - intros Hm. rewrite Hm. simpl. by destruct (truthy formData).
  - intros Hf. rewrite Hf. by rewrite app_nil_r.
Qed.

(** X4.  The problem made from an error body that is a JSON object keeps every
    field of the body but [status] and [detail], and is the body itself
    when the body's [status] and [detail] are both truthy. *)
Theorem problem_keeps_the_body
    endpoint method payload formData w response fields :
  (forall init, network endpoint init = Resolved response) ->
  ok response = false ->
  response_body response = NetworkBody (Resolved (VObj fields)) false ->
  exists r problem w',
    _fetch' endpoint method payload formData w = (Return (Resolved r), w') /\
    json r = (Resolved (VObj problem), r) /\
    console w' = console w /\
    (forall k, k <> "status" -> k <> "detail" ->
       lookup_field k problem = lookup_field k fields) /\
    (truthy (lookup_field "status" fields) = true ->
     truthy (lookup_field "detail" fields) = true ->
     problem = fields).
Proof.
  intros Hnet Hok Hbody. rewrite _fetch_unfold, Hnet, Hok.
  destruct response as [o st b]. simpl in *. subst o b.
  rewrite getProblemDetail_object. eexists _, _, _.
  split; [reflexivity|]. split; [reflexivity|]. split; [reflexivity|]. split.
  - intros k Hs Hd.
    assert (Hs' : "status" <> k) by congruence.
    assert (Hd' : "detail" <> k) by congruence.
    repeat match goal with
           | |- context [if truthy ?x then _ else _] => destruct (truthy x)
           end;
      repeat first [rewrite (lookup_assign_other "status") by exact Hs'
                   |rewrite (lookup_assign_other "detail") by exact Hd'];
      reflexivity.
  - intros Hs Hd. by rewrite Hs, Hd, Hd.
Qed.

End FetchAlways.

(** ** What lies beside the nodes *)

Section Preserves.

Variable R : world -> world -> Prop.
Hypothesis R_refl : forall w, R w w.
Hypothesis R_trans : forall w1 w2 w3, R w1 w2 -> R w2 w3 -> R w1 w3.

Lemma preserves_ret {A} (a : A) : preserves R (ret a).
Proof. intros w. apply R_refl. Qed.

Lemma preserves_throw {A} e : preserves R (@throw A e).
Proof. intros w. apply R_refl. Qed.

Lemma preserves_bind {A B} (m : M A) (k : A -> M B) :
  preserves R m -> (forall a, preserves R (k a)) -> preserves R (bind m k).
Proof.
  intros Hm Hk w. unfold bind. specialize (Hm w).
  destruct (m w) as [[a|e] w1]; [|done].
  eapply R_trans; [exact Hm|apply Hk].
Qed.

Lemma preserves_try_catch {A} (m : M A) handler :
  preserves R m -> (forall e, preserves R (handler e)) ->
  preserves R (try_catch m handler).
Proof.
  intros Hm Hh w. unfold try_catch. specialize (Hm w).
  destruct (m w) as [[a|e] w1]; [done|].
  eapply R_trans; [exact Hm|apply Hh].
Qed.

Lemma preserves_when b m : preserves R m -> preserves R (when b m).
Proof. destruct b; [done|]. intros _. apply preserves_ret. Qed.

Lemma preserves_forEach {A} (f : A -> M unit) items :
  (forall x, x ∈ items -> preserves R (f x)) -> preserves R (forEach f items).
Proof.
  induction items as [|x rest IH]; intros Hf; [apply preserves_ret|].
  apply preserves_bind; [apply Hf; left|].
  intros _. apply IH. intros y Hy. apply Hf. by right.
Qed.

Lemma preserves_read v k : preserves R (read v k).
Proof. intros w. rewrite read_world. apply R_refl. Qed.

Lemma preserves_content what info f :
  (forall item, item ∈ content_items info -> preserves R (f item)) ->
  preserves R (array_forEach what (get info "content") f).
Proof.
  intros Hf. unfold content_items in Hf. unfold array_forEach.
  destruct (get info "content"); try apply preserves_throw.
  by apply preserves_forEach.
Qed.

End Preserves.

Lemma only_nodes_and_log_refl w : only_nodes_and_log w w.
Proof. repeat split. exists []. by rewrite app_nil_r. Qed.

Lemma only_nodes_and_log_trans w1 w2 w3 :
  only_nodes_and_log w1 w2 -> only_nodes_and_log w2 w3 ->
  only_nodes_and_log w1 w3.
Proof.
  intros (Hb & Ht & Hq & Hn & Hr & l & Hl) (Hb' & Ht' & Hq' & Hn' & Hr' & l' & Hl').
  repeat split; try congruence.
  exists (l ++ l')%list. by rewrite Hl', Hl, <- app_assoc.
Qed.

Lemma only_nodes_and_log_nodes w ns : only_nodes_and_log w (with_nodes ns w).
Proof. repeat split. exists []. simpl. by rewrite app_nil_r. Qed.

Lemma only_nodes_and_log_console w more :
  only_nodes_and_log w (with_console (console w ++ more) w).
Proof. repeat split. by exists more. Qed.

Ltac beside :=
  first [exact only_nodes_and_log_refl | exact only_nodes_and_log_trans].

Lemma alter_node_beside f r : preserves only_nodes_and_log (alter_node f r).
Proof. intros w. apply only_nodes_and_log_nodes. Qed.

Lemma allocate_beside n : preserves only_nodes_and_log (allocate n).
Proof. intros w. apply only_nodes_and_log_nodes. Qed.

Lemma appendChild_beside parent child :
  preserves only_nodes_and_log (appendChild parent child).
Proof.
  destruct child as [| | | | |c| | |]; try (apply preserves_throw; beside).
  intros w. unfold appendChild.
  destruct (nodes w !! c); [|apply only_nodes_and_log_refl].
  destruct (nodes w !! parent); [|apply only_nodes_and_log_refl].
  destruct (inclusive_ancestor _ _ _ _); [apply only_nodes_and_log_refl|].
  apply only_nodes_and_log_nodes.
Qed.

Lemma console_error_beside e : preserves only_nodes_and_log (console_error e).
Proof. intros w. apply only_nodes_and_log_console. Qed.

Lemma console_warn_beside msg arg :
  preserves only_nodes_and_log (console_warn msg arg).
Proof. intros w. apply only_nodes_and_log_console. Qed.

Section Beside.

Variable valid_element_name : string -> bool.
Variable valid_attribute_name : string -> bool.
Variable setter_refuses : string -> string -> value -> option exn.
Variable call : fid -> list value -> M value.
Variable svg_root_name : string -> string.

Abbreviation createElement' :=
  (createElement valid_element_name valid_attribute_name setter_refuses call
     svg_root_name).
Abbreviation createElement_try' :=
  (createElement_try valid_element_name valid_attribute_name setter_refuses
     call).

Lemma document_createElement_beside tag :
  preserves only_nodes_and_log (document_createElement valid_element_name tag).
Proof.
  unfold document_createElement. destruct (valid_element_name _).
  - apply allocate_beside.
  - apply preserves_throw; beside.
Qed.

Lemma set_property_beside elem k v :
  preserves only_nodes_and_log (set_property setter_refuses elem k v).
Proof.
  apply preserves_bind; [beside|intros w; apply only_nodes_and_log_refl|].
  intros tag. destruct (setter_refuses tag k v).
  - apply preserves_throw; beside.
  - apply alter_node_beside.
Qed.

Lemma setAttribute_beside elem k v :
  preserves only_nodes_and_log (setAttribute valid_attribute_name elem k v).
Proof.
  unfold setAttribute. destruct (valid_attribute_name k).
  - apply alter_node_beside.
  - apply preserves_throw; beside.
Qed.

Lemma addEventListener_beside elem name handler :
  preserves only_nodes_and_log (addEventListener elem name handler).
Proof.
  destruct handler; try (apply preserves_ret; beside);
    try (apply preserves_throw; beside); apply alter_node_beside.
Qed.

Lemma createSVGElement_beside svgString :
  preserves only_nodes_and_log (createSVGElement svg_root_name svgString).
Proof.
  apply preserves_try_catch; [beside| |].
  - apply preserves_bind; [beside| |].
    + apply preserves_bind; [beside|apply allocate_beside|].
      intros r. apply preserves_ret; beside.
    + intros svgElem. apply preserves_bind; [beside|apply preserves_read; beside|].
      intros nodeName. destruct (strict_eq_str _ _).
      * apply preserves_throw; beside.
      * apply preserves_ret; beside.
  - intros e. apply preserves_bind; [beside|apply console_error_beside|].
    intros _. apply preserves_ret; beside.
Qed.

Lemma createElement_try_beside rec info parent :
  (forall f args, get info "callback" = VFun f ->
     preserves only_nodes_and_log (call f args)) ->
  (forall item, item ∈ content_items info ->
     forall p, preserves only_nodes_and_log (rec item p)) ->
  preserves only_nodes_and_log (createElement_try' rec info parent).
Proof.
  intros Hcall Hrec. unfold createElement_try, setAttributes, addInnerContent.
  apply preserves_bind; [beside| |intros tag].
  { destruct (negb (truthy (get info "tag"))); [|apply preserves_ret; beside].
    apply preserves_bind; [beside|apply preserves_read; beside|intros p].
    destruct (loose_eq_str p "SELECT"); [apply preserves_ret; beside|].
    destruct (loose_eq_str p "UL" || loose_eq_str p "OL");
      [apply preserves_ret; beside|].
    apply preserves_bind; [beside|apply console_warn_beside|].
    intros _. apply preserves_ret; beside. }
  apply preserves_bind; [beside|apply document_createElement_beside|intros elem].
  apply preserves_bind; [beside| |intros _].
  { apply preserves_when, set_property_beside; beside. }
  apply preserves_bind; [beside| |intros _].
  { apply preserves_when, set_property_beside; beside. }
  apply preserves_bind; [beside| |intros _].
  { apply preserves_forEach; [beside|beside|]. intros [key value] _.
    apply preserves_when; [beside|]. apply preserves_when; [beside|].
    apply setAttribute_beside. }
  apply preserves_bind; [beside| |intros _].
  { apply preserves_when; [beside|]. apply preserves_forEach; [beside|beside|].
    intros [key value] _. apply preserves_when; [beside|].
    apply set_property_beside. }
  apply preserves_bind; [beside| |intros _].
  { apply preserves_when; [beside|]. rewrite forEach_member_get.
    apply preserves_content; [beside|beside|]. intros item Hitem.
    apply preserves_bind; [beside|by apply Hrec|].
    intros childElement. apply preserves_when; [beside|].
    apply appendChild_beside. }
  apply preserves_bind; [beside| |intros _].
  { apply preserves_when; [beside|]. apply preserves_forEach; [beside|beside|].
    intros [name handler] _. apply addEventListener_beside. }
  apply preserves_bind; [beside| |intros _].
  { apply preserves_when; [beside|]. apply preserves_bind; [beside| |].
    - unfold invoke. destruct (get info "callback") eqn:E;
        try (apply preserves_throw; beside). by apply Hcall.
    - intros _. apply preserves_ret; beside. }
  apply preserves_ret; beside.
Qed.

Lemma createElement_beside info :
  callbacks call (preserves only_nodes_and_log) info ->
  forall parent, preserves only_nodes_and_log (createElement' info parent).
Proof.
  induction 1 as [info Hcall _ IH]. intros parent.
  rewrite createElement_unfold.
  destruct (negb (truthy info)); [apply preserves_ret; beside|].
  destruct (truthy (get info "element")); [apply preserves_ret; beside|].
  destruct (truthy (get info "svg")); [apply createSVGElement_beside|].
  apply preserves_try_catch; [beside| |].
  - by apply createElement_try_beside.
  - intros e. apply preserves_bind; [beside|apply console_error_beside|].
    intros _. apply preserves_ret; beside.
Qed.

(** A property of every function the caller can pass in holds of the
    callbacks of any description. *)
Lemma callbacks_all (Q : M value -> Prop) info :
  (forall f args, Q (call f args)) -> callbacks call Q info.
Proof.
  intros HQ. induction info as [info IH] using description_ind.
  constructor; [by intros|done].
Qed.

(** X5.  [createElement] changes nothing but the node store and the console,
    and the console only by adding to it: the document body, the toast
    registry, the timers and the request log stay as they are, as long as
    the callbacks of the description do the same. *)
Theorem createElement_touches_nodes_and_console_only info parent w :
  callbacks call (preserves only_nodes_and_log) info ->
  only_nodes_and_log w (createElement' info parent w).2.
Proof.
  intros Hcb. by apply createElement_beside.
Qed.

(** The [try] block on a description without tag, under a parent node
    that is no selection and no list: the warning is logged first, and
    what follows only adds to the console. *)
Lemma createElement_try_warns rec info parent w p np :
  (forall f args, get info "callback" = VFun f ->
     preserves only_nodes_and_log (call f args)) ->
  (forall item, item ∈ content_items info ->
     forall p, preserves only_nodes_and_log (rec item p)) ->
  truthy (get info "tag") = false ->
  parent = VNode p ->
  nodes w !! p = Some np ->
  tagName np <> "SELECT" -> tagName np <> "UL" -> tagName np <> "OL" ->
  only_nodes_and_log
    (with_console (console w ++ [LogWarn "No element tag specified in:" info]) w)
    (createElement_try' rec info parent w).2.
Proof.
  intros Hcall Hrec Htag -> Hp H1 H2 H3.
  unfold createElement_try, setAttributes, addInnerContent.
  lazymatch goal with
  | |- only_nodes_and_log _ (bind ?m ?k w).2 =>
      assert (HK : forall tag, preserves only_nodes_and_log (k tag))
  end.
  { intros tag.
    apply preserves_bind;
      [beside|apply document_createElement_beside|intros elem].
    apply preserves_bind; [beside| |intros _].
    { apply preserves_when, set_property_beside; beside. }
    apply preserves_bind; [beside| |intros _].
    { apply preserves_when, set_property_beside; beside. }
    apply preserves_bind; [beside| |intros _].
    { apply preserves_forEach; [beside|beside|]. intros [key value] _.
      apply preserves_when; [beside|]. apply preserves_when; [beside|].
      apply setAttribute_beside. }
    apply preserves_bind; [beside| |intros _].
    { apply preserves_when; [beside|]. apply preserves_forEach; [beside|beside|].
      intros [key value] _. apply preserves_when; [beside|].
      apply set_property_beside. }
    apply preserves_bind; [beside| |intros _].
    { apply preserves_when; [beside|]. rewrite forEach_member_get.
      apply preserves_content; [beside|beside|]. intros item Hitem.
      apply preserves_bind; [beside|by apply Hrec|].
      intros childElement. apply preserves_when; [beside|].
      apply appendChild_beside. }
    apply preserves_bind; [beside| |intros _].
    { apply preserves_when; [beside|]. apply preserves_forEach; [beside|beside|].
      intros [name handler] _. apply addEventListener_beside. }
    apply preserves_bind; [beside| |intros _].
    { apply preserves_when; [beside|]. apply preserves_bind; [beside| |].
      - unfold invoke. destruct (get info "callback") eqn:E;
          try (apply preserves_throw; beside). by apply Hcall.
      - intros _. apply preserves_ret; beside. }
    apply preserves_ret; beside. }
  apply String.eqb_neq in H1, H2, H3.
  unfold bind at 1. rewrite Htag. cbn [negb].
  unfold bind at 1, read, inspect, node_at. rewrite Hp.
  cbn [String.eqb Ascii.eqb Bool.eqb orb loose_eq_str].
  rewrite H1, H2, H3. cbn [orb].
  unfold bind at 1, console_warn, update, ret.
  apply HK.
Qed.

(** X24.  A description without tag that is built under a parent node that is
    neither a SELECT nor a UL or OL is reported: the warning "No element
    tag specified in:", with the description, is the first entry the call
    adds to the console, whatever happens afterwards.  The callbacks are
    taken not to erase the console. *)
Theorem defaulted_tag_is_warned info parent w p np :
  callbacks call (preserves only_nodes_and_log) info ->
  truthy info = true ->
  truthy (get info "element") = false ->
  truthy (get info "svg") = false ->
  truthy (get info "tag") = false ->
  parent = VNode p ->
  nodes w !! p = Some np ->
  tagName np <> "SELECT" -> tagName np <> "UL" -> tagName np <> "OL" ->
  exists more,
    console (createElement' info parent w).2
    = (console w ++ LogWarn "No element tag specified in:" info :: more)%list.
Proof.
  intros Hcb Hinfo Helem Hsvg Htag Hparent Hp H1 H2 H3.
  inversion Hcb as [info' Hcall Hitems]. subst info'.
  pose proof (createElement_try_warns createElement' info parent w p np Hcall
                (fun item Hitem => createElement_beside item (Hitems item Hitem))
                Htag Hparent Hp H1 H2 H3) as H.
  rewrite createElement_unfold, Hinfo, Helem, Hsvg. cbn [negb].
  unfold try_catch.
  destruct (createElement_try _ _ _ _ _ _ _ _) as [[v|e] w1];
    cbn [fst snd] in *; destruct H as (_ & _ & _ & _ & _ & more & Hmore);
    cbn [console with_console] in Hmore.
  - exists more. simpl. by rewrite Hmore, <- app_assoc.
  - exists (more ++ [LogError e])%list. simpl.
    by rewrite Hmore, <- !app_assoc.
Qed.

End Beside.

(** ** The life of a toast *)

Lemma post_bind_preserves {A B} (R : world -> world -> Prop) w0
    (m : M A) (k : A -> M B) Q w :
  (forall w1 w2 w3, R w1 w2 -> R w2 w3 -> R w1 w3) ->
  R w0 w -> preserves R m ->
  (forall e w', R w0 w' -> Q (Throw e) w') ->
  (forall a w', R w0 w' -> post (k a) Q w') ->
  post (bind m k) Q w.
Proof.
  intros Htrans Hw Hm He Hk. apply post_bind. unfold post at 1.
  specialize (Hm w). destruct (m w) as [[a|e] w']; simpl in *.
  - apply Hk. by eapply Htrans.
  - apply He. by eapply Htrans.
Qed.

(** A child that was appended has the parent it was appended to. *)
Lemma appendChild_parent parent c w w' :
  appendChild parent (VNode c) w = (Return tt, w') ->
  exists n, nodes w' !! c = Some n /\ parentNode n = Some parent.
Proof.
  unfold appendChild. destruct (nodes w !! c) as [nc|] eqn:Ec; [|done].
  destruct (nodes w !! parent) as [np|]; [|done].
  destruct (inclusive_ancestor _ _ _ _); [done|]. intros [= <-].
  cbn [nodes with_nodes]. rewrite list_lookup_alter_eq.
  assert (is_Some
            (alter (fun pn => set_childNodes (childNodes pn ++ [c]) pn) parent
               (detach c (nodes w)) !! c)) as [n Hn].
  { apply lookup_lt_is_Some. rewrite length_alter.
    assert (Hlen : (c < List.length (nodes w))%nat) by by eapply lookup_lt_Some.
    unfold detach. rewrite Ec.
    destruct (parentNode nc); by rewrite ?length_alter. }
  rewrite Hn. simpl. eauto.
Qed.

Section ToastLife.

Variable valid_element_name : string -> bool.
Variable valid_attribute_name : string -> bool.
Variable setter_refuses : string -> string -> value -> option exn.
Variable call : fid -> list value -> M value.
Variable svg_root_name : string -> string.
Variable getElementById : string -> world -> value.

Abbreviation toast' :=
  (toast valid_element_name valid_attribute_name setter_refuses call
     svg_root_name getElementById).

(** The description of a toast holds no callback. *)
Lemma toast_description_callbacks Q message :
  callbacks call Q
    (VObj [("tag", VStr "div"); ("class", VStr "toast-message");
           ("content",
            VArr [VObj [("tag", VStr "span"); ("text", message)]] [])]).
Proof.
  constructor; [intros f args [=]|].
  intros item Hitem. unfold content_items in Hitem. simpl in Hitem.
  apply list_elem_of_singleton in Hitem as ->.
  constructor; [intros f args [=]|].
  intros item Hitem. unfold content_items in Hitem. simpl in Hitem.
  by apply elem_of_nil in Hitem.
Qed.

(** What a call of [toast] that returns has done. *)
Lemma toast_post message forLong w :
  post (toast' message forLong)
    (fun res w' =>
       match res with
       | Return id =>
           exists r n c,
             id = next_timer w + 1 /\
             timers w' =
               (timers w ++
                [mkTimer (next_timer w) (TaskFadeIn (VNode r)) 10;
                 mkTimer id (TaskRemoveToast id)
                   (if truthy forLong then 6000 else 3000)])%list /\
             toastItems w' = <[id := VNode r]> (toastItems w) /\
             next_timer w' = id + 1 /\
             requests w' = requests w /\
             document_body w' = document_body w /\
             nodes w' !! r = Some n /\ parentNode n = Some c
       | Throw _ => only_nodes_and_log w w'
       end) w.
Proof.
  unfold toast.
  apply (post_bind_preserves only_nodes_and_log w);
    [exact only_nodes_and_log_trans|apply only_nodes_and_log_refl
    |intros w0; apply only_nodes_and_log_refl|done|].
  intros c0 w1 H1.
  apply (post_bind_preserves only_nodes_and_log w);
    [exact only_nodes_and_log_trans|exact H1| |done|].
  { destruct (negb (truthy c0)); [|apply preserves_ret; beside].
    apply preserves_bind; [beside|apply document_createElement_beside|].
    intros c. apply preserves_bind; [beside|apply set_property_beside|].
    intros _. apply preserves_bind;
      [beside|intros w0; apply only_nodes_and_log_refl|].
    intros body. apply preserves_bind; [beside|apply appendChild_beside|].
    intros _. apply preserves_ret; beside. }
  intros container w2 H2.
  apply (post_bind_preserves only_nodes_and_log w);
    [exact only_nodes_and_log_trans|exact H2| |done|].
  { apply createElement_beside, toast_description_callbacks. }
  intros item w3 H3. apply post_bind. unfold post at 1.
  assert (H34 : only_nodes_and_log w3 (appendChild_to container item w3).2).
  { unfold appendChild_to. destruct container as [| | | | |c| | |];
      try apply only_nodes_and_log_refl. apply appendChild_beside. }
  destruct (appendChild_to container item w3) as [[[]|e] w4] eqn:E4;
    cbn [fst snd] in *;
    [|by eapply only_nodes_and_log_trans].
  assert (H4 : only_nodes_and_log w w4 /\
               exists r n c, item = VNode r /\ nodes w4 !! r = Some n /\
                             parentNode n = Some c).
  { unfold appendChild_to in E4. destruct container as [| | | | |c| | |]; try done.
    split.
    - eapply only_nodes_and_log_trans; [exact H3|].
      pose proof (appendChild_beside c item w3) as H. by rewrite E4 in H.
    - destruct item as [| | | | |r| | |]; try done.
      apply appendChild_parent in E4 as (n & Hn & Hp). eauto 8. }
  destruct H4 as ((Hb & Ht & Hq & Hn & Hr & _) & r & n & c & -> & Hnode & Hp).
  unfold post, setTimeout, bind, update, ret. simpl.
  exists r, n, c. rewrite Hb, Ht, Hq, Hn, Hr, <- app_assoc. done.
Qed.

(** X6.  A call of [toast] that returns an identifier has scheduled two
    timers, first the fade-in of the new item after 10 ms, then, under the
    identifier it returns, the removal of the toast after 3000 ms, or 6000
    when [forLong] is truthy.  The registry has gained the item under
    that identifier and is otherwise as before; nothing was requested
    from the network. *)
Theorem toast_schedules_and_registers message forLong w id w' :
  toast' message forLong w = (Return id, w') ->
  exists item,
    timers w' =
      (timers w ++
       [mkTimer (next_timer w) (TaskFadeIn item) 10;
        mkTimer id (TaskRemoveToast id)
          (if truthy forLong then 6000 else 3000)])%list /\
    id = next_timer w + 1 /\
    toastItems w' = <[id := item]> (toastItems w) /\
    requests w' = requests w.
Proof.
  intros Hrun. pose proof (toast_post message forLong w) as H.
  unfold post in H. rewrite Hrun in H. simpl in H.
  destruct H as (r & n & c & Hid & Ht & Hreg & _ & Hreq & _).
  exists (VNode r). done.
Qed.

(** X7.  A call of [toast] that throws has scheduled no timer and registered
    nothing: the timers, the registry and the request log are as they
    were, and the console has lost no entry. *)
Theorem failed_toast_leaves_no_trace message forLong w e w' :
  toast valid_element_name valid_attribute_name setter_refuses call
    svg_root_name getElementById message forLong w = (Throw e, w') ->
  timers w' = timers w /\
  next_timer w' = next_timer w /\
  toastItems w' = toastItems w /\
  requests w' = requests w /\
  exists more, console w' = (console w ++ more)%list.
Proof.
  intros Hrun. pose proof (toast_post message forLong w) as H.
  unfold post in H. rewrite Hrun in H. simpl in H.
  by destruct H as (_ & Ht & Hq & Hn & Hr & Hc).
Qed.

(** X8.  A second toast gets an identifier of its own, and the first toast is
    still registered after it. *)
Theorem successive_toasts_are_both_registered
    message1 forLong1 message2 forLong2 w id1 w1 id2 w2 :
  toast valid_element_name valid_attribute_name setter_refuses call
    svg_root_name getElementById message1 forLong1 w = (Return id1, w1) ->
  toast valid_element_name valid_attribute_name setter_refuses call
    svg_root_name getElementById message2 forLong2 w1 = (Return id2, w2) ->
  id1 <> id2 /\
  is_Some (toastItems w2 !! id2) /\
  is_Some (toastItems w1 !! id1) /\
  toastItems w2 !! id1 = toastItems w1 !! id1.
Proof.
  intros Hrun1 Hrun2.
  pose proof (toast_post message1 forLong1 w) as H1.
  pose proof (toast_post message2 forLong2 w1) as H2.
  unfold post in H1, H2. rewrite Hrun1 in H1. rewrite Hrun2 in H2.
  simpl in H1, H2.
  destruct H1 as (r1 & n1 & c1 & Hid1 & _ & Hreg1 & Hnext1 & _).
  destruct H2 as (r2 & n2 & c2 & Hid2 & _ & Hreg2 & _).
  assert (Hne : id1 <> id2) by lia.
  split; [done|]. rewrite Hreg2, Hreg1.
  rewrite lookup_insert_eq, (lookup_insert_ne _ id2 id1) by congruence.
  rewrite lookup_insert_eq. eauto.
Qed.

(** X9.  The timer that [toast] schedules under the identifier it returns is
    never cancelled.  When it fires it does what [removeToast] of that
    identifier does; when it fires after the toast was removed by hand it
    changes nothing. *)
Theorem auto_dismiss_after_removal_does_nothing message forLong w id w1 :
  toast' message forLong w = (Return id, w1) ->
  exists delay w2,
    mkTimer id (TaskRemoveToast id) delay ∈ timers w1 /\
    removeToast id w1 = (Return tt, w2) /\
    run_task (TaskRemoveToast id) w1 = (Return tt, w2) /\
    mkTimer id (TaskRemoveToast id) delay ∈ timers w2 /\
    run_task (TaskRemoveToast id) w2 = (Return tt, w2).
Proof.
  intros Hrun. pose proof (toast_post message forLong w) as H.
  unfold post in H. rewrite Hrun in H. simpl in H.
  destruct H as (r & n & c & Hid & Ht & Hreg & _ & _ & _ & Hn & _).
  assert (Hitem : toastItems w1 !! id = Some (VNode r))
    by by rewrite Hreg, lookup_insert_eq.
  assert (Hin : mkTimer id (TaskRemoveToast id)
                  (if truthy forLong then 6000 else 3000) ∈ timers w1).
  { rewrite Ht. apply elem_of_app. right. right. left. }
  eexists _, _. split; [exact Hin|].
  split; [exact (removeToast_active id r n w1 Hitem Hn)|].
  split; [exact (removeToast_active id r n w1 Hitem Hn)|].
  split.
  - cbn [timers]. apply elem_of_app. by left.
  - apply removeToast_unknown. cbn [toastItems]. apply lookup_delete_eq.
Qed.

(** X10.  A toast that was removed leaves the document when the timer that
    [removeToast] scheduled fires: the item, which [toast] had put under
    a parent, then has no parent, and that parent no longer has the item
    among its children. *)
Theorem removed_toast_leaves_the_document message forLong w id w1 :
  toast' message forLong w = (Return id, w1) ->
  exists r c w2 w3,
    toastItems w1 !! id = Some (VNode r) /\
    parentNode <$> nodes w1 !! r = Some (Some c) /\
    removeToast id w1 = (Return tt, w2) /\
    last (timers w2)
      = Some (mkTimer (next_timer w1) (TaskDetach (VNode r)) 300) /\
    run_task (TaskDetach (VNode r)) w2 = (Return tt, w3) /\
    parentNode <$> nodes w3 !! r = Some None /\
    (forall nc, nodes w3 !! c = Some nc -> r ∉ childNodes nc).
Proof.
  intros Hrun. pose proof (toast_post message forLong w) as H.
  unfold post in H. rewrite Hrun in H. simpl in H.
  destruct H as (r & n & c & Hid & Ht & Hreg & _ & _ & _ & Hn & Hp).
  assert (Hitem : toastItems w1 !! id = Some (VNode r))
    by by rewrite Hreg, lookup_insert_eq.
  assert (Hlen : (r < List.length (nodes w1))%nat) by by eapply lookup_lt_Some.
  exists r, c. eexists _, _. split; [exact Hitem|].
  split; [by rewrite Hn; simpl; rewrite Hp|].
  split; [exact (removeToast_active id r n w1 Hitem Hn)|].
  split; [cbn [timers]; apply last_snoc|].
  split; [reflexivity|].
  cbn [nodes with_nodes]. unfold detach.
  rewrite list_lookup_insert_eq by done. cbn [parentNode set_style]. rewrite Hp.
  split.
  - rewrite list_lookup_alter_eq.
    destruct (decide (c = r)) as [->|Hne].
    + by rewrite list_lookup_alter_eq, list_lookup_insert_eq.
    + by rewrite list_lookup_alter_ne, list_lookup_insert_eq.
  - intros nc Hnc.
    assert (Hc : exists l, childNodes nc = remove_ref r l).
    { destruct (decide (r = c)) as [<-|Hne].
      - rewrite list_lookup_alter_eq, list_lookup_alter_eq,
          list_lookup_insert_eq in Hnc by done.
        injection Hnc as <-. by eexists.
      - rewrite list_lookup_alter_ne, list_lookup_alter_eq in Hnc by done.
        destruct (_ !! c) as [m|]; [|done]. injection Hnc as <-. by eexists. }
    destruct Hc as (l & ->). unfold remove_ref. rewrite list_elem_of_filter.
    tauto.
Qed.

End ToastLife.

(** ** Descriptions that are not built *)

Section Unbuilt.

Variable valid_element_name : string -> bool.
Variable valid_attribute_name : string -> bool.
Variable setter_refuses : string -> string -> value -> option exn.
Variable call : fid -> list value -> M value.
Variable svg_root_name : string -> string.

Abbreviation createElement'' :=
  (createElement valid_element_name valid_attribute_name setter_refuses call
     svg_root_name).

(** X11.  A description with an [svg] field and no [element] is answered by
    [createSVGElement] alone: the parent and every other field are
    ignored, and no node that was there is touched.  When the root of the
    parsed document is named [parsererror], the error "Error parsing SVG
    string" is logged and the answer is [null]; otherwise nothing is
    logged and the answer is a new node, with the name of that root. *)
Theorem svg_description_is_parsed info parent w :
  truthy (get info "element") = false ->
  truthy (get info "svg") = true ->
  let root := svg_root_name (to_string (get info "svg")) in
  exists res w',
    createElement'' info parent w = (Return res, w') /\
    createSVGElement svg_root_name (get info "svg") w = (Return res, w') /\
    only_nodes_and_log w w' /\
    (forall x n, nodes w !! x = Some n -> nodes w' !! x = Some n) /\
    if String.eqb root "parsererror"
    then res = VNull /\
         console w'
         = (console w ++ [LogError (Error "Error parsing SVG string")])%list
    else console w' = console w /\
         exists r n, res = VNode r /\ (List.length (nodes w) <= r)%nat /\
                     nodes w' !! r = Some n /\ tagName n = root.
Proof.
  intros Helem Hsvg root. rewrite createElement_unfold, Helem, Hsvg.
  assert (Hinfo : truthy info = true) by by destruct info.
  rewrite Hinfo. cbn [negb].
  unfold createSVGElement, try_catch, parse_svg_document, bind, allocate,
    read, inspect, node_at, ret.
  simpl. rewrite lookup_app_r, Nat.sub_diag by done. simpl. fold root.
  assert (Hold : forall x n,
    nodes w !! x = Some n -> (nodes w ++ [new_node root])%list !! x = Some n).
  { intros x n Hx. by apply lookup_app_l_Some. }
  destruct (String.eqb root "parsererror"); eexists _, _;
    (split; [reflexivity|]); (split; [reflexivity|]);
    (split; [|split; [exact Hold|]]).
  - repeat (split; [done|]). by eexists.
  - done.
  - repeat (split; [done|]). exists []. simpl. by rewrite app_nil_r.
  - split; [done|]. exists (List.length (nodes w)), (new_node root).
    split; [done|]. split; [done|]. split; [|done].
    simpl. by rewrite lookup_app_r, Nat.sub_diag.
Qed.


End Unbuilt.

(** ** The new element *)

Lemma same_element_refl x n : same_element x n n.
Proof. done. Qed.

Lemma same_element_trans x n1 n2 n3 :
  same_element x n1 n2 -> same_element x n2 n3 -> same_element x n1 n3.
Proof. unfold same_element. congruence. Qed.

Ltac own := first [exact same_element_refl | exact same_element_trans].

Lemma with_properties_nil n : with_properties [] n = n.
Proof. by destruct n. Qed.

Lemma with_attributes_nil n : with_attributes [] n = n.
Proof. by destruct n. Qed.

Lemma with_listeners_nil n : with_listeners [] n = n.
Proof. destruct n. unfold with_listeners. simpl. by rewrite app_nil_r. Qed.

Lemma with_properties_app a b n :
  with_properties (a ++ b) n = with_properties b (with_properties a n).
Proof.
  unfold with_properties, apply_attributes. by rewrite fold_left_app.
Qed.

Lemma with_attributes_app a b n :
  with_attributes (a ++ b) n = with_attributes b (with_attributes a n).
Proof.
  unfold with_attributes, apply_attributes. by rewrite fold_left_app.
Qed.

Lemma with_listeners_app a b n :
  with_listeners (a ++ b) n = with_listeners b (with_listeners a n).
Proof. unfold with_listeners. simpl. by rewrite app_assoc. Qed.

(** The state of the element that was built. *)
Lemma built_state info tag :
  element_state (built info tag)
  = (tag, apply_attributes (map attribute_of (attribute_fields info)) [],
     apply_attributes (property_fields info) [], [], listener_fields info).
Proof.
  unfold built, element_state, property_fields. simpl.
  unfold apply_attributes. by rewrite !fold_left_app.
Qed.

(** *** Steps that touch one node *)

Lemma acts_on_ext {A} elem f g (m : M A) :
  (forall n, f n = g n) -> acts_on elem f m -> acts_on elem g m.
Proof.
  intros Hfg Hm w n Hn. eapply post_mono; [exact (Hm w n Hn)|].
  intros res w' (Hlen & Hothers & n' & Hn' & Hres). do 2 (split; [done|]).
  exists n'. split; [done|]. destruct res; [|done]. by rewrite <- Hfg.
Qed.

Lemma acts_on_ret {A} elem (a : A) : acts_on elem (fun n => n) (ret a).
Proof. intros w n Hn. apply post_ret. eauto. Qed.

Lemma acts_on_throw {A} elem f e : acts_on elem f (@throw A e).
Proof. intros w n Hn. apply post_throw. eauto. Qed.

Lemma acts_on_inspect {A} elem (h : world -> A) :
  acts_on elem (fun n => n) (inspect h).
Proof. intros w n Hn. unfold post, inspect. simpl. eauto. Qed.

Lemma acts_on_bind {A B} elem f g (m : M A) (k : A -> M B) :
  acts_on elem f m -> (forall a, acts_on elem g (k a)) ->
  acts_on elem (fun n => g (f n)) (bind m k).
Proof.
  intros Hm Hk w n Hn. apply post_bind. eapply post_mono; [exact (Hm w n Hn)|].
  intros [a|e] w1 (Hlen & Hothers & n1 & Hn1 & Hres).
  - subst n1. eapply post_mono; [exact (Hk a w1 (f n) Hn1)|].
    intros res w2 (Hlen2 & Hothers2 & n2 & Hn2 & Hres2).
    split; [congruence|]. split.
    + intros x Hx. by rewrite Hothers2, Hothers.
    + by exists n2.
  - do 2 (split; [done|]). eauto.
Qed.

Lemma acts_on_when elem (f : node -> node) (b : bool) m :
  acts_on elem f m -> acts_on elem (if b then f else fun n => n) (when b m).
Proof. destruct b; [done|]. intros _. apply acts_on_ret. Qed.

Lemma acts_on_forEach {A} elem (g : A -> node -> node) (f : A -> M unit) items :
  (forall x, acts_on elem (g x) (f x)) ->
  acts_on elem (fun n => fold_left (fun n x => g x n) items n) (forEach f items).
Proof.
  intros Hf. induction items as [|x rest IH]; [apply acts_on_ret|].
  cbn [forEach fold_left].
  apply (acts_on_bind elem (g x)
           (fun n => fold_left (fun n x => g x n) rest n)); [apply Hf|].
  intros _. exact IH.
Qed.

Lemma acts_on_alter_node elem f : acts_on elem f (alter_node f elem).
Proof.
  intros w n Hn. apply post_update. cbn [nodes with_nodes].
  split; [apply length_alter|]. split.
  - intros x Hx. by rewrite list_lookup_alter_ne.
  - exists (f n). by rewrite list_lookup_alter_eq, Hn.
Qed.

Lemma acts_on_addEventListener elem name handler :
  acts_on elem
    (if is_given (name, handler) then with_listeners [(name, handler)]
     else fun n : node => n)
    (addEventListener elem name handler).
Proof.
  destruct handler; try apply acts_on_ret; try apply acts_on_throw;
    apply acts_on_alter_node.
Qed.

(** What a loop over entries that handles the given ones leaves. *)
Lemma fold_given (wth : list (string * value) -> node -> node) es :
  (forall n, wth [] n = n) ->
  (forall a b n, wth (a ++ b)%list n = wth b (wth a n)) ->
  forall (keep : string * value -> bool) n,
  fold_left (fun n entry => if keep entry then wth [entry] n else n) es n
  = wth (List.filter keep es) n.
Proof.
  intros Hnil Happ keep. induction es as [|entry rest IH]; intros n;
    cbn [fold_left List.filter]; [by rewrite Hnil|].
  rewrite IH. destruct (keep entry); [|done].
  by rewrite (Happ [entry] (List.filter keep rest)).
Qed.

Lemma post_acts_on {A} elem f (m : M A) (Q : result A -> world -> Prop) w n :
  acts_on elem f m ->
  nodes w !! elem = Some n ->
  (forall res w',
     List.length (nodes w') = List.length (nodes w) ->
     (forall x, x <> elem -> nodes w' !! x = nodes w !! x) ->
     (forall a, res = Return a -> nodes w' !! elem = Some (f n)) ->
     Q res w') ->
  post m Q w.
Proof.
  intros Hm Hn HQ. eapply post_mono; [exact (Hm w n Hn)|].
  intros res w' (Hlen & Hothers & n' & Hn' & Hres). apply HQ; [done..|].
  intros a ->. by subst n'.
Qed.

(** A store that differs from [ns ++ [n0]] in its last node only. *)
Lemma nodes_grow_by_one (ns ns' : list node) n0 n :
  List.length ns' = List.length (ns ++ [n0])%list ->
  (forall x, x <> List.length ns -> ns' !! x = (ns ++ [n0])%list !! x) ->
  ns' !! List.length ns = Some n ->
  ns' = (ns ++ [n])%list.
Proof.
  intros Hlen Hothers Hn. apply list_eq. intros i.
  destruct (decide (i = List.length ns)) as [->|Hne].
  - by rewrite Hn, lookup_app_r, Nat.sub_diag.
  - rewrite Hothers by done.
    destruct (decide (i < List.length ns)%nat) as [Hlt|Hge].
    + by rewrite !lookup_app_l.
    + rewrite !lookup_ge_None_2; [done|rewrite length_app; simpl; lia..].
Qed.

Section NewElement.

Variable valid_element_name : string -> bool.
Variable valid_attribute_name : string -> bool.
Variable setter_refuses : string -> string -> value -> option exn.
Variable call : fid -> list value -> M value.
Variable svg_root_name : string -> string.

Abbreviation createElement3 :=
  (createElement valid_element_name valid_attribute_name setter_refuses call
     svg_root_name).
Abbreviation createElement_try3 :=
  (createElement_try valid_element_name valid_attribute_name setter_refuses
     call).

Lemma acts_on_set_property elem k v :
  acts_on elem (with_properties [(k, v)])
    (set_property setter_refuses elem k v).
Proof.
  apply (acts_on_bind elem (fun n => n) (with_properties [(k, v)]));
    [apply acts_on_inspect|].
  intros tag. destruct (setter_refuses tag k v); [apply acts_on_throw|].
  apply acts_on_alter_node.
Qed.

Lemma acts_on_setAttribute elem k v :
  acts_on elem (with_attributes [attribute_of (k, v)])
    (setAttribute valid_attribute_name elem k v).
Proof.
  unfold setAttribute. destruct (valid_attribute_name k);
    [apply acts_on_alter_node|apply acts_on_throw].
Qed.

Lemma acts_on_setAttributes info elem :
  acts_on elem (with_attributes (map attribute_of (attribute_fields info)))
    (setAttributes valid_attribute_name info elem).
Proof.
  unfold setAttributes, attribute_fields.
  eapply acts_on_ext;
    [|apply (acts_on_forEach elem
               (fun entry n => if is_attribute entry
                               then with_attributes [attribute_of entry] n
                               else n))].
  - intros n. revert n.
    induction (entries info) as [|entry rest IH]; intros n;
      cbn [fold_left List.filter map]; [by rewrite with_attributes_nil|].
    rewrite IH. destruct (is_attribute entry); [|done]. cbn [map].
    change (attribute_of entry :: map attribute_of (List.filter is_attribute rest))
      with ([attribute_of entry]
            ++ map attribute_of (List.filter is_attribute rest))%list.
    by rewrite with_attributes_app.
  - intros [key value]. unfold is_attribute. cbn [fst snd].
    destruct (negb (nullish value)); cbn [when andb]; [|apply acts_on_ret].
    destruct (negb (includes excluded_keys key)); cbn [when];
      [|apply acts_on_ret].
    apply acts_on_setAttribute.
Qed.

Lemma acts_on_properties_loop elem es :
  acts_on elem (with_properties (List.filter is_given es))
    (forEach (fun entry : string * value =>
                let (key, value) := entry in
                when (negb (nullish value))
                  (set_property setter_refuses elem key value)) es).
Proof.
  eapply acts_on_ext;
    [|apply (acts_on_forEach elem
               (fun entry n => if is_given entry
                               then with_properties [entry] n else n))].
  - intros n. apply (fold_given with_properties);
      [exact with_properties_nil|exact with_properties_app].
  - intros [key value]. unfold is_given. cbn [fst snd].
    destruct (negb (nullish value)); cbn [when]; [|apply acts_on_ret].
    apply acts_on_set_property.
Qed.

Lemma acts_on_listeners_loop elem es :
  acts_on elem (with_listeners (List.filter is_given es))
    (forEach (fun entry : string * value =>
                let (name, handler) := entry in
                addEventListener elem name handler) es).
Proof.
  eapply acts_on_ext;
    [|apply (acts_on_forEach elem
               (fun entry n => if is_given entry
                               then with_listeners [entry] n else n))].
  - intros n. apply (fold_given with_listeners);
      [exact with_listeners_nil|exact with_listeners_app].
  - intros [name handler].
    eapply acts_on_ext; [|apply acts_on_addEventListener].
    intros n. by destruct (is_given (name, handler)).
Qed.

Lemma acts_on_when_property elem (b : bool) k v :
  acts_on elem (with_properties (if b then [(k, v)] else []))
    (when b (set_property setter_refuses elem k v)).
Proof.
  eapply acts_on_ext; [|apply acts_on_when, acts_on_set_property].
  intros n. destruct b; [done|]. by rewrite with_properties_nil.
Qed.

Lemma acts_on_when_properties elem (b : bool) es :
  acts_on elem (with_properties (if b then List.filter is_given es else []))
    (when b
       (forEach (fun entry : string * value =>
                   let (key, value) := entry in
                   when (negb (nullish value))
                     (set_property setter_refuses elem key value)) es)).
Proof.
  eapply acts_on_ext; [|apply acts_on_when, acts_on_properties_loop].
  intros n. destruct b; [done|]. by rewrite with_properties_nil.
Qed.

Lemma acts_on_when_listeners elem (b : bool) es :
  acts_on elem (with_listeners (if b then List.filter is_given es else []))
    (when b
       (forEach (fun entry : string * value =>
                   let (name, handler) := entry in
                   addEventListener elem name handler) es)).
Proof.
  eapply acts_on_ext; [|apply acts_on_when, acts_on_listeners_loop].
  intros n. destruct b; [done|]. by rewrite with_listeners_nil.
Qed.

Lemma with_properties_state fs n n' :
  element_state n = element_state n' ->
  element_state (with_properties fs n) = element_state (with_properties fs n').
Proof. unfold element_state. simpl. congruence. Qed.

Lemma with_attributes_state fs n n' :
  element_state n = element_state n' ->
  element_state (with_attributes fs n) = element_state (with_attributes fs n').
Proof. unfold element_state. simpl. congruence. Qed.

Lemma with_listeners_state l n n' :
  element_state n = element_state n' ->
  element_state (with_listeners l n) = element_state (with_listeners l n').
Proof. unfold element_state. simpl. congruence. Qed.

Lemma appendChild_keeps_element parent child :
  respects same_element (appendChild parent child).
Proof.
  destruct child as [| | | | |c| | |]; try (apply respects_throw; own).
  intros w. unfold appendChild.
  destruct (nodes w !! c) as [nc|] eqn:Ec; [|apply related_refl; own].
  destruct (nodes w !! parent) as [np|]; [|apply related_refl; own].
  destruct (inclusive_ancestor _ _ _ _); [apply related_refl; own|].
  cbn [snd nodes with_nodes].
  assert (H1 : related same_element (nodes w) (detach c (nodes w))).
  { unfold detach. rewrite Ec.
    destruct (parentNode nc) as [p|]; [|apply related_refl; own].
    eapply related_trans; [own| |by apply related_alter].
    by apply related_alter. }
  eapply related_trans; [own|exact H1|].
  eapply related_trans; [own| |by apply related_alter].
  by apply related_alter.
Qed.

Lemma createSVGElement_keeps_element svgString :
  respects same_element (createSVGElement svg_root_name svgString).
Proof.
  apply respects_try_catch; [own| |].
  - apply respects_bind; [own| |].
    + apply respects_bind; [own|by apply respects_allocate|].
      intros r. by apply respects_ret.
    + intros svgElem. apply respects_bind; [own|by apply respects_read|].
      intros nodeName. destruct (strict_eq_str _ _).
      * by apply respects_throw.
      * by apply respects_ret.
  - intros e. apply respects_bind; [own|by apply respects_console_error|].
    intros _. by apply respects_ret.
Qed.

(** The tag is found without touching the store, and is the one
    [chosen_tag] names. *)
Lemma tag_step_value info parent w :
  post (if negb (truthy (get info "tag")) then
          let! p := read parent "tagName" in
          if loose_eq_str p "SELECT" then ret (VStr "OPTION")
          else if loose_eq_str p "UL" || loose_eq_str p "OL"
               then ret (VStr "LI")
               else (console_warn "No element tag specified in:" info ;;
                     ret (VStr "SPAN"))
        else ret (get info "tag"))
    (fun res w' =>
       nodes w' = nodes w /\
       forall tag, res = Return tag -> tag = chosen_tag info parent w) w.
Proof.
  unfold chosen_tag, default_tag.
  destruct (truthy (get info "tag")); cbn [negb].
  { apply post_ret. split; [done|]. by intros tag [= <-]. }
  apply post_bind. unfold post at 1.
  pose proof (read_world parent "tagName" w) as Hw.
  destruct (read parent "tagName" w) as [[p|e] w1]; simpl in *; subst w1;
    [|done].
  destruct (loose_eq_str p "SELECT");
    [by apply post_ret; split; [|intros tag [= <-]]|].
  destruct (loose_eq_str p "UL" || loose_eq_str p "OL");
    [by apply post_ret; split; [|intros tag [= <-]]|].
  unfold post. simpl. split; [done|]. by intros tag [= <-].
Qed.

(** The [try] block leaves the own state of the nodes that were there
    alone, and gives the new node the state [built] describes. *)
Lemma createElement_try_element rec info parent w :
  (forall f args, get info "callback" = VFun f ->
     respects same_element (call f args)) ->
  (forall item, item ∈ content_items info ->
     forall p, respects same_element (rec item p)) ->
  post (createElement_try3 rec info parent)
    (fun res w' =>
       related same_element (nodes w) (nodes w') /\
       match res with
       | Return v =>
           v = VNode (List.length (nodes w)) /\
           exists n, nodes w' !! List.length (nodes w) = Some n /\
             element_state n
             = element_state
                 (built info (to_upper (to_string (chosen_tag info parent w))))
       | Throw _ => True
       end) w.
Proof.
  intros Hcall Hrec. unfold createElement_try, addInnerContent.
  set (elem := List.length (nodes w)).
  set (T := to_upper (to_string (chosen_tag info parent w))).
  apply post_bind. eapply post_mono; [apply tag_step_value|].
  intros [tag|e] w1 [Hw1 Htag];
    [|by rewrite Hw1; split; [apply related_refl; own|]].
  rewrite (Htag tag eq_refl). clear Htag tag. fold T.
  apply post_bind. unfold document_createElement.
  destruct (valid_element_name _);
    [|by apply post_throw; rewrite Hw1; split; [apply related_refl; own|]].
  fold T. unfold post at 1, allocate. cbn [fst snd]. rewrite Hw1. fold elem.
  set (Goal := fun (res : result value) (w' : world) =>
                 related same_element (nodes w) (nodes w') /\
                 match res with
                 | Return v =>
                     v = VNode elem /\
                     exists n, nodes w' !! elem = Some n /\
                       element_state n = element_state (built info T)
                 | Throw _ => True
                 end).
  set (J := fun (N : node) (w' : world) =>
              related same_element (nodes w) (nodes w') /\
              exists n, nodes w' !! elem = Some n /\
                element_state n = element_state N).
  assert (Hact : forall N f (m : M unit) (k : M value) w',
    J N w' -> acts_on elem f m ->
    (forall n n', element_state n = element_state n' ->
                  element_state (f n) = element_state (f n')) ->
    (forall w'', J (f N) w'' -> post k Goal w'') ->
    post (m ;; k) Goal w').
  { intros N f m k w' (Hrel & n & Hn & Hst) Hm Hf Hk. apply post_bind.
    eapply post_mono; [exact (Hm w' n Hn)|].
    intros res w'' (_ & Hothers & n' & Hn' & Hres).
    assert (Hrel' : related same_element (nodes w) (nodes w'')).
    { eapply related_agree; [exact Hrel|]. intros x Hx. apply Hothers.
      unfold elem. lia. }
    destruct res as [[]|e]; [|done].
    apply Hk. split; [done|]. exists n'. split; [done|]. subst n'.
    by apply Hf. }
  assert (Hresp : forall N (m : M unit) (k : M value) w',
    J N w' -> respects same_element m ->
    (forall w'', J N w'' -> post k Goal w'') ->
    post (m ;; k) Goal w').
  { intros N m k w' (Hrel & n & Hn & Hst) Hm Hk. apply post_bind.
    unfold post at 1. specialize (Hm w').
    destruct (m w') as [res w'']. cbn [fst snd] in *.
    assert (Hrel' : related same_element (nodes w) (nodes w''))
      by (eapply related_trans; [own|exact Hrel|exact Hm]).
    destruct res as [[]|e]; [|done].
    apply Hk. split; [done|].
    destruct (Hm elem n Hn) as (n' & Hn' & Hsame). exists n'.
    split; [done|]. unfold same_element in Hsame. congruence. }
  assert (HJ0 : J (new_node T) (with_nodes (nodes w ++ [new_node T]) w1)).
  { split; [apply related_allocate; own|]. cbn [nodes with_nodes].
    exists (new_node T). split; [|done].
    unfold elem. by rewrite lookup_app_r, Nat.sub_diag. }
  eapply Hact; [exact HJ0|apply acts_on_when_property
               |apply with_properties_state|].
  intros w2 HJ2.
  eapply Hact; [exact HJ2|apply acts_on_when_property
               |apply with_properties_state|].
  intros w3 HJ3.
  eapply Hact; [exact HJ3|apply acts_on_setAttributes
               |apply with_attributes_state|].
  intros w4 HJ4.
  eapply Hact; [exact HJ4|apply acts_on_when_properties
               |apply with_properties_state|].
  intros w5 HJ5.
  (* add inner content *)
  eapply Hresp; [exact HJ5| |].
  { apply respects_when; [own|]. rewrite forEach_member_get.
    apply respects_content; [own|own|]. intros item Hitem.
    apply respects_bind; [own|by apply Hrec|].
    intros childElement. apply respects_when; [own|].
    apply appendChild_keeps_element. }
  intros w6 HJ6.
  eapply Hact; [exact HJ6|apply acts_on_when_listeners
               |apply with_listeners_state|].
  intros w7 HJ7.
  eapply Hresp; [exact HJ7| |].
  { apply respects_when; [own|]. apply respects_bind; [own| |].
    - unfold invoke. destruct (get info "callback") eqn:E;
        try (apply respects_throw; own). by apply Hcall.
    - intros _. apply respects_ret; own. }
  intros w8 (Hrel8 & n8 & Hn8 & Hst8).
  apply post_ret. split; [done|]. split; [done|]. by exists n8.
Qed.

(** [createElement] leaves the own state of the nodes that were there
    alone. *)
Lemma createElement_keeps_elements info :
  callbacks call (respects same_element) info ->
  forall parent, respects same_element (createElement3 info parent).
Proof.
  induction 1 as [info Hcall _ IH]. intros parent.
  rewrite createElement_unfold.
  destruct (negb (truthy info)); [apply respects_ret; own|].
  destruct (truthy (get info "element")); [apply respects_ret; own|].
  destruct (truthy (get info "svg")); [apply createSVGElement_keeps_element|].
  apply respects_try_catch; [own| |].
  - intros w.
    by destruct (createElement_try_element createElement3 info parent w
                   Hcall IH).
  - intros e. apply respects_bind; [own|by apply respects_console_error|].
    intros _. by apply respects_ret.
Qed.

(** The element a description is built into. *)
Lemma createElement_element info parent w r w' :
  callbacks call (respects same_element) info ->
  truthy (get info "element") = false ->
  truthy (get info "svg") = false ->
  createElement3 info parent w = (Return (VNode r), w') ->
  r = List.length (nodes w) /\
  exists n, nodes w' !! r = Some n /\
    element_state n
    = element_state
        (built info (to_upper (to_string (chosen_tag info parent w)))).
Proof.
  intros Hcb Helem Hsvg Hrun. rewrite createElement_unfold, Helem, Hsvg in Hrun.
  destruct (negb (truthy info)); [done|].
  inversion Hcb as [info' Hcall Hitems]. subst info'.
  pose proof (createElement_try_element createElement3 info parent w Hcall
                (fun item Hitem =>
                   createElement_keeps_elements item (Hitems item Hitem)))
    as H.
  unfold post in H. unfold try_catch in Hrun.
  destruct (createElement_try _ _ _ _ _ _ _ _) as [[v|e] w1];
    cbn [fst snd] in H; [|done].
  injection Hrun as -> ->. destruct H as (_ & [= ->] & H). done.
Qed.

(** X13.  Whatever [createElement] does, a node that was there before keeps
    its tag, attributes, properties, style and listeners, as long as the
    callbacks of the description leave them alone: existing nodes only
    ever change place. *)
Theorem createElement_keeps_existing_nodes info parent w :
  callbacks call (respects same_element) info ->
  related same_element (nodes w) (nodes (createElement3 info parent w).2).
Proof.
  intros Hcb. by apply createElement_keeps_elements.
Qed.

(** X14.  The element built from a description that is an object is a new
    node.  Its tag is the description's [tag] in upper case when that is
    truthy; without one it is OPTION under a SELECT parent, LI under a UL
    or OL parent and SPAN under any other parent node.  The callbacks are
    taken not to rename nodes. *)
Theorem new_element_tag info parent w r w' :
  callbacks call (respects same_element) info ->
  primitive info = false ->
  truthy (get info "element") = false ->
  truthy (get info "svg") = false ->
  createElement3 info parent w = (Return (VNode r), w') ->
  r = List.length (nodes w) /\
  exists n, nodes w' !! r = Some n /\
    (truthy (get info "tag") = true ->
     tagName n = to_upper (to_string (get info "tag"))) /\
    (truthy (get info "tag") = false ->
     forall p np, parent = VNode p -> nodes w !! p = Some np ->
       (tagName np = "SELECT" -> tagName n = "OPTION") /\
       (tagName np = "UL" \/ tagName np = "OL" -> tagName n = "LI") /\
       (tagName np <> "SELECT" -> tagName np <> "UL" -> tagName np <> "OL" ->
        tagName n = "SPAN")).
Proof.
  intros Hcb _ Helem Hsvg Hrun.
  destruct (createElement_element info parent w r w' Hcb Helem Hsvg Hrun)
    as (Hr & n & Hn & Hst).
  split; [done|]. exists n. split; [done|].
  rewrite built_state in Hst. unfold element_state in Hst.
  injection Hst as Htag _ _ _ _. rewrite Htag. unfold chosen_tag. split.
  - by intros ->.
  - intros -> p np -> Hp. unfold read, inspect, node_at. simpl. rewrite Hp.
    simpl. unfold default_tag, loose_eq_str.
    repeat split.
    + by intros ->.
    + by intros [-> | ->].
    + intros H1 H2 H3.
      apply String.eqb_neq in H1, H2, H3. by rewrite H1, H2, H3.
Qed.

(** X16.  The listeners of the element built from a description that is an
    object are the entries of [events] whose handler is neither
    [undefined] nor [null], in order, each added once.  The callbacks are
    taken not to add listeners themselves. *)
Theorem new_element_listeners info parent w r w' :
  callbacks call (respects same_element) info ->
  primitive info = false ->
  primitive (get info "events") = false ->
  truthy (get info "element") = false ->
  truthy (get info "svg") = false ->
  createElement3 info parent w = (Return (VNode r), w') ->
  exists n, nodes w' !! r = Some n /\
    listeners n = listener_fields info.
Proof.
  intros Hcb _ _ Helem Hsvg Hrun.
  destruct (createElement_element info parent w r w' Hcb Helem Hsvg Hrun)
    as (Hr & n & Hn & Hst).
  exists n. split; [done|].
  rewrite built_state in Hst. unfold element_state in Hst.
  by injection Hst as _ _ _ _ Hl.
Qed.

End NewElement.

(** ** Reporting a problem *)

(** The detail of the problem made from an error body that is an object. *)
Lemma problem_detail st fields :
  let f1 := if truthy (lookup_field "status" fields) then fields
            else assign_field "status" st fields in
  let f2 := if truthy (lookup_field "detail" f1) then f1
            else assign_field "detail" (lookup_field "message" f1) f1 in
  let f3 := if truthy (lookup_field "detail" f2) then f2
            else assign_field "detail" (an_error_occurred st) f2 in
  lookup_field "detail" f3 =
    if truthy (lookup_field "detail" fields) then lookup_field "detail" fields
    else if truthy (lookup_field "message" fields)
         then lookup_field "message" fields
         else an_error_occurred st.
Proof.
  intros f1 f2 f3.
  assert (H1d : lookup_field "detail" f1 = lookup_field "detail" fields).
  { subst f1. destruct (truthy (lookup_field "status" fields)); [done|].
    by apply lookup_assign_other. }
  assert (H1m : lookup_field "message" f1 = lookup_field "message" fields).
  { subst f1. destruct (truthy (lookup_field "status" fields)); [done|].
    by apply lookup_assign_other. }
  assert (H2 : lookup_field "detail" f2 =
               if truthy (lookup_field "detail" fields)
               then lookup_field "detail" fields
               else lookup_field "message" fields).
  { subst f2. rewrite H1d.
    destruct (truthy (lookup_field "detail" fields)); [done|].
    by rewrite lookup_assign_same. }
  subst f3. rewrite H2.
  destruct (truthy (lookup_field "detail" fields)) eqn:Ed.
  - by rewrite Ed.
  - destruct (truthy (lookup_field "message" fields)) eqn:Em; [done|].
    by rewrite lookup_assign_same.
Qed.

Section ReportProperties.

Variable valid_element_name : string -> bool.
Variable valid_attribute_name : string -> bool.
Variable setter_refuses : string -> string -> value -> option exn.
Variable call : fid -> list value -> M value.
Variable svg_root_name : string -> string.
Variable getElementById : string -> world -> value.
Variable JSON_stringify : value -> value.
Variable network : value -> value -> Promise Response.

Abbreviation toast4 :=
  (toast valid_element_name valid_attribute_name setter_refuses call
     svg_root_name getElementById).
Abbreviation showProblemDetail4 :=
  (showProblemDetail valid_element_name valid_attribute_name setter_refuses
     call svg_root_name getElementById).
Abbreviation _fetch4 := (_fetch JSON_stringify network).

Lemma showProblemDetail_problem r fields w :
  response_body r = ProblemBody (VObj fields) ->
  showProblemDetail4 r w =
    match toast4 (lookup_field "detail" fields) VUndefined w with
    | (Return _, w') => (Return (Resolved VUndefined), w')
    | (Throw e, w') => (Return (Rejected e), w')
    end.
Proof.
  intros Hr. unfold showProblemDetail, json. rewrite Hr.
  unfold then_, try_catch, bind, read, ret. simpl.
  by destruct (toast4 _ _ _) as [[id|e] w'].
Qed.

(** X19.  [showProblemDetail] on what [_fetch] resolved to shows the problem as
    a toast of the short duration, and never throws: it resolves to
    [undefined], or rejects with what [toast] threw.  After a transport
    failure the toast says "Please check your internet connection"; after
    an error response whose body is a JSON object it is the body's
    [detail] if truthy, else its [message] if truthy, else "An error
    occurred: " followed by the HTTP status. *)
Theorem failed_request_is_reported endpoint method payload formData w :
  (forall error,
     (forall init, network endpoint init = Rejected error) ->
     exists r w1,
       _fetch4 endpoint method payload formData w = (Return (Resolved r), w1) /\
       showProblemDetail4 r w1 =
         match toast4 (VStr "Please check your internet connection")
                 VUndefined w1 with
         | (Return _, w2) => (Return (Resolved VUndefined), w2)
         | (Throw e, w2) => (Return (Rejected e), w2)
         end) /\
  (forall response fields,
     (forall init, network endpoint init = Resolved response) ->
     ok response = false ->
     response_body response = NetworkBody (Resolved (VObj fields)) false ->
     exists r w1,
       _fetch4 endpoint method payload formData w = (Return (Resolved r), w1) /\
       showProblemDetail4 r w1 =
         match toast4
                 (if truthy (lookup_field "detail" fields)
                  then lookup_field "detail" fields
                  else if truthy (lookup_field "message" fields)
                       then lookup_field "message" fields
                       else VStr ("An error occurred: "
                                  ++ to_string (status response)))
                 VUndefined w1 with
         | (Return _, w2) => (Return (Resolved VUndefined), w2)
         | (Throw e, w2) => (Return (Rejected e), w2)
         end).
Proof.
  split.
  - intros error Hnet. rewrite _fetch_unfold, Hnet. eexists _, _.
    split; [reflexivity|]. by erewrite showProblemDetail_problem by reflexivity.
  - intros response fields Hnet Hok Hbody. rewrite _fetch_unfold, Hnet, Hok.
    destruct response as [o st b]. simpl in *. subst o b.
    rewrite getProblemDetail_object. eexists _, _. split; [reflexivity|].
    erewrite showProblemDetail_problem by reflexivity.
    by rewrite problem_detail.
Qed.

(** X20.  The problem [_fetch] makes of an error response always has something
    to show: when the body is a JSON object, is [null] or is no JSON at
    all, the problem's [detail] is truthy. *)
Theorem problem_always_has_a_detail
    endpoint method payload formData w response parsed :
  (forall init, network endpoint init = Resolved response) ->
  ok response = false ->
  response_body response = NetworkBody parsed false ->
  (exists fields, parsed = Resolved (VObj fields)) \/
  parsed = Resolved VNull \/ (exists e, parsed = Rejected e) ->
  exists r problem w',
    _fetch4 endpoint method payload formData w = (Return (Resolved r), w') /\
    json r = (Resolved problem, r) /\
    truthy (get problem "detail") = true.
Proof.
  intros Hnet Hok Hbody Hparsed. rewrite _fetch_unfold, Hnet, Hok.
  destruct response as [o st b]. simpl in *. subst o b.
  destruct Hparsed as [[fields ->]|Hfallback].
  - rewrite getProblemDetail_object. eexists _, _, _.
    split; [reflexivity|]. split; [reflexivity|].
    cbn [get]. rewrite problem_detail.
    destruct (truthy (lookup_field "detail" fields)) eqn:Ed; [done|].
    by destruct (truthy (lookup_field "message" fields)) eqn:Em.
  - match goal with |- context [getProblemDetail ?resp ?w1] =>
      destruct (getProblemDetail_fallback false st parsed w1 Hfallback)
        as [e He]
    end.
    rewrite He. eexists _, _, _. split; [reflexivity|]. by split.
Qed.

End ReportProperties.

(** ** What a toast looks like *)

Lemma lookup_end {A} (l : list A) x t :
  (l ++ x :: t)%list !! List.length l = Some x.
Proof. by rewrite lookup_app_r, Nat.sub_diag. Qed.

Lemma lookup_end' {A} (l : list A) x y t :
  (l ++ x :: y :: t)%list !! S (List.length l) = Some y.
Proof.
  rewrite lookup_app_r by lia.
  by replace (S (List.length l) - List.length l)%nat with 1%nat by lia.
Qed.

Lemma alter_end {A} (f : A -> A) (l : list A) x t :
  alter f (List.length l) (l ++ x :: t)%list = (l ++ f x :: t)%list.
Proof.
  replace (List.length l) with (List.length l + 0)%nat by lia.
  by rewrite alter_app_r.
Qed.

Lemma alter_end' {A} (f : A -> A) (l : list A) x y t :
  alter f (S (List.length l)) (l ++ x :: y :: t)%list
  = (l ++ x :: f y :: t)%list.
Proof.
  replace (S (List.length l)) with (List.length l + 1)%nat by lia.
  by rewrite alter_app_r.
Qed.

Lemma inclusive_ancestor_self fuel ns a : inclusive_ancestor fuel ns a a = true.
Proof. destruct fuel; cbn [inclusive_ancestor]; by rewrite Nat.eqb_refl. Qed.

Lemma inclusive_ancestor_parent fuel ns a c n :
  ns !! c = Some n -> parentNode n = Some a ->
  inclusive_ancestor (S fuel) ns a c = true.
Proof.
  intros Hc Hp. cbn [inclusive_ancestor].
  rewrite Hc, Hp, inclusive_ancestor_self. apply orb_true_r.
Qed.

(** A new node is no ancestor of the parentless node before it. *)
Lemma inclusive_ancestor_new_pair (l : list node) a b fuel :
  parentNode a = None ->
  inclusive_ancestor fuel (l ++ [a; b])%list (S (List.length l)) (List.length l)
  = false.
Proof.
  intros Ha. assert (Hne : Nat.eqb (S (List.length l)) (List.length l) = false)
    by (apply Nat.eqb_neq; lia).
  destruct fuel; cbn [inclusive_ancestor]; rewrite Hne; [done|].
  by rewrite lookup_end, Ha.
Qed.

Lemma detach_parentless c ns n :
  ns !! c = Some n -> parentNode n = None -> detach c ns = ns.
Proof. unfold detach. by intros -> ->. Qed.

Section ToastShown.

Variable valid_element_name : string -> bool.
Variable valid_attribute_name : string -> bool.
Variable setter_refuses : string -> string -> value -> option exn.
Variable call : fid -> list value -> M value.
Variable svg_root_name : string -> string.
Variable getElementById : string -> world -> value.

Abbreviation createElement5 :=
  (createElement valid_element_name valid_attribute_name setter_refuses call
     svg_root_name).
Abbreviation toast5 :=
  (toast valid_element_name valid_attribute_name setter_refuses call
     svg_root_name getElementById).

(** The text of a toast, built where the browser knows SPAN elements and
    lets their text be set. *)
Lemma span_built message parent w :
  valid_element_name "span" = true ->
  (truthy message = true -> setter_refuses "SPAN" "innerText" message = None) ->
  createElement5 (VObj [("tag", VStr "span"); ("text", message)]) parent w
  = (Return (VNode (List.length (nodes w))),
     with_nodes
       (nodes w ++
        [with_properties
           (if truthy message then [("innerText", message)] else [])
           (new_node "SPAN")])%list w).
Proof.
  intros Hv Hs. rewrite createElement_unfold.
  cbn [truthy negb get lookup_field String.eqb Ascii.eqb Bool.eqb].
  unfold try_catch, createElement_try.
  cbn [truthy negb get lookup_field String.eqb Ascii.eqb Bool.eqb].
  unfold bind at 1. cbn [ret].
  unfold bind at 1. unfold document_createElement. cbn [to_string]. rewrite Hv.
  change (to_upper "span") with "SPAN".
  unfold allocate, addInnerContent, setAttributes.
  cbn [truthy negb get lookup_field String.eqb Ascii.eqb Bool.eqb entries
       forEach when].
  destruct (truthy message) eqn:Em.
  - unfold set_property, bind, inspect, node_at, alter_node, update, ret, when.
    simpl. rewrite lookup_end. simpl. rewrite (Hs eq_refl). simpl.
    rewrite alter_end. by destruct (nullish message).
  - unfold bind, ret, when. simpl.
    destruct (nullish message); simpl; by rewrite with_properties_nil.
Qed.

(** The item of a toast: a DIV of class [toast-message] over the text. *)
Lemma toast_item_built message w :
  valid_element_name "span" = true ->
  (truthy message = true -> setter_refuses "SPAN" "innerText" message = None) ->
  let L := List.length (nodes w) in
  post (createElement5
          (VObj [("tag", VStr "div"); ("class", VStr "toast-message");
                 ("content",
                  VArr [VObj [("tag", VStr "span"); ("text", message)]] [])])
          VUndefined)
    (fun res w' =>
       forall r, res = Return (VNode r) ->
         r = L /\
         nodes w' =
           (nodes w ++
            [set_childNodes [S L]
               (with_attributes [("class", VStr "toast-message")]
                  (new_node "DIV"));
             set_parentNode (Some L)
               (with_properties
                  (if truthy message then [("innerText", message)] else [])
                  (new_node "SPAN"))])%list) w.
Proof.
  intros Hv Hs L. unfold post.
  destruct (createElement _ _ _ _ _ _ _ w) as [res w'] eqn:E. cbn [fst snd].
  intros r ->. revert E. rewrite createElement_unfold.
  cbn [truthy negb get lookup_field String.eqb Ascii.eqb Bool.eqb].
  unfold try_catch, createElement_try.
  cbn [truthy negb get lookup_field String.eqb Ascii.eqb Bool.eqb].
  unfold bind at 1. cbn [ret].
  unfold bind at 1. unfold document_createElement. cbn [to_string].
  destruct (valid_element_name "div"); [|by intros [=]].
  change (to_upper "div") with "DIV".
  unfold allocate. subst L.
  unfold addInnerContent, setAttributes.
  cbn [truthy negb get lookup_field String.eqb Ascii.eqb Bool.eqb entries
       forEach when nullish].
  change (includes excluded_keys "tag") with true.
  change (includes excluded_keys "class") with false.
  change (includes excluded_keys "content") with true.
  cbn [negb when].
  rewrite forEach_member_get.
  cbn [truthy negb get lookup_field String.eqb Ascii.eqb Bool.eqb
       array_forEach forEach].
  unfold setAttribute. destruct (valid_attribute_name "class");
    [|by intros [=]].
  unfold bind, ret, alter_node, update. cbn [nodes with_nodes].
  rewrite alter_end.
  rewrite span_built by done. cbn [nodes with_nodes truthy when].
  rewrite length_app. cbn [List.length]. rewrite Nat.add_1_r.
  unfold appendChild. cbn [nodes with_nodes].
  rewrite <- app_assoc. cbn [app].
  rewrite lookup_end, lookup_end'.
  rewrite inclusive_ancestor_new_pair by done.
  erewrite detach_parentless; [|apply lookup_end'|by destruct (truthy message)].
  rewrite alter_end, alter_end'. intros [= <- <-]. done.
Qed.

(** From the container on: the item is built, appended to the container
    and registered. *)
Lemma toast_tail message forLong container w2 :
  valid_element_name "span" = true ->
  (truthy message = true -> setter_refuses "SPAN" "innerText" message = None) ->
  post (let! item :=
          createElement5
            (VObj [("tag", VStr "div"); ("class", VStr "toast-message");
                   ("content",
                    VArr [VObj [("tag", VStr "span"); ("text", message)]] [])])
            VUndefined in
        appendChild_to container item ;;
        setTimeout (fun _ => TaskFadeIn item) 10 ;;
        let timeout := if truthy forLong then 6000 else 3000 in
        let! id := setTimeout (fun id => TaskRemoveToast id) timeout in
        update (fun w => with_toastItems (<[id := item]> (toastItems w)) w) ;;
        ret id)
    (fun res w' =>
       match res with
       | Return id =>
           exists r c nr nc,
             container = VNode c /\
             nodes w2 !! c = Some nc /\
             toastItems w' !! id = Some (VNode r) /\
             nodes w' !! r = Some nr /\
             parentNode nr = Some c /\
             nodes w' !! c = Some (set_childNodes (childNodes nc ++ [r]) nc) /\
             (forall x, (x < List.length (nodes w2))%nat -> x <> c ->
                nodes w' !! x = nodes w2 !! x)
       | Throw _ => True
       end) w2.
Proof.
  intros Hv Hs.
  apply post_bind. eapply post_mono; [by apply toast_item_built|].
  intros [item|e] w3 Hitem; [|done].
  apply post_bind. unfold post at 1.
  destruct (appendChild_to container item w3) as [[[]|e] w4] eqn:E4; cbn [fst snd];
    [|done].
  unfold appendChild_to in E4. destruct container as [| | | | |cr| | |]; try done.
  destruct item as [| | | | |r| | |]; try done.
  destruct (Hitem r eq_refl) as [-> Hnodes]. clear Hitem.
  unfold appendChild in E4. rewrite Hnodes in E4.
  rewrite lookup_end in E4.
  set (L := List.length (nodes w2)) in *.
  set (D := set_childNodes [S L]
              (with_attributes [("class", VStr "toast-message")]
                 (new_node "DIV"))) in *.
  set (Sp := set_parentNode (Some L)
               (with_properties
                  (if truthy message then [("innerText", message)] else [])
                  (new_node "SPAN"))) in *.
  assert (HD : (nodes w2 ++ [D; Sp])%list !! L = Some D) by apply lookup_end.
  assert (HS : (nodes w2 ++ [D; Sp])%list !! S L = Some Sp)
    by apply lookup_end'.
  destruct (_ !! cr) as [np|] eqn:Ecr; [|done].
  destruct (inclusive_ancestor _ _ _ _) eqn:Eanc; [done|].
  injection E4 as <-.
  assert (Hne : cr <> L).
  { intros ->. by rewrite inclusive_ancestor_self in Eanc. }
  assert (Hne' : cr <> S L).
  { intros ->. rewrite length_app, Nat.add_comm in Eanc.
    cbn [List.length Nat.add] in Eanc.
    erewrite inclusive_ancestor_parent in Eanc; [done|exact HS|done]. }
  assert (Hlt : (cr < L)%nat).
  { apply lookup_lt_Some in Ecr. rewrite length_app in Ecr. simpl in Ecr.
    unfold L in *. lia. }
  assert (Hold : nodes w2 !! cr = Some np).
  { by rewrite lookup_app_l in Ecr. }
  erewrite detach_parentless; [|exact HD|done].
  unfold post, setTimeout, bind, update, ret. simpl.
  exists L, cr, (set_parentNode (Some cr) D), np.
  rewrite lookup_insert_eq. do 3 (split; [done|]).
  rewrite list_lookup_alter_eq, list_lookup_alter_ne, HD by done.
  split; [done|]. split; [done|]. split.
  - rewrite list_lookup_alter_ne, list_lookup_alter_eq, Ecr by done. done.
  - intros x Hx Hxc.
    rewrite list_lookup_alter_ne, list_lookup_alter_ne by (fold L in Hx; lia || done).
    by rewrite lookup_app_l.
Qed.


(** The container [toast] makes when the page has none: a DIV with the
    id [toast-container], appended to the body. *)
Lemma container_made w :
  post (let! c := document_createElement valid_element_name (VStr "div") in
        set_property setter_refuses c "id" (VStr "toast-container") ;;
        let! body := inspect document_body in
        appendChild body (VNode c) ;;
        ret (VNode c))
    (fun res w2 =>
       forall v, res = Return v ->
         v = VNode (List.length (nodes w)) /\
         (document_body w < List.length (nodes w))%nat /\
         exists nb, nodes w !! document_body w = Some nb /\
           nodes w2 =
             (alter (fun pn => set_childNodes
                                 (childNodes pn ++ [List.length (nodes w)]) pn)
                (document_body w) (nodes w) ++
              [set_parentNode (Some (document_body w))
                 (with_properties [("id", VStr "toast-container")]
                    (new_node "DIV"))])%list) w.
Proof.
  unfold post.
  destruct ((let! c := document_createElement valid_element_name (VStr "div") in _) w)
    as [res w2] eqn:E.
  cbn [fst snd]. intros v ->. revert E.
  unfold bind at 1, document_createElement. cbn [to_string].
  destruct (valid_element_name "div"); [|by intros [=]].
  change (to_upper "div") with "DIV". unfold allocate.
  unfold bind at 1, set_property, bind at 1, inspect, node_at.
  cbn [nodes with_nodes]. rewrite lookup_end. cbn [from_option tagName new_node].
  destruct (setter_refuses "DIV" "id" (VStr "toast-container")); [by intros [=]|].
  unfold alter_node, update. cbn [nodes with_nodes]. rewrite alter_end.
  unfold bind at 1. cbn [document_body with_nodes].
  unfold bind at 1, appendChild. cbn [nodes with_nodes].
  rewrite lookup_end.
  destruct (_ !! document_body w) as [nb|] eqn:Eb; [|by intros [=]].
  destruct (inclusive_ancestor _ _ _ _) eqn:Eanc; [by intros [=]|].
  assert (Hne : document_body w <> List.length (nodes w)).
  { intros Heq. rewrite Heq, inclusive_ancestor_self in Eanc. done. }
  assert (Hlt : (document_body w < List.length (nodes w))%nat).
  { apply lookup_lt_Some in Eb. rewrite length_app in Eb. simpl in Eb. lia. }
  rewrite lookup_app_l in Eb by done.
  erewrite detach_parentless; [|apply lookup_end|done].
  cbn [ret]. intros [= <- <-]. split; [done|]. split; [done|].
  exists nb. split; [done|]. cbn [nodes with_nodes].
  rewrite alter_app_l by done.
  rewrite <- (length_alter (fun pn => set_childNodes
                                 (childNodes pn ++ [List.length (nodes w)]) pn)
                (nodes w) (document_body w)) at 1.
  by rewrite alter_end.
Qed.

(** X21.  A toast that was shown is registered as a new DIV of class
    [toast-message] whose only child is a new SPAN, the one built for the
    message; the DIV is the parent of that SPAN.  The browser is taken to
    know SPAN elements and to let their text be set. *)
Theorem toast_item_is_a_new_div_over_a_span message forLong w id w' :
  valid_element_name "span" = true ->
  (truthy message = true -> setter_refuses "SPAN" "innerText" message = None) ->
  toast5 message forLong w = (Return id, w') ->
  exists r s nr ns,
    toastItems w' !! id = Some (VNode r) /\
    (List.length (nodes w) <= r)%nat /\
    nodes w' !! r = Some nr /\
    tagName nr = "DIV" /\
    attributes nr = [("class", VStr "toast-message")] /\
    childNodes nr = [s] /\
    (List.length (nodes w) <= s)%nat /\
    s <> r /\
    nodes w' !! s = Some ns /\
    tagName ns = "SPAN" /\
    parentNode ns = Some r.
Proof.
  intros Hv Hs Hrun.
  cut (post (toast5 message forLong)
         (fun res w' =>
            match res with
            | Return id =>
                exists r s nr ns,
                  toastItems w' !! id = Some (VNode r) /\
                  (List.length (nodes w) <= r)%nat /\
                  nodes w' !! r = Some nr /\
                  tagName nr = "DIV" /\
                  attributes nr = [("class", VStr "toast-message")] /\
                  childNodes nr = [s] /\
                  (List.length (nodes w) <= s)%nat /\
                  s <> r /\
                  nodes w' !! s = Some ns /\
                  tagName ns = "SPAN" /\
                  parentNode ns = Some r
            | Throw _ => True
            end) w).
  { unfold post. by rewrite Hrun. }
  clear Hrun id w'. unfold toast.
  apply post_bind. unfold post at 1, inspect. cbn [fst snd].
  apply post_bind.
  eapply (post_mono _
            (fun res w2 =>
               match res with
               | Return _ => (List.length (nodes w) <= List.length (nodes w2))%nat
               | Throw _ => True
               end)).
  { destruct (truthy (getElementById "toast-container" w)); cbn [negb].
    - by apply post_ret.
    - eapply post_mono; [apply container_made|].
      intros [v|e] w2 H; [|done].
      destruct (H v eq_refl) as (_ & _ & nb & _ & ->).
      rewrite length_app, length_alter. lia. }
  intros [c|e] w2 Hgrow; [|done].
  apply post_bind. eapply post_mono; [by apply toast_item_built|].
  intros [item|e] w3 Hitem; [|done].
  apply post_bind. unfold post at 1.
  destruct (appendChild_to c item w3) as [[[]|e] w4] eqn:E4; cbn [fst snd];
    [|done].
  unfold appendChild_to in E4. destruct c as [| | | | |cr| | |]; try done.
  destruct item as [| | | | |r| | |]; try done.
  destruct (Hitem r eq_refl) as [-> Hnodes]. clear Hitem.
  unfold appendChild in E4. rewrite Hnodes in E4.
  rewrite lookup_end in E4.
  set (L := List.length (nodes w2)) in *.
  set (D := set_childNodes [S L]
              (with_attributes [("class", VStr "toast-message")]
                 (new_node "DIV"))) in *.
  set (Sp := set_parentNode (Some L)
               (with_properties
                  (if truthy message then [("innerText", message)] else [])
                  (new_node "SPAN"))) in *.
  assert (HD : (nodes w2 ++ [D; Sp])%list !! L = Some D) by apply lookup_end.
  assert (HS : (nodes w2 ++ [D; Sp])%list !! S L = Some Sp)
    by apply lookup_end'.
  destruct (_ !! cr) as [np|] eqn:Ecr; [|done].
  destruct (inclusive_ancestor _ _ _ _) eqn:Eanc; [done|].
  injection E4 as <-.
  assert (Hne : cr <> L).
  { intros ->. by rewrite inclusive_ancestor_self in Eanc. }
  assert (Hne' : cr <> S L).
  { intros ->. rewrite length_app, Nat.add_comm in Eanc.
    cbn [List.length Nat.add] in Eanc.
    erewrite inclusive_ancestor_parent in Eanc; [done|exact HS|done]. }
  erewrite detach_parentless; [|exact HD|done].
  unfold post, setTimeout, bind, update, ret. simpl.
  exists L, (S L), (set_parentNode (Some cr) D), Sp.
  rewrite lookup_insert_eq. split; [done|]. split; [done|].
  rewrite list_lookup_alter_eq, list_lookup_alter_ne, HD by done.
  rewrite list_lookup_alter_ne, list_lookup_alter_ne, HS by lia.
  repeat split; try done; lia.
Qed.

(** X23.  A toast goes into the container at the end: the item's parent is the
    node found under the id [toast-container], or, when the page has
    none, a new DIV with that id that was appended to the body; in
    either case the item is the container's last child.  The browser is
    taken to know SPAN elements and to let their text be set. *)
Theorem toast_goes_into_the_container message forLong w id w' :
  valid_element_name "span" = true ->
  (truthy message = true -> setter_refuses "SPAN" "innerText" message = None) ->
  toast5 message forLong w = (Return id, w') ->
  exists r c nr nc,
    toastItems w' !! id = Some (VNode r) /\
    nodes w' !! r = Some nr /\ parentNode nr = Some c /\
    nodes w' !! c = Some nc /\ last (childNodes nc) = Some r /\
    if truthy (getElementById "toast-container" w)
    then getElementById "toast-container" w = VNode c /\
         (c < List.length (nodes w))%nat
    else c = List.length (nodes w) /\
         tagName nc = "DIV" /\
         properties nc = [("id", VStr "toast-container")] /\
         parentNode nc = Some (document_body w) /\
         exists nb, nodes w' !! document_body w = Some nb /\
                    last (childNodes nb) = Some c.
Proof.
  intros Hv Hs Hrun.
  cut (post (toast5 message forLong)
         (fun res w' =>
            match res with
            | Return id =>
                exists r c nr nc,
                  toastItems w' !! id = Some (VNode r) /\
                  nodes w' !! r = Some nr /\ parentNode nr = Some c /\
                  nodes w' !! c = Some nc /\ last (childNodes nc) = Some r /\
                  if truthy (getElementById "toast-container" w)
                  then getElementById "toast-container" w = VNode c /\
                       (c < List.length (nodes w))%nat
                  else c = List.length (nodes w) /\
                       tagName nc = "DIV" /\
                       properties nc = [("id", VStr "toast-container")] /\
                       parentNode nc = Some (document_body w) /\
                       exists nb, nodes w' !! document_body w = Some nb /\
                                  last (childNodes nb) = Some c
            | Throw _ => True
            end) w).
  { unfold post. by rewrite Hrun. }
  clear Hrun id w'. unfold toast.
  apply post_bind. unfold post at 1, inspect. cbn [fst snd].
  destruct (truthy (getElementById "toast-container" w)) eqn:Ec0; cbn [negb].
  - apply post_bind, post_ret.
    eapply post_mono; [by apply toast_tail|].
    intros [id|e] w' H; [|done].
    destruct H as (r & c & nr & nc & Hc & Hnc & Hreg & Hr & Hp & Hc' & _).
    exists r, c, nr, (set_childNodes (childNodes nc ++ [r]) nc).
    do 4 (split; [done|]). split; [apply last_snoc|].
    split; [done|]. by eapply lookup_lt_Some.
  - apply post_bind. eapply post_mono; [apply container_made|].
    intros [v|e] w2 H; [|done].
    destruct (H v eq_refl) as (-> & Hlt & nb & Hnb & Hnodes). clear H.
    eapply post_mono; [by apply toast_tail|].
    intros [id|e] w' H; [|done].
    destruct H as (r & c & nr & nc & [= <-] & Hnc & Hreg & Hr & Hp & Hc' & Hothers).
    assert (Hc2 : nc = set_parentNode (Some (document_body w))
                        (with_properties [("id", VStr "toast-container")]
                           (new_node "DIV"))).
    { rewrite Hnodes in Hnc.
      rewrite lookup_app_r in Hnc by (rewrite length_alter; lia).
      rewrite length_alter, Nat.sub_diag in Hnc. by injection Hnc as <-. }
    exists r, (List.length (nodes w)), nr,
      (set_childNodes (childNodes nc ++ [r]) nc).
    do 4 (split; [done|]). split; [apply last_snoc|].
    split; [done|]. subst nc. do 3 (split; [done|]).
    exists (set_childNodes (childNodes nb ++ [List.length (nodes w)]) nb).
    split; [|apply last_snoc].
    rewrite Hothers; [|rewrite Hnodes, length_app, length_alter; lia|lia].
    rewrite Hnodes, lookup_app_l by (rewrite length_alter; lia).
    by rewrite list_lookup_alter_eq, Hnb.
Qed.
End ToastShown.

(** ** The tree around a new element *)

Section Detached.

Variable valid_element_name : string -> bool.
Variable valid_attribute_name : string -> bool.
Variable setter_refuses : string -> string -> value -> option exn.
Variable call : fid -> list value -> M value.
Variable svg_root_name : string -> string.

Abbreviation createElement6 :=
  (createElement valid_element_name valid_attribute_name setter_refuses call
     svg_root_name).

(** X22.  [createElement] does not put the element it builds anywhere: given a
    description that is no SVG markup and mentions no pre-built node, the
    node returned has no parent, and every node that was there, the
    parent passed in included, keeps its parent and its children.  The
    callbacks are taken to move no node. *)
Theorem created_element_is_not_attached info parent w r w' :
  (forall f args, respects (same_place nowhere) (call f args)) ->
  truthy (get info "svg") = false ->
  node_refs info = [] ->
  createElement6 info parent w = (Return (VNode r), w') ->
  (exists n, nodes w' !! r = Some n /\ parentNode n = None) /\
  (forall x nx, nodes w !! x = Some nx ->
     exists nx', nodes w' !! x = Some nx' /\
       parentNode nx' = parentNode nx /\ childNodes nx' = childNodes nx).
Proof.
  intros Hcall _ Hrefs Hrun.
  pose proof (createElement_builds_child valid_element_name
                valid_attribute_name setter_refuses call svg_root_name Hcall
                info parent w) as H.
  rewrite Hrefs in H. specialize (H (Forall_nil_2 _) (NoDup_nil_2)).
  unfold post in H. rewrite Hrun in H. cbn [fst snd] in H.
  destruct H as (Hrel & v & [= <-] & Hnew). split.
  - destruct (Hnew r eq_refl) as [Hin|(_ & n & Hn & Hp)]; [|by eauto].
    by apply elem_of_nil in Hin.
  - intros x nx Hx. destruct (Hrel x nx Hx) as (nx' & Hx' & Hparent & Hchildren).
    exists nx'. split; [done|]. split.
    + apply Hparent. by intros Hin%elem_of_nil.
    + apply Hchildren. by intros c _ Hin%elem_of_nil.
Qed.

End Detached.

(** ** The sample browser once more *)

Lemma sample_call_respects (P : ref -> node -> node -> Prop) f args :
  (forall x n, P x n n) -> respects P (Sample.call f args).
Proof.
  intros Hrefl. apply respects_same_nodes; [exact Hrefl|].
  intros w. by destruct f.
Qed.

Lemma sample_call_preserves f args :
  preserves only_nodes_and_log (Sample.call f args).
Proof. intros w. destruct f; apply only_nodes_and_log_refl. Qed.

Lemma ok_response_is_passed_on_witness :
  exists init,
    Demo.request Demo.fine Sample.endpoint (VStr "GET") VUndefined VUndefined
      Sample.page
    = (Return (Resolved
         (mkResponse true (VNum 200)
            (NetworkBody (Resolved (VObj [("items", VArr [] [])])) false))),
       with_requests (requests Sample.page ++ [(Sample.endpoint, init)])%list
         Sample.page).
Proof.
  apply (ok_response_is_passed_on Sample.JSON_stringify Demo.fine
           Sample.endpoint (VStr "GET") VUndefined VUndefined Sample.page);
    [intros init; reflexivity|reflexivity].
Defined.

Lemma one_request_per_call_witness :
  exists init,
    requests (Demo.request Sample.unreachable Sample.endpoint (VStr "DELETE")
                VUndefined VUndefined Sample.page).2
    = [(Sample.endpoint, init)] /\
    get init "method" = VStr "DELETE" /\
    init = VObj [("headers", VObj []); ("method", VStr "DELETE")].
Proof.
  destruct (one_request_per_call Sample.JSON_stringify Sample.unreachable
              Sample.endpoint (VStr "DELETE") VUndefined VUndefined Sample.page
              eq_refl)
    as (init & Hreq & Hmethod & _ & Hbare).
  exists init. split; [exact Hreq|]. split.
  - apply Hmethod. reflexivity.
  - apply Hbare; reflexivity.
Defined.

Lemma _fetch_always_resolves_witness :
  exists r w',
    Demo.request Sample.unreachable Sample.endpoint (VStr "DELETE")
      VUndefined VUndefined Sample.page = (Return (Resolved r), w') /\
    (if ok r
     then (exists init, Sample.unreachable Sample.endpoint init = Resolved r) /\
          console w' = console Sample.page
     else exists problem, json r = (Resolved problem, r)).
Proof.
  apply (_fetch_always_resolves Sample.JSON_stringify Sample.unreachable
           Sample.endpoint (VStr "DELETE") VUndefined VUndefined Sample.page).
  reflexivity.
Defined.

Lemma problem_keeps_the_body_witness :
  exists r w',
    Demo.request Demo.unprocessable Sample.endpoint (VStr "POST") VUndefined
      VUndefined Sample.page = (Return (Resolved r), w') /\
    json r = (Resolved (VObj Demo.unprocessable_body), r).
Proof.
  destruct (problem_keeps_the_body Sample.JSON_stringify Demo.unprocessable
              Sample.endpoint (VStr "POST") VUndefined VUndefined Sample.page
              _ Demo.unprocessable_body (fun _ => eq_refl) eq_refl eq_refl)
    as (r & problem & w' & Hrun & Hjson & _ & _ & Hsame).
  exists r, w'. split; [exact Hrun|].
  rewrite (Hsame eq_refl eq_refl) in Hjson. exact Hjson.
Defined.

Lemma createElement_touches_nodes_and_console_only_witness :
  only_nodes_and_log Sample.page
    (Demo.build Sample.box (VNode 0%nat) Sample.page).2.
Proof.
  apply (createElement_touches_nodes_and_console_only Sample.valid_name
           Sample.valid_name Sample.setter_refuses Sample.call
           Sample.svg_root_name Sample.box (VNode 0%nat) Sample.page).
  apply callbacks_all. exact sample_call_preserves.
Defined.

Lemma toast_schedules_and_registers_witness :
  exists item w',
    Demo.show (VStr "Saved") (VBool true) Sample.page = (Return 2, w') /\
    timers w' = [mkTimer 1 (TaskFadeIn item) 10;
                 mkTimer 2 (TaskRemoveToast 2) 6000] /\
    toastItems w' = <[2 := item]> ∅.
Proof.
  assert (Hrun :
    Demo.show (VStr "Saved") (VBool true) Sample.page
    = (Return 2, (Demo.show (VStr "Saved") (VBool true) Sample.page).2))
    by (vm_compute; reflexivity).
  destruct (toast_schedules_and_registers Sample.valid_name Sample.valid_name
              Sample.setter_refuses Sample.call Sample.svg_root_name
              Sample.getElementById _ _ _ _ _ Hrun)
    as (item & Ht & _ & Hreg & _).
  exists item. eexists. split; [exact Hrun|]. split; [exact Ht|exact Hreg].
Defined.

Lemma successive_toasts_are_both_registered_witness :
  exists w1 w2,
    Demo.show (VStr "Saved") VUndefined Sample.page = (Return 2, w1) /\
    Demo.show (VStr "Sent") VUndefined w1 = (Return 4, w2) /\
    is_Some (toastItems w2 !! 4) /\
    is_Some (toastItems w1 !! 2) /\
    toastItems w2 !! 2 = toastItems w1 !! 2.
Proof.
  assert (Hrun1 :
    Demo.show (VStr "Saved") VUndefined Sample.page
    = (Return 2, (Demo.show (VStr "Saved") VUndefined Sample.page).2))
    by (vm_compute; reflexivity).
  assert (Hrun2 :
    Demo.show (VStr "Sent") VUndefined
      (Demo.show (VStr "Saved") VUndefined Sample.page).2
    = (Return 4,
       (Demo.show (VStr "Sent") VUndefined
          (Demo.show (VStr "Saved") VUndefined Sample.page).2).2))
    by (vm_compute; reflexivity).
  destruct (successive_toasts_are_both_registered Sample.valid_name
              Sample.valid_name Sample.setter_refuses Sample.call
              Sample.svg_root_name Sample.getElementById
              _ _ _ _ _ _ _ _ _ Hrun1 Hrun2) as (_ & H).
  eexists _, _. split; [exact Hrun1|]. split; [exact Hrun2|exact H].
Defined.

Lemma auto_dismiss_after_removal_does_nothing_witness :
  exists w1 delay w2,
    Demo.show (VStr "Saved") VUndefined Sample.page = (Return 2, w1) /\
    mkTimer 2 (TaskRemoveToast 2) delay ∈ timers w1 /\
    removeToast 2 w1 = (Return tt, w2) /\
    run_task (TaskRemoveToast 2) w1 = (Return tt, w2) /\
    mkTimer 2 (TaskRemoveToast 2) delay ∈ timers w2 /\
    run_task (TaskRemoveToast 2) w2 = (Return tt, w2).
Proof.
  assert (Hrun :
    Demo.show (VStr "Saved") VUndefined Sample.page
    = (Return 2, (Demo.show (VStr "Saved") VUndefined Sample.page).2))
    by (vm_compute; reflexivity).
  destruct (auto_dismiss_after_removal_does_nothing Sample.valid_name
              Sample.valid_name Sample.setter_refuses Sample.call
              Sample.svg_root_name Sample.getElementById _ _ _ _ _ Hrun)
    as (delay & w2 & H).
  eexists _, delay, w2. split; [exact Hrun|exact H].
Defined.

Lemma removed_toast_leaves_the_document_witness :
  exists w1 r c w2 w3,
    Demo.show (VStr "Saved") VUndefined Sample.page = (Return 2, w1) /\
    toastItems w1 !! 2 = Some (VNode r) /\
    parentNode <$> nodes w1 !! r = Some (Some c) /\
    removeToast 2 w1 = (Return tt, w2) /\
    last (timers w2)
      = Some (mkTimer (next_timer w1) (TaskDetach (VNode r)) 300) /\
    run_task (TaskDetach (VNode r)) w2 = (Return tt, w3) /\
    parentNode <$> nodes w3 !! r = Some None /\
    (forall nc, nodes w3 !! c = Some nc -> r ∉ childNodes nc).
Proof.
  assert (Hrun :
    Demo.show (VStr "Saved") VUndefined Sample.page
    = (Return 2, (Demo.show (VStr "Saved") VUndefined Sample.page).2))
    by (vm_compute; reflexivity).
  destruct (removed_toast_leaves_the_document Sample.valid_name
              Sample.valid_name Sample.setter_refuses Sample.call
              Sample.svg_root_name Sample.getElementById _ _ _ _ _ Hrun)
    as (r & c & w2 & w3 & H).
  eexists _, r, c, w2, w3. split; [exact Hrun|exact H].
Defined.

Lemma svg_description_is_parsed_witness :
  exists res w',
    Demo.build Demo.drawing VUndefined Sample.page = (Return res, w') /\
    console w' = console Sample.page /\
    exists r n, res = VNode r /\ (1 <= r)%nat /\
                nodes w' !! r = Some n /\ tagName n = "svg".
Proof.
  destruct (svg_description_is_parsed Sample.valid_name Sample.valid_name
              Sample.setter_refuses Sample.call Sample.svg_root_name
              Demo.drawing VUndefined Sample.page eq_refl eq_refl)
    as (res & w' & Hrun & _ & _ & _ & H).
  exists res, w'. split; [exact Hrun|exact H].
Defined.


Lemma createElement_keeps_existing_nodes_witness :
  related same_element (nodes Sample.page_with_badge)
    (nodes (Demo.build Sample.twice (VNode 0%nat) Sample.page_with_badge).2).
Proof.
  apply (createElement_keeps_existing_nodes Sample.valid_name
           Sample.valid_name Sample.setter_refuses Sample.call
           Sample.svg_root_name Sample.twice (VNode 0%nat)
           Sample.page_with_badge).
  apply callbacks_all. intros f args.
  apply sample_call_respects. exact same_element_refl.
Defined.

Lemma new_element_tag_witness :
  exists w' n,
    Demo.build Demo.first_item (VNode 1%nat) Demo.page_with_list
    = (Return (VNode 2%nat), w') /\
    nodes w' !! 2%nat = Some n /\
    tagName n = "LI".
Proof.
  assert (Hrun :
    Demo.build Demo.first_item (VNode 1%nat) Demo.page_with_list
    = (Return (VNode 2%nat),
       (Demo.build Demo.first_item (VNode 1%nat) Demo.page_with_list).2))
    by (vm_compute; reflexivity).
  assert (Hcb : callbacks Sample.call (respects same_element) Demo.first_item).
  { apply callbacks_all. intros f args.
    apply sample_call_respects. exact same_element_refl. }
  destruct (new_element_tag Sample.valid_name Sample.valid_name
              Sample.setter_refuses Sample.call Sample.svg_root_name
              Demo.first_item (VNode 1%nat) Demo.page_with_list 2%nat _
              Hcb eq_refl eq_refl eq_refl Hrun)
    as (_ & n & Hn & _ & Hnone).
  eexists _, n. split; [exact Hrun|]. split; [exact Hn|].
  destruct (Hnone eq_refl 1%nat _ eq_refl eq_refl) as (_ & Hli & _).
  apply Hli. by left.
Defined.

Lemma new_element_listeners_witness :
  exists w' n,
    Demo.build Demo.field VUndefined Sample.page = (Return (VNode 1%nat), w') /\
    nodes w' !! 1%nat = Some n /\
    listeners n = [("change", VFun 0%nat)].
Proof.
  assert (Hrun :
    Demo.build Demo.field VUndefined Sample.page
    = (Return (VNode 1%nat), (Demo.build Demo.field VUndefined Sample.page).2))
    by (vm_compute; reflexivity).
  assert (Hcb : callbacks Sample.call (respects same_element) Demo.field).
  { apply callbacks_all. intros f args.
    apply sample_call_respects. exact same_element_refl. }
  destruct (new_element_listeners Sample.valid_name Sample.valid_name
              Sample.setter_refuses Sample.call Sample.svg_root_name
              Demo.field VUndefined Sample.page 1%nat _
              Hcb eq_refl eq_refl eq_refl eq_refl Hrun)
    as (n & Hn & H).
  eexists _, n. split; [exact Hrun|]. split; [exact Hn|exact H].
Defined.

Lemma failed_request_is_reported_witness :
  exists r w1,
    Demo.request Sample.unreachable Sample.endpoint VUndefined VUndefined
      VUndefined Sample.page = (Return (Resolved r), w1) /\
    Demo.report r w1 =
      match Demo.show (VStr "Please check your internet connection")
              VUndefined w1 with
      | (Return _, w2) => (Return (Resolved VUndefined), w2)
      | (Throw e, w2) => (Return (Rejected e), w2)
      end.
Proof.
  apply (proj1 (failed_request_is_reported Sample.valid_name Sample.valid_name
                  Sample.setter_refuses Sample.call Sample.svg_root_name
                  Sample.getElementById Sample.JSON_stringify
                  Sample.unreachable Sample.endpoint VUndefined VUndefined
                  VUndefined Sample.page)
           (TypeError "Failed to fetch")).
  intros init. reflexivity.
Defined.

Lemma toast_item_is_a_new_div_over_a_span_witness :
  exists w' r s nr ns,
    Demo.show (VStr "Saved") VUndefined Sample.page = (Return 2, w') /\
    toastItems w' !! 2 = Some (VNode r) /\
    (1 <= r)%nat /\
    nodes w' !! r = Some nr /\
    tagName nr = "DIV" /\
    attributes nr = [("class", VStr "toast-message")] /\
    childNodes nr = [s] /\
    (1 <= s)%nat /\
    s <> r /\
    nodes w' !! s = Some ns /\
    tagName ns = "SPAN" /\
    parentNode ns = Some r.
Proof.
  assert (Hrun :
    Demo.show (VStr "Saved") VUndefined Sample.page
    = (Return 2, (Demo.show (VStr "Saved") VUndefined Sample.page).2))
    by (vm_compute; reflexivity).
  destruct (toast_item_is_a_new_div_over_a_span Sample.valid_name
              Sample.valid_name Sample.setter_refuses Sample.call
              Sample.svg_root_name Sample.getElementById (VStr "Saved")
              VUndefined Sample.page 2 _ eq_refl (fun _ => eq_refl) Hrun)
    as (r & s & nr & ns & H).
  eexists _, r, s, nr, ns. split; [exact Hrun|exact H].
Defined.

Lemma created_element_is_not_attached_witness :
  exists w' n body,
    Demo.build Sample.menu (VNode 0%nat) Sample.page
    = (Return (VNode 1%nat), w') /\
    nodes w' !! 1%nat = Some n /\ parentNode n = None /\
    nodes w' !! 0%nat = Some body /\ childNodes body = [].
Proof.
  assert (Hrun :
    Demo.build Sample.menu (VNode 0%nat) Sample.page
    = (Return (VNode 1%nat),
       (Demo.build Sample.menu (VNode 0%nat) Sample.page).2))
    by (vm_compute; reflexivity).
  assert (Hcall : forall f args,
            respects (same_place nowhere) (Sample.call f args)).
  { intros f args. apply sample_call_respects. apply same_place_refl. }
  destruct (created_element_is_not_attached Sample.valid_name
              Sample.valid_name Sample.setter_refuses Sample.call
              Sample.svg_root_name Sample.menu (VNode 0%nat) Sample.page
              1%nat _ Hcall eq_refl eq_refl Hrun)
    as ((n & Hn & Hp) & Hold).
  destruct (Hold 0%nat (new_node "BODY") eq_refl) as (body & Hb & _ & Hc).
  eexists _, n, body. split; [exact Hrun|].
  split; [exact Hn|]. split; [exact Hp|]. split; [exact Hb|exact Hc].
Defined.

Lemma failed_toast_leaves_no_trace_witness :
  exists e w',
    toast (fun _ => false) Sample.valid_name Sample.setter_refuses Sample.call
      Sample.svg_root_name Sample.getElementById (VStr "Saved") VUndefined
      Sample.page = (Throw e, w') /\
    timers w' = [] /\ toastItems w' = ∅.
Proof.
  assert (Hrun :
    toast (fun _ => false) Sample.valid_name Sample.setter_refuses Sample.call
      Sample.svg_root_name Sample.getElementById (VStr "Saved") VUndefined
      Sample.page = (Throw (InvalidCharacterError "div"), Sample.page))
    by (vm_compute; reflexivity).
  destruct (failed_toast_leaves_no_trace (fun _ => false) Sample.valid_name
              Sample.setter_refuses Sample.call Sample.svg_root_name
              Sample.getElementById (VStr "Saved") VUndefined Sample.page
              _ _ Hrun) as (Ht & _ & Hreg & _).
  eexists _, _. split; [exact Hrun|]. split; [exact Ht|exact Hreg].
Defined.

Lemma problem_always_has_a_detail_witness :
  exists r problem w',
    Demo.request Sample.server_error Sample.endpoint VUndefined VUndefined
      VUndefined Sample.page = (Return (Resolved r), w') /\
    json r = (Resolved problem, r) /\
    truthy (get problem "detail") = true.
Proof.
  apply (problem_always_has_a_detail Sample.JSON_stringify Sample.server_error
           Sample.endpoint VUndefined VUndefined VUndefined Sample.page
           (mkResponse false (VNum 500)
              (NetworkBody
                 (Rejected (Error "Unexpected token '<' is not valid JSON"))
                 false))
           (Rejected (Error "Unexpected token '<' is not valid JSON")));
    [intros init; reflexivity|reflexivity|reflexivity|].
  right. right. eexists. reflexivity.
Defined.

Lemma toast_goes_into_the_container_witness :
  exists w' r c nr nc nb,
    Demo.show (VStr "Saved") VUndefined Sample.page = (Return 2, w') /\
    toastItems w' !! 2 = Some (VNode r) /\
    nodes w' !! r = Some nr /\ parentNode nr = Some c /\
    nodes w' !! c = Some nc /\ last (childNodes nc) = Some r /\
    c = 1%nat /\ tagName nc = "DIV" /\
    properties nc = [("id", VStr "toast-container")] /\
    parentNode nc = Some 0%nat /\
    nodes w' !! 0%nat = Some nb /\ last (childNodes nb) = Some c.
Proof.
  assert (Hrun :
    Demo.show (VStr "Saved") VUndefined Sample.page
    = (Return 2, (Demo.show (VStr "Saved") VUndefined Sample.page).2))
    by (vm_compute; reflexivity).
  destruct (toast_goes_into_the_container Sample.valid_name Sample.valid_name
              Sample.setter_refuses Sample.call Sample.svg_root_name
              Sample.getElementById (VStr "Saved") VUndefined Sample.page 2 _
              eq_refl (fun _ => eq_refl) Hrun)
    as (r & c & nr & nc & Hreg & Hr & Hp & Hc & Hlast & Hcase).
  simpl in Hcase.
  destruct Hcase as (Hc1 & Htag & Hprops & Hparent & nb & Hnb & Hlastb).
  eexists _, r, c, nr, nc, nb. split; [exact Hrun|].
  split; [exact Hreg|]. split; [exact Hr|]. split; [exact Hp|].
  split; [exact Hc|]. split; [exact Hlast|]. split; [exact Hc1|].
  split; [exact Htag|]. split; [exact Hprops|]. split; [exact Hparent|].
  split; [exact Hnb|exact Hlastb].
Defined.

Lemma defaulted_tag_is_warned_witness :
  exists more,
    console (Demo.build (VObj [("text", VStr "hi")]) (VNode 0%nat)
               Sample.page).2
    = ([] ++ LogWarn "No element tag specified in:"
               (VObj [("text", VStr "hi")]) :: more)%list.
Proof.
  apply (defaulted_tag_is_warned Sample.valid_name Sample.valid_name
           Sample.setter_refuses Sample.call Sample.svg_root_name
           (VObj [("text", VStr "hi")]) (VNode 0%nat) Sample.page 0%nat
           (new_node "BODY"));
    [|reflexivity|reflexivity|reflexivity|reflexivity|reflexivity|reflexivity
     |discriminate|discriminate|discriminate].
  apply callbacks_all. exact sample_call_preserves.
Defined.
